(** * Corynth plugin pack: the stdio JSON plugin protocol

    A shallow embedding of the Go plugins under [official/] (calculator,
    http, template, slack, llm) and of the process contract their [main]
    functions implement: mode selection on [os.Args], reading of stdin,
    dispatch through [Execute], and the single JSON document encoded on
    stdout.

    Go values that travel through [map[string]interface{}] are a tagged
    union; Go maps are [gmap]s; [float64] is Rocq's primitive binary64
    float; a Go [error] is its message.  The Go standard library
    ([encoding/json], [go/parser], [strconv], [math], [fmt]) is an interface
    ([GoLib]); a reference implementation of the part the calculator needs
    is given further down ([RefLib]). *)

From Stdlib Require Import ZArith Floats String Ascii List Uint63 DecimalString.
From stdpp Require Import base option list gmap strings.

Local Open Scope string_scope.
Local Open Scope Z_scope.

(** ** Go values *)

(** What an [interface{}] holds in these programs: the results of
    [json.Unmarshal] ([nil], [bool], [float64], [string], [[]interface{}],
    [map[string]interface{}]) and the [int]s that handlers and action
    tables put there themselves. *)
#[warnings="-register-all"]
Inductive value : Type :=
  | VNil
  | VBool (b : bool)
  | VFloat (f : float)
  | VInt (z : Z)
  | VString (s : string)
  | VSlice (l : list value)
  | VMap (m : gmap string value).

(** A Go [error]: [None] is [nil], [Some msg] an error whose [Error()] is
    [msg]. *)
Abbreviation error := (option string).

(** A Go result pair [(T, error)] of a library call: exactly one side is
    meaningful. *)
Inductive res (A : Type) : Type :=
  | Ok (a : A)
  | Err (msg : string).
Arguments Ok {A} a.
Arguments Err {A} msg.

#[global] Instance res_ret : MRet res := λ A, Ok.

#[global] Instance res_bind : MBind res := λ A B f m,
  match m with
  | Ok a => f a
  | Err err => Err err
  end.

(** Type assertions [v, ok := m[k].(T)]; a missing key yields the nil
    interface, on which every assertion fails. *)
Definition as_string (v : option value) : option string :=
  match v with Some (VString s) => Some s | _ => None end.

Definition as_float64 (v : option value) : option float :=
  match v with Some (VFloat f) => Some f | _ => None end.

Definition as_bool (v : option value) : option bool :=
  match v with Some (VBool b) => Some b | _ => None end.

Definition as_slice (v : option value) : option (list value) :=
  match v with Some (VSlice l) => Some l | _ => None end.

Definition as_map (v : option value) : option (gmap string value) :=
  match v with Some (VMap m) => Some m | _ => None end.

(** [json.Marshal] rejects NaN and the infinities ([UnsupportedValueError]);
    every other value of this type encodes. *)
Fixpoint encodable (v : value) : bool :=
  match v with
  | VFloat f => PrimFloat.is_finite f
  | VSlice l => forallb encodable l
  | VMap m => map_fold (λ _ x acc, encodable x && acc) true m
  | _ => true
  end.

(** ** The protocol's static tables *)

Record Metadata : Type := {
  Name : string;
  Version : string;
  Description : string;
  Author : string;
  Tags : list string
}.

(** [Default] has the tag [omitempty]: [None] is the nil interface. *)
Record IOSpec : Type := {
  Type_ : string;
  Required : bool;
  Default : option value;
  IODescription : string
}.

Record ActionSpec : Type := {
  ActDescription : string;
  Inputs : gmap string IOSpec;
  Outputs : gmap string IOSpec
}.

(** ** go/token and go/ast *)

Inductive Token : Type :=
  | INT | FLOAT | IMAG | CHAR | STRING
  | ADD | SUB | MUL | QUO | REM
  | AND | OR | XOR | SHL | SHR | AND_NOT
  | LAND | LOR | ARROW
  | EQL | LSS | GTR | NOT | NEQ | LEQ | GEQ.

(** [Token.String], what [%v] prints. *)
Definition Token_String (t : Token) : string :=
  match t with
  | INT => "INT" | FLOAT => "FLOAT" | IMAG => "IMAG" | CHAR => "CHAR"
  | STRING => "STRING"
  | ADD => "+" | SUB => "-" | MUL => "*" | QUO => "/" | REM => "%"
  | AND => "&" | OR => "|" | XOR => "^" | SHL => "<<" | SHR => ">>"
  | AND_NOT => "&^" | LAND => "&&" | LOR => "||" | ARROW => "<-"
  | EQL => "==" | LSS => "<" | GTR => ">" | NOT => "!" | NEQ => "!="
  | LEQ => "<=" | GEQ => ">="
  end.

(** The [ast.Node]s the calculator tells apart; [OtherNode T] is a node of
    any other dynamic type, [T] being what [%T] prints for it. *)
Inductive Node : Type :=
  | BinaryExpr (X : Node) (Op : Token) (Y : Node)
  | UnaryExpr (Op : Token) (X : Node)
  | ParenExpr (X : Node)
  | BasicLit (Kind : Token) (Value : string)
  | Ident (IdentName : string)
  | OtherNode (T : string).

(** ** The Go standard library, as far as the plugins call it *)

Class GoLib : Type := {
  (** [json.Unmarshal(data, &params)] with [params] a nil
      [map[string]interface{}]; a JSON [null] leaves the map nil, which
      reads like the empty map. *)
  json_Unmarshal : string → res (gmap string value);
  (** [json.NewDecoder(r).Decode(&params)] on a reader holding these
      bytes. *)
  json_Decode : string → res (gmap string value);
  (** [parser.ParseExpr]. *)
  parser_ParseExpr : string → res Node;
  (** [strconv.ParseInt(s, 10, 64)] and [strconv.ParseFloat(s, 64)]. *)
  strconv_ParseInt : string → res Z;
  strconv_ParseFloat : string → res float;
  (** [math.Pow], [math.Round], [math.Mod]. *)
  math_Pow : float → float → float;
  math_Round : float → float;
  math_Mod : float → float → float;
  (** The conversions [int(f)] and [float64(n)]. *)
  int_of_float64 : float → Z;
  float64_of_int : Z → float;
  (** [fmt.Sprintf("%.2f", f)]. *)
  fmt_2f : float → string;
  (** [json.Unmarshal(data, &v)] with [v] an [interface{}]; and the
      message of the [UnsupportedValueError] of [json.Marshal]. *)
  json_Unmarshal_value : string → res value;
  json_Marshal_error : value → string;
  (** [bytes.TrimSpace]. *)
  bytes_TrimSpace : string → string;
  (** [http.NewRequest(method, url, body)]: whether the method and the URL
      are accepted; and [textproto.CanonicalMIMEHeaderKey], which
      [Header.Set] and [Header.Get] apply to their key. *)
  http_NewRequest : string → string → res unit;
  http_CanonicalHeaderKey : string → string
}.

(** [math.Pi] and [math.E] rounded to float64. *)
Definition math_Pi : float := 0x1.921fb54442d18p+1%float.
Definition math_E : float := 0x1.5bf0a8b145769p+1%float.

(** ** net/http, as far as the plugins use it *)

(** A request body: bytes taken as they are, or the bytes [json.Marshal]
    made of a document, which stand here as the document itself (as on
    standard output, see [Trace]). *)
Inductive body : Type :=
  | Raw (s : string)
  | JSON (v : value).

(** What a handler hands to [client.Do]: the request built by
    [http.NewRequest], the headers set on it, and the basic-auth pair. *)
Record Request : Type := {
  Method : string;
  URL : string;
  Body : option body;
  Header : gmap string string;
  BasicAuth : option (string * string)
}.

(** What [client.Do] hands back: [RespBody] is the outcome of
    [io.ReadAll(resp.Body)]. *)
Record Response : Type := {
  StatusCode : Z;
  RespHeader : gmap string (list string);
  RespBody : res string
}.

(** [json.Marshal]: it fails on exactly the values that are not
    [encodable]. *)
Definition json_Marshal `{GoLib} (v : value) : res body :=
  if encodable v then Ok (JSON v) else Err (json_Marshal_error v).

(** ** The process boundary *)

(** What a plugin process finds when it starts.  [Stdin] is the outcome of
    reading standard input to its end; [Getenv] is [os.Getenv]; [HttpDo] is
    the network seen through [client.Do], given the client's [Timeout] in
    nanoseconds. *)
Record Env : Type := {
  Args : list string;
  Stdin : res string;
  Getenv : string → string;
  HttpDo : Z → Request → res Response
}.

(** What the process leaves behind: the JSON documents
    [json.NewEncoder(os.Stdout).Encode] wrote, oldest first, each followed
    by a newline; whether standard input was read; and the calls of
    [plugin.Execute(action, params)] that [main] made, oldest first, each
    with its two arguments. *)
Record Trace : Type := {
  stdout : list value;
  stdin_read : bool;
  calls : list (string * gmap string value)
}.

Definition start : Trace := {| stdout := []; stdin_read := false; calls := [] |}.

(** A computation either returns or has ended the process, by [os.Exit]
    or by a panic that nothing recovers. *)
Inductive outcome (A : Type) : Type :=
  | Return (a : A)
  | Exited (code : Z).
Arguments Return {A} a.
Arguments Exited {A} code.

Definition Proc (A : Type) : Type := Trace → outcome A * Trace.

#[global] Instance Proc_ret : MRet Proc := λ A a t, (Return a, t).

#[global] Instance Proc_bind : MBind Proc := λ A B f m t,
  match m t with
  | (Return a, t') => f a t'
  | (Exited code, t') => (Exited code, t')
  end.

Definition os_Exit {A : Type} (code : Z) : Proc A :=
  λ t, (Exited code, t).

(** [io.ReadAll(os.Stdin)]. *)
Definition ReadAll_Stdin (e : Env) : Proc (res string) :=
  λ t, (Return (Stdin e),
        {| stdout := stdout t; stdin_read := true; calls := calls t |}).

(** What [json.NewEncoder(os.Stdout).Encode(v)] writes: the document is
    marshalled first, and nothing is written if that fails. *)
Definition written (v : value) : list value :=
  if encodable v then [v] else [].

(** [json.NewEncoder(os.Stdout).Encode(v)]; the callers drop its
    error. *)
Definition Encode (v : value) : Proc unit :=
  λ t, (Return (),
        {| stdout := stdout t ++ written v; stdin_read := stdin_read t;
           calls := calls t |}).

(** What a call of a handler comes to: it returns, or it panics with a
    message. *)
Inductive Answer (A : Type) : Type :=
  | Returns (a : A)
  | Panics (msg : string).
Arguments Returns {A} a.
Arguments Panics {A} msg.

(** A handler that always returns. *)
Definition total {A : Type} (X : Env → string → gmap string value → A)
    : Env → string → gmap string value → Answer A :=
  λ e action params, Returns (X e action params).

(** The call [plugin.Execute(action, params)] is made. *)
Definition Call (action : string) (params : gmap string value) : Proc unit :=
  λ t, (Return (),
        {| stdout := stdout t; stdin_read := stdin_read t;
           calls := calls t ++ [(action, params)] |}).

(** No [main] recovers from a panic: the Go runtime prints the message
    and the stack to standard error and ends the process with status 2. *)
Definition panic {A : Type} (msg : string) : Proc A := os_Exit 2.

(** The call returns its answer to [main], or its panic ends the
    process. *)
Definition answer {A : Type} (a : Answer A) : Proc A :=
  match a with
  | Returns a => mret a
  | Panics msg => panic msg
  end.

(** A process that returns from [main] exits with code 0. *)
Definition run (main : Env → Proc unit) (e : Env) : Z * Trace :=
  match main e start with
  | (Return _, t) => (0, t)
  | (Exited code, t) => (code, t)
  end.

(** How the encoder sees the static tables: struct fields under their
    [json] tags, [omitempty] dropping a nil [Default]. *)
Definition Metadata_json (m : Metadata) : value :=
  VMap {[ "name" := VString (Name m);
          "version" := VString (Version m);
          "description" := VString (Description m);
          "author" := VString (Author m);
          "tags" := VSlice (VString <$> Tags m) ]}.

Definition IOSpec_json (s : IOSpec) : value :=
  let fields : gmap string value :=
    {[ "type" := VString (Type_ s);
       "required" := VBool (Required s);
       "description" := VString (IODescription s) ]} in
  VMap (match Default s with
        | Some d => <[ "default" := d ]> fields
        | None => fields
        end).

Definition ActionSpec_json (a : ActionSpec) : value :=
  VMap {[ "description" := VString (ActDescription a);
          "inputs" := VMap (IOSpec_json <$> Inputs a);
          "outputs" := VMap (IOSpec_json <$> Outputs a) ]}.

Definition Actions_json (acts : gmap string ActionSpec) : value :=
  VMap (ActionSpec_json <$> acts).

(** ** The [main] function of the standard plugins

    The text of [main] is the same, up to the constructor called, in
    official/calculator, official/http, official/aws, official/sql, the
    email plugin and the ansible, file and reporting plugins; it is
    written once here, over the three methods it calls.  [Execute] is
    any handler: it may panic, as [create_chart] of the reporting plugin
    does. *)

Section StdMain.
Context `{GoLib}.
Variable GetMetadata : Metadata.
Variable GetActions : gmap string ActionSpec.
Variable Execute :
  Env → string → gmap string value → Answer (gmap string value * error).

Definition std_main (e : Env) : Proc unit :=
  match Args e with
  | [] | [_] =>
      Encode (VMap {[ "error" := VString "action required" ]}) ;;
      os_Exit 1
  | _ :: action :: _ =>
      result ←
        (if String.eqb action "metadata" then
           mret (Metadata_json GetMetadata)
         else if String.eqb action "actions" then
           mret (Actions_json GetActions)
         else
           r ← ReadAll_Stdin e ;
           match r with
           | Err err =>
               mret (VMap {[ "error" := VString ("failed to read input: " +:+ err) ]})
           | Ok inputData =>
               if (0 <? String.length inputData)%nat then
                 match json_Unmarshal inputData with
                 | Err err =>
                     mret (VMap {[ "error" := VString ("failed to parse JSON: " +:+ err) ]})
                 | Ok params =>
                     Call action params ;;
                     r ← answer (Execute e action params) ;
                     match r with
                     | (_, Some err) => mret (VMap {[ "error" := VString err ]})
                     | (result, None) => mret (VMap result)
                     end
                 end
               else
                 Call action ∅ ;;
                 r ← answer (Execute e action ∅) ;
                 match r with
                 | (_, Some err) => mret (VMap {[ "error" := VString err ]})
                 | (result, None) => mret (VMap result)
                 end
           end) ;
      Encode result
  end.
End StdMain.

(** ** official/calculator/plugin.go *)

Module Calculator.
Section Plugin.
Context `{GoLib}.

Definition GetMetadata : Metadata :=
  {| Name := "calculator";
     Version := "1.0.0";
     Description := "Mathematical calculations with safe expression evaluation";
     Author := "Corynth Team";
     Tags := ["math"; "calculation"; "utility"; "ast"] |}.

Definition GetActions : gmap string ActionSpec :=
  {[ "calculate" :=
       {| ActDescription := "Perform safe mathematical calculations using AST parsing";
          Inputs :=
            {[ "expression" :=
                 {| Type_ := "string"; Required := true; Default := None;
                    IODescription := "Mathematical expression to evaluate (supports +, -, *, /, %, parentheses)" |};
               "precision" :=
                 {| Type_ := "number"; Required := false; Default := Some (VInt 2);
                    IODescription := "Decimal precision for results" |} ]};
          Outputs :=
            {[ "result" :=
                 {| Type_ := "number"; Required := false; Default := None;
                    IODescription := "Calculation result" |};
               "expression" :=
                 {| Type_ := "string"; Required := false; Default := None;
                    IODescription := "Original expression" |} ]} |} ]}.

Definition evalBasicLit (Kind : Token) (Value : string) : res float :=
  match Kind with
  | INT =>
      match strconv_ParseInt Value with
      | Err err => Err ("invalid integer: " +:+ err)
      | Ok val => Ok (float64_of_int val)
      end
  | FLOAT =>
      match strconv_ParseFloat Value with
      | Err err => Err ("invalid float: " +:+ err)
      | Ok val => Ok val
      end
  | _ => Err ("unsupported literal type: " +:+ Token_String Kind)
  end.

(** [evalBinaryExpr] and [evalUnaryExpr] call back into [evalNode]; the
    recursive call is the first argument here. *)
Definition evalBinaryExpr (evalNode : Node → res float)
    (X : Node) (Op : Token) (Y : Node) : res float :=
  match evalNode X with
  | Err err => Err err
  | Ok left_ =>
      match evalNode Y with
      | Err err => Err err
      | Ok right_ =>
          match Op with
          | ADD => Ok (left_ + right_)%float
          | SUB => Ok (left_ - right_)%float
          | MUL => Ok (left_ * right_)%float
          | QUO =>
              if (right_ =? 0)%float then Err "division by zero"
              else Ok (left_ / right_)%float
          | REM =>
              if (right_ =? 0)%float then Err "modulo by zero"
              else Ok (math_Mod left_ right_)
          | _ => Err ("unsupported binary operator: " +:+ Token_String Op)
          end
      end
  end.

Definition evalUnaryExpr (evalNode : Node → res float)
    (Op : Token) (X : Node) : res float :=
  match evalNode X with
  | Err err => Err err
  | Ok operand =>
      match Op with
      | ADD => Ok operand
      | SUB => Ok (- operand)%float
      | _ => Err ("unsupported unary operator: " +:+ Token_String Op)
      end
  end.

Fixpoint evalNode (node : Node) : res float :=
  match node with
  | BinaryExpr X Op Y => evalBinaryExpr evalNode X Op Y
  | UnaryExpr Op X => evalUnaryExpr evalNode Op X
  | ParenExpr X => evalNode X
  | BasicLit Kind Value => evalBasicLit Kind Value
  | Ident n =>
      if String.eqb n "pi" then Ok math_Pi
      else if String.eqb n "e" then Ok math_E
      else Err ("undefined identifier: " +:+ n)
  | OtherNode T => Err ("unsupported expression type: " +:+ T)
  end.

Definition evaluateExpression (expr : string) : res float :=
  match parser_ParseExpr expr with
  | Err err => Err ("syntax error: " +:+ err)
  | Ok node => evalNode node
  end.

(** Lines 92-98 of [calculate]: the precision the handler works with. *)
Definition calculate_precision (params : gmap string value) : Z :=
  match as_float64 (params !! "precision") with
  | Some prec =>
      let precision := int_of_float64 prec in
      if precision <? 0 then 0 else precision
  | None => 2
  end.

Definition calculate (params : gmap string value)
    : gmap string value * error :=
  match as_string (params !! "expression") with
  | None => ({[ "error" := VString "expression parameter is required" ]}, None)
  | Some expression =>
      if String.eqb expression "" then
        ({[ "error" := VString "expression parameter is required" ]}, None)
      else
        let precision := calculate_precision params in
        match evaluateExpression expression with
        | Err err =>
            ({[ "error" := VString ("Invalid expression: " +:+ err);
                "expression" := VString expression ]}, None)
        | Ok result =>
            let result :=
              if 0 <? precision then
                let multiplier := math_Pow 10 (float64_of_int precision) in
                (math_Round (result * multiplier) / multiplier)%float
              else math_Round result in
            ({[ "result" := VFloat result;
                "expression" := VString expression ]}, None)
        end
  end.

Definition Execute (action : string) (params : gmap string value)
    : gmap string value * error :=
  if String.eqb action "calculate" then calculate params
  else (∅, Some ("unknown action: " +:+ action)).

Definition main : Env → Proc unit :=
  std_main GetMetadata GetActions (total (λ _, Execute)).

End Plugin.
End Calculator.

(** ** official/template/plugin-template.go *)

Module Template.
Section Plugin.
Context `{GoLib}.

Definition GetMetadata : Metadata :=
  {| Name := "yourplugin";
     Version := "1.0.0";
     Description := "Your plugin description here";
     Author := "Your Name";
     Tags := ["tag1"; "tag2"] |}.

Definition GetActions : gmap string ActionSpec :=
  {[ "example_action" :=
       {| ActDescription := "Example action that does something";
          Inputs :=
            {[ "input_param" :=
                 {| Type_ := "string"; Required := true; Default := None;
                    IODescription := "An example input parameter" |};
               "optional_param" :=
                 {| Type_ := "number"; Required := false; Default := Some (VInt 10);
                    IODescription := "An optional parameter with default" |} ]};
          Outputs :=
            {[ "result" :=
                 {| Type_ := "string"; Required := false; Default := None;
                    IODescription := "The action result" |};
               "success" :=
                 {| Type_ := "boolean"; Required := false; Default := None;
                    IODescription := "Whether the action succeeded" |} ]} |} ]}.

(** Lines 115-121 of [exampleAction]: the value of [optionalParam]. *)
Definition exampleAction_optionalParam (params : gmap string value) : float :=
  match params !! "optional_param" with
  | Some val =>
      match as_float64 (Some val) with
      | Some floatVal => floatVal
      | None => 10
      end
  | None => 10
  end.

Definition exampleAction (params : gmap string value)
    : gmap string value * error :=
  match as_string (params !! "input_param") with
  | None => ({[ "error" := VString "input_param must be a string" ]}, None)
  | Some inputParam =>
      let optionalParam := exampleAction_optionalParam params in
      let result :=
        "Processed " +:+ inputParam +:+ " with value " +:+ fmt_2f optionalParam in
      ({[ "result" := VString result; "success" := VBool true ]}, None)
  end.

Definition Execute (action : string) (params : gmap string value)
    : gmap string value * error :=
  if String.eqb action "example_action" then exampleAction params
  else (∅, Some ("unknown action: " +:+ action)).

Definition getStringParam (params : gmap string value) (key : string)
    (defaultValue : string) : string :=
  match as_string (params !! key) with
  | Some val => val
  | None => defaultValue
  end.

Definition getFloatParam (params : gmap string value) (key : string)
    (defaultValue : float) : float :=
  match as_float64 (params !! key) with
  | Some val => val
  | None => defaultValue
  end.

Definition getBoolParam (params : gmap string value) (key : string)
    (defaultValue : bool) : bool :=
  match as_bool (params !! key) with
  | Some val => val
  | None => defaultValue
  end.

Definition getArrayParam (params : gmap string value) (key : string)
    : list value :=
  match as_slice (params !! key) with
  | Some val => val
  | None => []
  end.

Definition errorResponse (err : string) : gmap string value :=
  {[ "error" := VString err ]}.

Definition main (e : Env) : Proc unit :=
  match Args e with
  | [] | [_] =>
      Encode (VMap {[ "error" := VString "action required" ]}) ;;
      os_Exit 1
  | _ :: action :: _ =>
      result ←
        (if String.eqb action "metadata" then
           mret (Metadata_json GetMetadata)
         else if String.eqb action "actions" then
           mret (Actions_json GetActions)
         else
           r ← ReadAll_Stdin e ;
           match r with
           | Err err =>
               mret (VMap (errorResponse ("failed to read input: " +:+ err)))
           | Ok inputData =>
               if (0 <? String.length inputData)%nat then
                 match json_Unmarshal inputData with
                 | Err err =>
                     mret (VMap (errorResponse ("failed to parse JSON input: " +:+ err)))
                 | Ok params =>
                     Call action params ;;
                     match Execute action params with
                     | (_, Some err) => mret (VMap (errorResponse err))
                     | (result, None) => mret (VMap result)
                     end
                 end
               else
                 Call action ∅ ;;
                 match Execute action ∅ with
                 | (_, Some err) => mret (VMap (errorResponse err))
                 | (result, None) => mret (VMap result)
                 end
           end) ;
      Encode result
  end.

End Plugin.
End Template.

(** ** official/http/plugin.go *)

Module HTTP.
Section Plugin.
Context `{GoLib}.

Definition GetMetadata : Metadata :=
  {| Name := "http";
     Version := "1.0.0";
     Description := "HTTP client for REST API calls and web requests";
     Author := "Corynth Team";
     Tags := ["http"; "web"; "api"; "rest"] |}.

Definition input (ty : string) (required : bool) (default : option value)
    (descr : string) : IOSpec :=
  {| Type_ := ty; Required := required; Default := default;
     IODescription := descr |}.

Definition output (ty : string) (descr : string) : IOSpec :=
  {| Type_ := ty; Required := false; Default := None; IODescription := descr |}.

Definition response_outputs : gmap string IOSpec :=
  {[ "status_code" := output "number" "HTTP status code";
     "headers" := output "object" "Response headers";
     "content" := output "string" "Response body";
     "json" := output "object" "Parsed JSON response (if applicable)" ]}.

Definition GetActions : gmap string ActionSpec :=
  {[ "get" :=
       {| ActDescription := "Make HTTP GET requests with headers";
          Inputs :=
            {[ "url" := input "string" true None "Request URL";
               "headers" := input "object" false None "HTTP headers";
               "timeout" := input "number" false (Some (VInt 30)) "Request timeout in seconds";
               "auth" := input "object" false None "Basic auth with username/password" ]};
          Outputs := response_outputs |};
     "post" :=
       {| ActDescription := "Make HTTP POST requests with JSON data";
          Inputs :=
            {[ "url" := input "string" true None "Request URL";
               "headers" := input "object" false None "HTTP headers";
               "body" := input "string" false None "Request body as string";
               "json" := input "object" false None "Request body as JSON";
               "timeout" := input "number" false (Some (VInt 30)) "Request timeout in seconds";
               "auth" := input "object" false None "Basic auth with username/password";
               "content_type" := input "string" false (Some (VString "application/json")) "Content-Type header" ]};
          Outputs := response_outputs |} ]}.

(** [time.Second], in nanoseconds, and int64 wrap-around. *)
Definition Second : Z := 1000000000.
Definition wrap64 (z : Z) : Z := (z + 2 ^ 63) mod 2 ^ 64 - 2 ^ 63.

(** [NewHTTPPlugin]: the client starts with a 30 s timeout; a handler
    overwrites it with [time.Duration(timeout) * time.Second] when the
    request carries a number. *)
Definition client_Timeout (params : gmap string value) : Z :=
  match as_float64 (params !! "timeout") with
  | Some timeout => wrap64 (int_of_float64 timeout * Second)
  | None => 30 * Second
  end.

Definition getStringParam (params : gmap string value) (key : string)
    (defaultValue : string) : string :=
  match as_string (params !! key) with
  | Some val => val
  | None => defaultValue
  end.

Definition convertHeaders (headers : gmap string (list string))
    : gmap string string :=
  omap head headers.

(** The loop [for key, value := range headers] with [req.Header.Set];
    when two keys have the same canonical form, Go leaves open which
    one is set last. *)
Definition set_headers (params : gmap string value)
    (h : gmap string string) : gmap string string :=
  match as_map (params !! "headers") with
  | Some headers =>
      map_fold (λ key value acc,
                  match value with
                  | VString strValue => <[ http_CanonicalHeaderKey key := strValue ]> acc
                  | _ => acc
                  end) h headers
  | None => h
  end.

Definition set_auth (params : gmap string value) : option (string * string) :=
  auth ← as_map (params !! "auth") ;
  username ← as_string (auth !! "username") ;
  password ← as_string (auth !! "password") ;
  Some (username, password).

Definition Header_Get (h : gmap string (list string)) (key : string) : string :=
  match h !! http_CanonicalHeaderKey key with
  | Some (v :: _) => v
  | _ => ""
  end.

Definition strings_Contains (s substr : string) : bool :=
  match String.index 0 substr s with Some _ => true | None => false end.

(** The tail shared by both handlers: send, read the body, build the
    result. *)
Definition send (e : Env) (params : gmap string value) (req : Request)
    : gmap string value * error :=
  match HttpDo e (client_Timeout params) req with
  | Err err => ({[ "error" := VString ("request failed: " +:+ err) ]}, None)
  | Ok resp =>
      match RespBody resp with
      | Err err =>
          ({[ "error" := VString ("failed to read response: " +:+ err) ]}, None)
      | Ok body =>
          let result : gmap string value :=
            {[ "status_code" := VInt (StatusCode resp);
               "content" := VString body;
               "headers" := VMap (VString <$> convertHeaders (RespHeader resp)) ]} in
          if (0 <? String.length body)%nat
             && strings_Contains (Header_Get (RespHeader resp) "Content-Type")
                  "application/json"
          then
            match json_Unmarshal_value body with
            | Ok jsonData => (<[ "json" := jsonData ]> result, None)
            | Err _ => (result, None)
            end
          else (result, None)
      end
  end.

Definition makeGetRequest (e : Env) (params : gmap string value)
    : gmap string value * error :=
  match as_string (params !! "url") with
  | None => ({[ "error" := VString "url is required" ]}, None)
  | Some url =>
      if String.eqb url "" then
        ({[ "error" := VString "url is required" ]}, None)
      else
        match http_NewRequest "GET" url with
        | Err err =>
            ({[ "error" := VString ("failed to create request: " +:+ err) ]}, None)
        | Ok _ =>
            send e params
              {| Method := "GET"; URL := url; Body := None;
                 Header := set_headers params ∅;
                 BasicAuth := set_auth params |}
        end
  end.

Definition makePostRequest (e : Env) (params : gmap string value)
    : gmap string value * error :=
  match as_string (params !! "url") with
  | None => ({[ "error" := VString "url is required" ]}, None)
  | Some url =>
      if String.eqb url "" then
        ({[ "error" := VString "url is required" ]}, None)
      else
        let contentType := getStringParam params "content_type" "application/json" in
        let body : res (option body) :=
          match params !! "json" with
          | Some jsonData =>
              match json_Marshal jsonData with
              | Err err => Err ("failed to marshal JSON: " +:+ err)
              | Ok jsonBytes => Ok (Some jsonBytes)
              end
          | None => Ok (Raw <$> as_string (params !! "body"))
          end in
        match body with
        | Err err => ({[ "error" := VString err ]}, None)
        | Ok body =>
            match http_NewRequest "POST" url with
            | Err err =>
                ({[ "error" := VString ("failed to create request: " +:+ err) ]}, None)
            | Ok _ =>
                send e params
                  {| Method := "POST"; URL := url; Body := body;
                     Header := set_headers params {[ "Content-Type" := contentType ]};
                     BasicAuth := set_auth params |}
            end
        end
  end.

Definition Execute (e : Env) (action : string) (params : gmap string value)
    : gmap string value * error :=
  if String.eqb action "get" then makeGetRequest e params
  else if String.eqb action "post" then makePostRequest e params
  else (∅, Some ("unknown action: " +:+ action)).

Definition main : Env → Proc unit :=
  std_main GetMetadata GetActions (total Execute).

End Plugin.
End HTTP.

(** ** official/slack/plugin.go (the Slack plugin, lines 1-313) *)

Module Slack.

(** The Slack plugin's own spec types: an input has no default. *)
Record InputSpec : Type := {
  InType : string;
  InRequired : bool;
  InDescription : string
}.

Record OutputSpec : Type := { OutType : string }.

Record ActionSpec : Type := {
  ActDescription : string;
  Inputs : gmap string InputSpec;
  Outputs : gmap string OutputSpec
}.

Definition InputSpec_json (s : InputSpec) : value :=
  VMap {[ "type" := VString (InType s);
          "required" := VBool (InRequired s);
          "description" := VString (InDescription s) ]}.

Definition OutputSpec_json (s : OutputSpec) : value :=
  VMap {[ "type" := VString (OutType s) ]}.

Definition ActionSpec_json (a : ActionSpec) : value :=
  VMap {[ "description" := VString (ActDescription a);
          "inputs" := VMap (InputSpec_json <$> Inputs a);
          "outputs" := VMap (OutputSpec_json <$> Outputs a) ]}.

Section Plugin.
Context `{GoLib}.

(** [NewSlackPlugin] reads the two environment variables once. *)
Definition token (e : Env) : string := Getenv e "SLACK_BOT_TOKEN".
Definition webhookURL (e : Env) : string := Getenv e "SLACK_WEBHOOK_URL".
Definition client_Timeout : Z := 30 * 1000000000.

Definition GetMetadata : Metadata :=
  {| Name := "slack";
     Version := "1.0.0";
     Description := "Slack workspace messaging and notifications";
     Author := "Corynth Team";
     Tags := ["slack"; "messaging"; "notifications"] |}.

Definition GetActions : gmap string ActionSpec :=
  {[ "message" :=
       {| ActDescription := "Send message to channel";
          Inputs :=
            {[ "channel" := {| InType := "string"; InRequired := true;
                               InDescription := "Channel name or ID" |};
               "text" := {| InType := "string"; InRequired := true;
                            InDescription := "Message text" |};
               "username" := {| InType := "string"; InRequired := false;
                                InDescription := "Bot username" |};
               "icon_emoji" := {| InType := "string"; InRequired := false;
                                  InDescription := "Bot emoji icon" |} ]};
          Outputs :=
            {[ "success" := {| OutType := "boolean" |};
               "timestamp" := {| OutType := "string" |} ]} |};
     "webhook" :=
       {| ActDescription := "Send webhook message";
          Inputs :=
            {[ "text" := {| InType := "string"; InRequired := true;
                            InDescription := "Message text" |};
               "username" := {| InType := "string"; InRequired := false;
                                InDescription := "Bot username" |};
               "channel" := {| InType := "string"; InRequired := false;
                               InDescription := "Override channel" |} ]};
          Outputs := {[ "success" := {| OutType := "boolean" |} ]} |} ]}.

(** [v, _ := m[k].(string)]: the zero value when the assertion fails. *)
Definition string_or_zero (v : option value) : string :=
  default "" (as_string v).

Definition sendMessage (e : Env) (params : gmap string value)
    : gmap string value :=
  if String.eqb (token e) "" then
    {[ "error" := VString "SLACK_BOT_TOKEN not configured" ]}
  else
    let channel := string_or_zero (params !! "channel") in
    let text := string_or_zero (params !! "text") in
    let username := default "Corynth Bot" (as_string (params !! "username")) in
    let iconEmoji := default ":robot_face:" (as_string (params !! "icon_emoji")) in
    let data : gmap string value :=
      {[ "channel" := VString channel;
         "text" := VString text;
         "username" := VString username;
         "icon_emoji" := VString iconEmoji ]} in
    match json_Marshal (VMap data) with
    | Err err =>
        {[ "error" := VString ("Failed to marshal request data: " +:+ err) ]}
    | Ok jsonData =>
        match http_NewRequest "POST" "https://slack.com/api/chat.postMessage" with
        | Err err =>
            {[ "error" := VString ("Failed to create request: " +:+ err) ]}
        | Ok _ =>
            let req :=
              {| Method := "POST";
                 URL := "https://slack.com/api/chat.postMessage";
                 Body := Some jsonData;
                 Header := {[ "Authorization" := "Bearer " +:+ token e;
                              "Content-Type" := "application/json" ]};
                 BasicAuth := None |} in
            match HttpDo e client_Timeout req with
            | Err err =>
                {[ "error" := VString ("Failed to send request: " +:+ err) ]}
            | Ok resp =>
                match RespBody resp with
                | Err err =>
                    {[ "error" := VString ("Failed to read response: " +:+ err) ]}
                | Ok body =>
                    match json_Unmarshal body with
                    | Err err =>
                        {[ "error" := VString ("Failed to parse response: " +:+ err) ]}
                    | Ok result =>
                        let success := default false (as_bool (result !! "ok")) in
                        let timestamp := string_or_zero (result !! "ts") in
                        {[ "success" := VBool success;
                           "timestamp" := VString timestamp ]}
                    end
                end
            end
        end
    end.

Definition sendWebhook (e : Env) (params : gmap string value)
    : gmap string value :=
  if String.eqb (webhookURL e) "" then
    {[ "error" := VString "SLACK_WEBHOOK_URL not configured" ]}
  else
    let text := string_or_zero (params !! "text") in
    let username := default "Corynth Bot" (as_string (params !! "username")) in
    let data : gmap string value :=
      {[ "text" := VString text; "username" := VString username ]} in
    let data :=
      match as_string (params !! "channel") with
      | Some channel =>
          if String.eqb channel "" then data
          else <[ "channel" := VString channel ]> data
      | None => data
      end in
    match json_Marshal (VMap data) with
    | Err err =>
        {[ "error" := VString ("Failed to marshal request data: " +:+ err) ]}
    | Ok jsonData =>
        match http_NewRequest "POST" (webhookURL e) with
        | Err err =>
            {[ "error" := VString ("Failed to create request: " +:+ err) ]}
        | Ok _ =>
            let req :=
              {| Method := "POST"; URL := webhookURL e; Body := Some jsonData;
                 Header := {[ "Content-Type" := "application/json" ]};
                 BasicAuth := None |} in
            match HttpDo e client_Timeout req with
            | Err err =>
                {[ "error" := VString ("Failed to send request: " +:+ err) ]}
            | Ok resp =>
                {[ "success" := VBool (StatusCode resp =? 200) ]}
            end
        end
    end.

Definition Execute (e : Env) (action : string) (params : gmap string value)
    : gmap string value :=
  if String.eqb action "message" then sendMessage e params
  else if String.eqb action "webhook" then sendWebhook e params
  else {[ "error" := VString ("Unknown action: " +:+ action) ]}.

(** The decoder reads standard input itself; a failed read is a failed
    decode. *)
Definition Decode_Stdin (e : Env) : Proc (res (gmap string value)) :=
  r ← ReadAll_Stdin e ;
  mret (match r with
        | Ok data => json_Decode data
        | Err err => Err err
        end).

Definition main (e : Env) : Proc unit :=
  match Args e with
  | [] | [_] =>
      Encode (VMap {[ "error" := VString "action required" ]}) ;;
      os_Exit 1
  | _ :: action :: _ =>
      result ←
        (if String.eqb action "metadata" then
           mret (Metadata_json GetMetadata)
         else if String.eqb action "actions" then
           mret (VMap (ActionSpec_json <$> GetActions))
         else
           r ← Decode_Stdin e ;
           let params :=
             match r with
             | Err _ => ∅   (* If no input or invalid JSON, use empty params *)
             | Ok params => params
             end in
           Call action params ;;
           mret (VMap (Execute e action params))) ;
      Encode result
  end.

End Plugin.
End Slack.

(** ** official/llm/plugin.go *)

Module LLM.

Record ActionOutput : Type := { OutType : string }.

(** [ActionInput] has the fields of [IOSpec]. *)
Record Action : Type := {
  ActDescription : string;
  Inputs : gmap string IOSpec;
  Outputs : gmap string ActionOutput
}.

Definition Action_json (a : Action) : value :=
  VMap {[ "description" := VString (ActDescription a);
          "inputs" := VMap (IOSpec_json <$> Inputs a);
          "outputs" := VMap ((λ o, VMap {[ "type" := VString (OutType o) ]}) <$> Outputs a) ]}.

Section Plugin.
Context `{GoLib}.

(** The three handlers call the OpenAI and Ollama HTTP APIs; they are
    the plugin's external collaborators and stay abstract. *)
Variable openaiGenerate openaiChat ollamaGenerate
  : Env → gmap string value → gmap string value.

Definition GetMetadata : Metadata :=
  {| Name := "llm";
     Version := "1.0.0";
     Description := "Large Language Model integration (OpenAI, Ollama)";
     Author := "Corynth Team";
     Tags := ["llm"; "ai"; "gpt"; "openai"; "ollama"] |}.

Definition input (ty : string) (required : bool) (default : option value)
    (descr : string) : IOSpec :=
  {| Type_ := ty; Required := required; Default := default;
     IODescription := descr |}.

Definition GetActions : gmap string Action :=
  {[ "generate" :=
       {| ActDescription := "Generate text using LLM";
          Inputs :=
            {[ "prompt" := input "string" true None "Input prompt";
               "model" := input "string" false (Some (VString "gpt-3.5-turbo")) "Model name";
               "max_tokens" := input "number" false (Some (VInt 150)) "Max tokens";
               "temperature" := input "number" false (Some (VFloat 0x1.6666666666666p-1)) "Temperature" ]};
          Outputs := {[ "text" := {| OutType := "string" |};
                        "usage" := {| OutType := "object" |} ]} |};
     "chat" :=
       {| ActDescription := "Chat conversation";
          Inputs :=
            {[ "messages" := input "array" true None "Message history";
               "model" := input "string" false (Some (VString "gpt-3.5-turbo")) "Model name" ]};
          Outputs := {[ "response" := {| OutType := "string" |};
                        "usage" := {| OutType := "object" |} ]} |};
     "ollama" :=
       {| ActDescription := "Use local Ollama model";
          Inputs :=
            {[ "prompt" := input "string" true None "Input prompt";
               "model" := input "string" false (Some (VString "llama2")) "Ollama model name" ]};
          Outputs := {[ "response" := {| OutType := "string" |} ]} |} ]}.

Definition Execute (e : Env) (action : string) (params : gmap string value)
    : gmap string value :=
  if String.eqb action "generate" then openaiGenerate e params
  else if String.eqb action "chat" then openaiChat e params
  else if String.eqb action "ollama" then ollamaGenerate e params
  else {[ "error" := VString ("Unknown action: " +:+ action) ]}.

(** [main] reads standard input before it looks at the mode ("Always try
    to read from stdin"); invalid JSON ends the run with an error
    document whatever the mode. *)
Definition main (e : Env) : Proc unit :=
  match Args e with
  | [] | [_] =>
      Encode (VMap {[ "error" := VString "action required" ]}) ;;
      os_Exit 1
  | _ :: action :: _ =>
      input ← ReadAll_Stdin e ;
      let parsed : res (gmap string value) :=
        match input with
        | Ok input =>
            if (0 <? String.length input)%nat then
              let trimmed := bytes_TrimSpace input in
              if (0 <? String.length trimmed)%nat then json_Unmarshal trimmed
              else Ok ∅
            else Ok ∅
        | Err _ => Ok ∅
        end in
      match parsed with
      | Err err =>
          Encode (VMap {[ "error" := VString ("Invalid JSON input: " +:+ err) ]})
      | Ok params =>
          result ←
            (if String.eqb action "metadata" then mret (Metadata_json GetMetadata)
             else if String.eqb action "actions" then
               mret (VMap (Action_json <$> GetActions))
             else
               Call action params ;;
               mret (VMap (Execute e action params))) ;
          Encode result
      end
  end.

End Plugin.
End LLM.

(** * A reference library

    One implementation of [GoLib], on which the scenarios below are run.
    Every function follows the documented behaviour of its Go counterpart
    on the fragment stated with it; an input outside that fragment is
    answered with an error that says so.  Nothing proved for every
    [GoLib] depends on it. *)

Module RefLib.

Definition dquote : string := String "034"%char "".

(** [strconv.Quote] for printable ASCII without quotes or backslashes. *)
Definition quoted (s : string) : string := dquote +:+ s +:+ dquote.

(** *** float64 arithmetic by exact integers *)

(** The float nearest to the integer [z] (ties to even): [float64(n)]. *)
Definition float_of_Z (z : Z) : float :=
  SF2Prim (binary_normalize prec emax z 0 false).

(** The float nearest to [n / d], for [0 < n] and [0 < d]; [None] when
    the quotient rounds to an infinity. *)
Definition float_of_ratio (neg : bool) (n d : Z) : option float :=
  let s := Z.max 0 (64 + Z.log2 d - Z.log2 n) in
  let (q, r) := Z.div_eucl (n * 2 ^ s) d in
  let loc :=
    if r =? 0 then loc_Exact else loc_Inexact (Z.compare (2 * r) d) in
  match binary_round_aux prec emax neg q (- s) loc with
  | S754_infinity _ => None
  | f => Some (SF2Prim f)
  end.

(** A finite float as [(negative, m, e)], worth [m * 2^e]. *)
Definition exact (f : float) : option (bool * Z * Z) :=
  match Prim2SF f with
  | S754_zero s => Some (s, 0, 0)
  | S754_finite s m e => Some (s, Z.pos m, e)
  | _ => None
  end.

(** The integer [m * 2^e], when it is one. *)
Definition integral (m e : Z) : option Z :=
  if 0 <=? e then Some (m * 2 ^ e)
  else if m mod 2 ^ (- e) =? 0 then Some (m / 2 ^ (- e))
  else None.

Definition signed (neg : bool) (f : float) : float :=
  if neg then (- f)%float else f.

(** [math.Trunc]. *)
Definition Trunc (x : float) : float :=
  match Prim2SF x with
  | S754_finite s m e =>
      if 0 <=? e then x
      else signed s (float_of_Z (Z.shiftr (Z.pos m) (- e)))
  | _ => x
  end.

(** [math.Round]: the nearest integer, halves away from zero, as its
    documentation defines it from [Trunc]. *)
Definition Round (x : float) : float :=
  let t := Trunc x in
  if (0.5 <=? abs (x - t))%float
  then (t + signed (get_sign x) 1)%float
  else t.

(** [math.Mod]: the remainder with the sign of [x]; NaN when [x] is not
    finite or [y] is zero or NaN; [x] when [y] is an infinity. *)
Definition Mod (x y : float) : float :=
  match Prim2SF x, Prim2SF y with
  | S754_nan, _ | _, S754_nan | S754_infinity _, _ | _, S754_zero _ => nan
  | _, S754_infinity _ => x
  | S754_zero _, _ => x
  | S754_finite s mx ex, S754_finite _ my ey =>
      let e := Z.min ex ey in
      let r := (Z.pos mx * 2 ^ (ex - e)) mod (Z.pos my * 2 ^ (ey - e)) in
      signed s (SF2Prim (binary_normalize prec emax r e false))
  end.

(** [math.Pow] at an integral exponent: the library's loop, squaring the
    [Frexp] form of [x] and multiplying it into the answer for every set
    bit of [|y|].  A fractional exponent needs [Exp] and [Log]: outside
    the fragment (NaN). *)
Fixpoint Pow_loop (fuel : nat) (i : Z) (a1 : float) (ae : Z)
    (x1 : float) (xe : Z) : float * Z :=
  match fuel with
  | O => (a1, ae)
  | S fuel =>
      if i =? 0 then (a1, ae)
      else if (xe <? - 4096) || (4096 <? xe) then (a1, ae + xe)
      else
        let '(a1, ae) :=
          if Z.odd i then ((a1 * x1)%float, ae + xe) else (a1, ae) in
        let x1 := (x1 * x1)%float in
        let xe := 2 * xe in
        let '(x1, xe) :=
          if (x1 <? 0.5)%float then ((x1 + x1)%float, xe - 1) else (x1, xe) in
        Pow_loop fuel (Z.shiftr i 1) a1 ae x1 xe
  end.

Definition Pow (x y : float) : float :=
  if (y =? 0)%float || (x =? 1)%float then 1%float
  else if (y =? 1)%float then x
  else if is_nan x || is_nan y then nan
  else
    match exact x, exact (abs y) with
    | Some (_, mx, _), Some (_, my, ey) =>
        match integral my ey with
        | Some yi =>
            if (mx =? 0) || (2 ^ 63 <=? yi) then nan
            else
              let (x1, xe) := Z.frexp x in
              let '(a1, ae) := Pow_loop 64 yi 1 0 x1 xe in
              let '(a1, ae) :=
                if (y <? 0)%float then ((1 / a1)%float, - ae) else (a1, ae) in
              Z.ldexp a1 ae
        | None => nan
        end
    | _, _ => nan
    end.

(** [int(f)]: truncation toward zero; outside the range of int64 (and
    for NaN) the result depends on the platform, here amd64's. *)
Definition float_to_int (f : float) : Z :=
  match exact f with
  | Some (s, m, e) =>
      let z := if 0 <=? e then m * 2 ^ e else Z.shiftr m (- e) in
      let z := if s then - z else z in
      if (- 2 ^ 63 <=? z) && (z <? 2 ^ 63) then z else - 2 ^ 63
  | None => - 2 ^ 63
  end.

(** *** strconv and fmt *)

Definition is_digit (c : ascii) : bool :=
  let n := nat_of_ascii c in (48 <=? n)%nat && (n <=? 57)%nat.

Definition digit_val (c : ascii) : Z := Z.of_nat (nat_of_ascii c) - 48.

Fixpoint all_digits (s : string) : bool :=
  match s with
  | "" => true
  | String c r => is_digit c && all_digits r
  end.

(** The number written by decimal digits, most significant first. *)
Fixpoint digits_val (acc : Z) (s : string) : Z :=
  match s with
  | "" => acc
  | String c r => digits_val (10 * acc + digit_val c) r
  end.

Definition NumError (fn s why : string) : string :=
  "strconv." +:+ fn +:+ ": parsing " +:+ quoted s +:+ ": " +:+ why.

(** [strconv.ParseInt(s, 10, 64)]: an optional sign and decimal
    digits. *)
Definition ParseInt (s : string) : res Z :=
  let '(neg, ds) :=
    match s with
    | String "-" r => (true, r)
    | String "+" r => (false, r)
    | _ => (false, s)
    end in
  if (String.length ds =? 0)%nat || negb (all_digits ds)
  then Err (NumError "ParseInt" s "invalid syntax")
  else
    let z := if neg then - digits_val 0 ds else digits_val 0 ds in
    if (- 2 ^ 63 <=? z) && (z <? 2 ^ 63) then Ok z
    else Err (NumError "ParseInt" s "value out of range").

(** Splits off the longest prefix of digits. *)
Fixpoint span_digits (s : string) : string * string :=
  match s with
  | String c r =>
      if is_digit c then let (d, rest) := span_digits r in (String c d, rest)
      else ("", s)
  | "" => ("", "")
  end.

(** [strconv.ParseFloat(s, 64)] on decimal literals
    [[+-]digits[.digits][(e|E)[+-]digits]], correctly rounded.
    Hexadecimal literals, underscores and the names of the infinities
    and NaN are outside the fragment. *)
Definition ParseFloat (s : string) : res float :=
  let '(neg, body) :=
    match s with
    | String "-" r => (true, r)
    | String "+" r => (false, r)
    | _ => (false, s)
    end in
  let (ip, r1) := span_digits body in
  let '(fp, r2) :=
    match r1 with
    | String "." r => span_digits r
    | _ => ("", r1)
    end in
  let ex : option Z :=
    match r2 with
    | "" => Some 0
    | String c r =>
        if Ascii.eqb c "e" || Ascii.eqb c "E" then
          let '(eneg, ds) :=
            match r with
            | String "-" r' => (true, r')
            | String "+" r' => (false, r')
            | _ => (false, r)
            end in
          if (String.length ds =? 0)%nat || negb (all_digits ds) then None
          else Some (if eneg then - digits_val 0 ds else digits_val 0 ds)
        else None
    end in
  match ex with
  | None => Err (NumError "ParseFloat" s "invalid syntax")
  | Some ex =>
      if (String.length ip + String.length fp =? 0)%nat
      then Err (NumError "ParseFloat" s "invalid syntax")
      else
        let m := digits_val 0 (ip +:+ fp) in
        let k := ex - Z.of_nat (String.length fp) in
        if m =? 0 then Ok (signed neg 0%float)
        else
          let q :=
            if 0 <=? k then float_of_ratio neg (m * 10 ^ k) 1
            else float_of_ratio neg m (10 ^ (- k)) in
          match q with
          | Some f => Ok f
          | None => Err (NumError "ParseFloat" s "value out of range")
          end
  end.

Definition digit_char (d : Z) : ascii := ascii_of_nat (Z.to_nat (48 + d)).

(** The decimal digits of [z >= 0]. *)
Fixpoint decimal (fuel : nat) (z : Z) (acc : string) : string :=
  match fuel with
  | O => acc
  | S fuel =>
      let acc := String (digit_char (z mod 10)) acc in
      if z <? 10 then acc else decimal fuel (z / 10) acc
  end.

Definition Itoa (z : Z) : string :=
  let d := decimal (S (Z.to_nat (Z.log2 (Z.abs z)))) (Z.abs z) "" in
  if z <? 0 then "-" +:+ d else d.

(** [fmt.Sprintf("%.2f", f)]: the exact value rounded to two decimals,
    ties to even. *)
Definition Sprintf_2f (f : float) : string :=
  match Prim2SF f with
  | S754_nan => "NaN"
  | S754_infinity s => if s then "-Inf" else "+Inf"
  | S754_zero s => if s then "-0.00" else "0.00"
  | S754_finite s m e =>
      let n := Z.pos m * 100 in
      let h :=
        if 0 <=? e then n * 2 ^ e
        else
          let d := 2 ^ (- e) in
          let (q, r) := Z.div_eucl n d in
          match Z.compare (2 * r) d with
          | Lt => q
          | Gt => q + 1
          | Eq => if Z.even q then q else q + 1
          end in
      let frac := h mod 100 in
      (if s then "-" else "") +:+ Itoa (h / 100) +:+ "."
        +:+ String (digit_char (frac / 10)) (String (digit_char (frac mod 10)) "")
  end.

(** *** go/scanner and go/parser

    The fragment: decimal integer and floating-point literals,
    identifiers, parentheses, line comments and the unary and binary
    operators of [Token].  Calls, selectors, indexing, composite and
    function literals, types, keywords, string, character and imaginary
    literals, prefixed or underscored numbers and block comments are
    outside it.  Syntax errors carry the parser's message without its
    position. *)

Inductive tok : Type :=
  | TOp (op : Token)
  | TLit (kind : Token) (lit : string)
  | TIdent (name : string)
  | TLParen
  | TRParen
  | TSemicolon.

Definition outside (what : string) : string :=
  "outside the modelled fragment: " +:+ what.

Definition is_space (c : ascii) : bool :=
  let n := nat_of_ascii c in
  (n =? 32)%nat || (n =? 9)%nat || (n =? 13)%nat.

Definition is_newline (c : ascii) : bool := (nat_of_ascii c =? 10)%nat.

Definition is_letter (c : ascii) : bool :=
  let n := nat_of_ascii c in
  ((65 <=? n)%nat && (n <=? 90)%nat) || ((97 <=? n)%nat && (n <=? 122)%nat)
  || (n =? 95)%nat.

Fixpoint span (p : ascii → bool) (s : string) : string * string :=
  match s with
  | String c r =>
      if p c then let (d, rest) := span p r in (String c d, rest)
      else ("", s)
  | "" => ("", "")
  end.

Definition keywords : list string :=
  ["break"; "case"; "chan"; "const"; "continue"; "default"; "defer";
   "else"; "fallthrough"; "for"; "func"; "go"; "goto"; "if"; "import";
   "interface"; "map"; "package"; "range"; "return"; "select"; "struct";
   "switch"; "type"; "var"].

Definition starts_with (p : ascii → bool) (s : string) : bool :=
  match s with String c _ => p c | "" => false end.

(** A number literal at the head of [s]: [(kind, literal, rest)]. *)
Definition scan_number (s : string) : res (Token * string * string) :=
  let (ip, r1) := span is_digit s in
  let '(fp, r2, dot) :=
    match r1 with
    | String "." r => let (fp, r2) := span is_digit r in (fp, r2, true)
    | _ => ("", r1, false)
    end in
  '(ex, rest) ←
    (if starts_with (λ c, Ascii.eqb c "e" || Ascii.eqb c "E") r2 then
       match r2 with
       | String c r =>
           let '(sign, r') :=
             match r with
             | String "-" r' => ("-", r')
             | String "+" r' => ("+", r')
             | _ => ("", r)
             end in
           let (ds, r3) := span is_digit r' in
           if (String.length ds =? 0)%nat then Err "exponent has no digits"
           else Ok (String c sign +:+ ds, r3)
       | "" => Ok ("", "")
       end
     else Ok ("", r2)) ;
  if starts_with (λ c, is_letter c || Ascii.eqb c ".") rest
  then Err (outside "number literal")
  else
    let lit := ip +:+ (if dot then "." +:+ fp else "") +:+ ex in
    if dot || negb (String.length ex =? 0)%nat then Ok (FLOAT, lit, rest)
    else
      match ip with
      | String "0" (String _ _) =>
          if forallb (λ c, (nat_of_ascii c <=? 55)%nat) (list_ascii_of_string ip)
          then Ok (INT, lit, rest)
          else Err "invalid digit in octal literal"
      | _ => Ok (INT, lit, rest)
      end.

(** An operator or parenthesis at the head of [s]; the flag tells
    whether a newline after it ends the expression. *)
Definition scan_operator (s : string) : res (tok * bool * string) :=
  let assign := outside "assignment operator" in
  match s with
  | String "+" r =>
      if starts_with (λ c, Ascii.eqb c "+" || Ascii.eqb c "=") r then Err assign
      else Ok (TOp ADD, false, r)
  | String "-" r =>
      if starts_with (λ c, Ascii.eqb c "-" || Ascii.eqb c "=") r then Err assign
      else Ok (TOp SUB, false, r)
  | String "*" r =>
      if starts_with (Ascii.eqb "=") r then Err assign else Ok (TOp MUL, false, r)
  | String "/" r =>
      if starts_with (Ascii.eqb "=") r then Err assign
      else if starts_with (Ascii.eqb "*") r then Err (outside "block comment")
      else Ok (TOp QUO, false, r)
  | String "%" r =>
      if starts_with (Ascii.eqb "=") r then Err assign else Ok (TOp REM, false, r)
  | String "&" (String "&" r) => Ok (TOp LAND, false, r)
  | String "&" (String "^" r) =>
      if starts_with (Ascii.eqb "=") r then Err assign
      else Ok (TOp AND_NOT, false, r)
  | String "&" r =>
      if starts_with (Ascii.eqb "=") r then Err assign else Ok (TOp AND, false, r)
  | String "|" (String "|" r) => Ok (TOp LOR, false, r)
  | String "|" r =>
      if starts_with (Ascii.eqb "=") r then Err assign else Ok (TOp OR, false, r)
  | String "^" r =>
      if starts_with (Ascii.eqb "=") r then Err assign else Ok (TOp XOR, false, r)
  | String "<" (String "<" r) =>
      if starts_with (Ascii.eqb "=") r then Err assign else Ok (TOp SHL, false, r)
  | String "<" (String "=" r) => Ok (TOp LEQ, false, r)
  | String "<" (String "-" r) => Ok (TOp ARROW, false, r)
  | String "<" r => Ok (TOp LSS, false, r)
  | String ">" (String ">" r) =>
      if starts_with (Ascii.eqb "=") r then Err assign else Ok (TOp SHR, false, r)
  | String ">" (String "=" r) => Ok (TOp GEQ, false, r)
  | String ">" r => Ok (TOp GTR, false, r)
  | String "=" (String "=" r) => Ok (TOp EQL, false, r)
  | String "!" (String "=" r) => Ok (TOp NEQ, false, r)
  | String "!" r => Ok (TOp NOT, false, r)
  | String "(" r => Ok (TLParen, false, r)
  | String ")" r => Ok (TRParen, true, r)
  | String c _ => Err (outside ("character " +:+ String c ""))
  | "" => Err "unexpected end of input"
  end.

Fixpoint drop_line (s : string) : string :=
  match s with
  | String c r => if is_newline c then s else drop_line r
  | "" => ""
  end.

(** The scanner, with its rule for semicolons: a newline (or the end of
    the source) after an operand or a closing parenthesis is one. *)
Fixpoint scan (fuel : nat) (insertSemi : bool) (s : string) : res (list tok) :=
  match fuel with
  | O => Err "scanner out of fuel"
  | S fuel =>
      match s with
      | "" => Ok (if insertSemi then [TSemicolon] else [])
      | String c r =>
          if is_space c then scan fuel insertSemi r
          else if is_newline c then
            ts ← scan fuel false r ;
            Ok (if insertSemi then TSemicolon :: ts else ts)
          else if Ascii.eqb c "/" && starts_with (Ascii.eqb "/") r then
            scan fuel insertSemi (drop_line r)
          else if is_letter c then
            let (name, rest) := span (λ c, is_letter c || is_digit c) s in
            if bool_decide (name ∈ keywords) then Err (outside "keyword")
            else ts ← scan fuel true rest ; Ok (TIdent name :: ts)
          else if is_digit c || (Ascii.eqb c "." && starts_with is_digit r) then
            '(kind, lit, rest) ← scan_number s ;
            ts ← scan fuel true rest ;
            Ok (TLit kind lit :: ts)
          else
            '(t, semi, rest) ← scan_operator s ;
            ts ← scan fuel semi rest ;
            Ok (t :: ts)
      end
  end.

(** [Token.Precedence]. *)
Definition Precedence (op : Token) : nat :=
  match op with
  | LOR => 1
  | LAND => 2
  | EQL | NEQ | LSS | LEQ | GTR | GEQ => 3
  | ADD | SUB | OR | XOR => 4
  | MUL | QUO | REM | SHL | SHR | AND | AND_NOT => 5
  | _ => 0
  end.

Definition describe (ts : list tok) : string :=
  match ts with
  | [] => "'EOF'"
  | TOp op :: _ => "'" +:+ Token_String op +:+ "'"
  | TLit _ lit :: _ => lit
  | TIdent name :: _ => name
  | TLParen :: _ => "'('"
  | TRParen :: _ => "')'"
  | TSemicolon :: _ => "newline"
  end.

(** [parseUnaryExpr] (with [parsePrimaryExpr] and [parseOperand]) and
    [parseBinaryExpr], whose loop is [binaryLoop]. *)
Fixpoint parseUnaryExpr (fuel : nat) (ts : list tok) : res (Node * list tok) :=
  match fuel with
  | O => Err "parser out of fuel"
  | S fuel =>
      let no_call (r : res (Node * list tok)) :=
        '(x, rest) ← r ;
        match rest with
        | TLParen :: _ => Err (outside "call")
        | _ => Ok (x, rest)
        end in
      match ts with
      | TOp MUL :: rest =>
          '(_, rest) ← parseUnaryExpr fuel rest ;
          Ok (OtherNode "*ast.StarExpr", rest)
      | TOp op :: rest =>
          match op with
          | ADD | SUB | NOT | XOR | AND | ARROW =>
              '(x, rest) ← parseUnaryExpr fuel rest ;
              Ok (UnaryExpr op x, rest)
          | _ => Err ("expected operand, found " +:+ describe ts)
          end
      | TLit kind lit :: rest => no_call (Ok (BasicLit kind lit, rest))
      | TIdent name :: rest => no_call (Ok (Ident name, rest))
      | TLParen :: rest =>
          no_call
            ('(x, rest) ← parseBinaryExpr fuel 1 rest ;
             match rest with
             | TRParen :: rest => Ok (ParenExpr x, rest)
             | _ => Err ("expected ')', found " +:+ describe rest)
             end)
      | _ => Err ("expected operand, found " +:+ describe ts)
      end
  end
with parseBinaryExpr (fuel : nat) (prec1 : nat) (ts : list tok)
    : res (Node * list tok) :=
  match fuel with
  | O => Err "parser out of fuel"
  | S fuel =>
      '(x, rest) ← parseUnaryExpr fuel ts ;
      binaryLoop fuel x prec1 rest
  end
with binaryLoop (fuel : nat) (x : Node) (prec1 : nat) (ts : list tok)
    : res (Node * list tok) :=
  match fuel with
  | O => Err "parser out of fuel"
  | S fuel =>
      match ts with
      | TOp op :: rest =>
          let oprec := Precedence op in
          if (oprec <? prec1)%nat then Ok (x, ts)
          else
            '(y, rest) ← parseBinaryExpr fuel (S oprec) rest ;
            binaryLoop fuel (BinaryExpr x op y) prec1 rest
      | _ => Ok (x, ts)
      end
  end.

(** [parser.ParseExpr]. *)
Definition ParseExpr (x : string) : res Node :=
  ts ← scan (S (String.length x)) false x ;
  '(e, rest) ← parseBinaryExpr (4 * S (length ts)) 1 ts ;
  match rest with
  | [] | [TSemicolon] => Ok e
  | TSemicolon :: rest | rest => Err ("expected 'EOF', found " +:+ describe rest)
  end.

(** *** encoding/json

    The decoder on ASCII input: objects, arrays, strings with the
    two-character escapes, numbers, [true], [false] and [null].
    [\u] escapes and bytes outside ASCII are outside the fragment. *)

Definition is_json_space (c : ascii) : bool :=
  let n := nat_of_ascii c in
  (n =? 32)%nat || (n =? 9)%nat || (n =? 10)%nat || (n =? 13)%nat.

Fixpoint skip_space (s : string) : string :=
  match s with
  | String c r => if is_json_space c then skip_space r else s
  | "" => ""
  end.

(** How the decoder's messages show the offending character. *)
Definition quoteChar (c : ascii) : string :=
  if Ascii.eqb c "'" then "'\''"
  else if Ascii.eqb c "034" then "'" +:+ dquote +:+ "'"
  else "'" +:+ String c "" +:+ "'".

Definition invalid (c : ascii) (context : string) : string :=
  "invalid character " +:+ quoteChar c +:+ " " +:+ context.

Definition end_of_input : string := "unexpected end of JSON input".

Definition unescape (c : ascii) : option ascii :=
  if Ascii.eqb c "034" then Some "034"%char
  else if Ascii.eqb c "\" then Some "\"%char
  else if Ascii.eqb c "/" then Some "/"%char
  else if Ascii.eqb c "b" then Some "008"%char
  else if Ascii.eqb c "f" then Some "012"%char
  else if Ascii.eqb c "n" then Some "010"%char
  else if Ascii.eqb c "r" then Some "013"%char
  else if Ascii.eqb c "t" then Some "009"%char
  else None.

(** A string literal after its opening quote. *)
Fixpoint scan_string (s : string) : res (string * string) :=
  match s with
  | "" => Err end_of_input
  | String c r =>
      if Ascii.eqb c "034" then Ok ("", r)
      else if Ascii.eqb c "\" then
        match r with
        | "" => Err end_of_input
        | String e r' =>
            match unescape e with
            | Some ch => '(t, rest) ← scan_string r' ; Ok (String ch t, rest)
            | None =>
                if Ascii.eqb e "u" then Err (outside "\u escape")
                else Err (invalid e "in string escape code")
            end
        end
      else if (nat_of_ascii c <? 32)%nat then Err (invalid c "in string literal")
      else if (127 <? nat_of_ascii c)%nat then Err (outside "byte outside ASCII")
      else '(t, rest) ← scan_string r ; Ok (String c t, rest)
  end.

(** A number literal at the head of [s], by the grammar of JSON. *)
Definition scan_json_number (s : string) : res (float * string) :=
  let '(sign, r0) :=
    match s with
    | String "-" r => ("-", r)
    | _ => ("", s)
    end in
  let (ip, r1) := span is_digit r0 in
  match ip with
  | "" =>
      match r0 with
      | "" => Err end_of_input
      | String c _ => Err (invalid c "in numeric literal")
      end
  | String "0" (String c _) => Err (invalid c "after top-level value")
  | _ =>
      '(fp, r2) ←
        match r1 with
        | String "." r =>
            let (fp, r2) := span is_digit r in
            match fp, r2 with
            | "", "" => Err end_of_input
            | "", String c _ =>
                Err (invalid c "after decimal point in numeric literal")
            | _, _ => Ok ("." +:+ fp, r2)
            end
        | _ => Ok ("", r1)
        end ;
      '(ex, r3) ←
        (if starts_with (λ c, Ascii.eqb c "e" || Ascii.eqb c "E") r2 then
           let r := match r2 with String _ r => r | "" => "" end in
           let '(esign, r') :=
             match r with
             | String "-" r' => ("-", r')
             | String "+" r' => ("+", r')
             | _ => ("", r)
             end in
           let (ds, r3) := span is_digit r' in
           match ds, r3 with
           | "", "" => Err end_of_input
           | "", String c _ => Err (invalid c "in exponent of numeric literal")
           | _, _ => Ok ("e" +:+ esign +:+ ds, r3)
           end
         else Ok ("", r2)) ;
      let lit := sign +:+ ip +:+ fp +:+ ex in
      match ParseFloat lit with
      | Ok f => Ok (f, r3)
      | Err _ =>
          Err ("json: cannot unmarshal number " +:+ lit
               +:+ " into Go value of type float64")
      end
  end.

(** The rest of a literal name; [name] is the whole name. *)
Fixpoint expect_literal (name word : string) (v : value) (s : string)
    : res (value * string) :=
  match word with
  | "" => Ok (v, s)
  | String w word =>
      match s with
      | "" => Err end_of_input
      | String c r =>
          if Ascii.eqb c w then expect_literal name word v r
          else Err (invalid c ("in literal " +:+ name
                               +:+ " (expecting " +:+ quoteChar w +:+ ")"))
      end
  end.

(** A value at the head of [s], and what follows it. *)
Fixpoint parse_value (fuel : nat) (s : string) : res (value * string) :=
  match fuel with
  | O => Err "exceeded max depth"
  | S fuel =>
      match skip_space s with
      | "" => Err end_of_input
      | String c r =>
          if Ascii.eqb c "{" then
            match skip_space r with
            | String "}" rest => Ok (VMap ∅, rest)
            | _ => '(m, rest) ← parse_members fuel ∅ r ; Ok (VMap m, rest)
            end
          else if Ascii.eqb c "[" then
            match skip_space r with
            | String "]" rest => Ok (VSlice [], rest)
            | _ => '(l, rest) ← parse_elements fuel r ; Ok (VSlice l, rest)
            end
          else if Ascii.eqb c "034" then
            '(t, rest) ← scan_string r ; Ok (VString t, rest)
          else if Ascii.eqb c "-" || is_digit c then
            '(f, rest) ← scan_json_number (String c r) ; Ok (VFloat f, rest)
          else if Ascii.eqb c "t" then
            expect_literal "true" "rue" (VBool true) r
          else if Ascii.eqb c "f" then
            expect_literal "false" "alse" (VBool false) r
          else if Ascii.eqb c "n" then
            expect_literal "null" "ull" VNil r
          else Err (invalid c "looking for beginning of value")
      end
  end
with parse_members (fuel : nat) (acc : gmap string value) (s : string)
    : res (gmap string value * string) :=
  match fuel with
  | O => Err "exceeded max depth"
  | S fuel =>
      match skip_space s with
      | "" => Err end_of_input
      | String c r =>
          if negb (Ascii.eqb c "034")
          then Err (invalid c "looking for beginning of object key string")
          else
            '(key, rest) ← scan_string r ;
            match skip_space rest with
            | "" => Err end_of_input
            | String c r =>
                if negb (Ascii.eqb c ":") then Err (invalid c "after object key")
                else
                  '(v, rest) ← parse_value fuel r ;
                  let acc := <[ key := v ]> acc in
                  match skip_space rest with
                  | "" => Err end_of_input
                  | String c rest =>
                      if Ascii.eqb c "}" then Ok (acc, rest)
                      else if Ascii.eqb c "," then parse_members fuel acc rest
                      else Err (invalid c "after object key:value pair")
                  end
            end
      end
  end
with parse_elements (fuel : nat) (s : string) : res (list value * string) :=
  match fuel with
  | O => Err "exceeded max depth"
  | S fuel =>
      '(v, rest) ← parse_value fuel s ;
      match skip_space rest with
      | "" => Err end_of_input
      | String c rest =>
          if Ascii.eqb c "]" then Ok ([v], rest)
          else if Ascii.eqb c "," then
            '(l, rest) ← parse_elements fuel rest ; Ok (v :: l, rest)
          else Err (invalid c "after array element")
      end
  end.

(** [json.Unmarshal] into an [interface{}]. *)
Definition Unmarshal_value (data : string) : res value :=
  '(v, rest) ← parse_value (2 * S (String.length data)) data ;
  match skip_space rest with
  | "" => Ok v
  | String c _ => Err (invalid c "after top-level value")
  end.

Definition into_map (v : value) : res (gmap string value) :=
  let cannot (what : string) :=
    Err ("json: cannot unmarshal " +:+ what
         +:+ " into Go value of type map[string]interface {}") in
  match v with
  | VMap m => Ok m
  | VNil => Ok ∅
  | VBool _ => cannot "bool"
  | VFloat _ | VInt _ => cannot "number"
  | VString _ => cannot "string"
  | VSlice _ => cannot "array"
  end.

(** [json.Unmarshal] into a nil [map[string]interface{}]. *)
Definition Unmarshal (data : string) : res (gmap string value) :=
  Unmarshal_value data ≫= into_map.

(** [Decoder.Decode] on a reader holding [data]: the first value; what
    follows it stays unread. *)
Definition Decode (data : string) : res (gmap string value) :=
  match skip_space data with
  | "" => Err "EOF"
  | _ =>
      match parse_value (2 * S (String.length data)) data with
      | Ok (v, _) => into_map v
      | Err err =>
          if String.eqb err end_of_input then Err "unexpected EOF" else Err err
      end
  end.

(** The float [json.Marshal] stumbles on, if there is one. *)
Fixpoint unsupported (v : value) : option float :=
  match v with
  | VFloat f => if is_finite f then None else Some f
  | VSlice l => list_find (λ o, is_Some o) (unsupported <$> l) ≫= snd
  | VMap m =>
      map_fold (λ _ x acc, match unsupported x with Some f => Some f | None => acc end)
        None m
  | _ => None
  end.

Definition Marshal_error (v : value) : string :=
  "json: unsupported value: " +:+
  match unsupported v with
  | Some f => if is_nan f then "NaN" else if get_sign f then "-Inf" else "+Inf"
  | None => ""
  end.

(** *** bytes and net/http *)

(** [bytes.TrimSpace], for ASCII white space. *)
Definition is_trim_space (c : ascii) : bool :=
  let n := nat_of_ascii c in
  (n =? 32)%nat || ((9 <=? n)%nat && (n <=? 13)%nat).

Fixpoint trim_left (s : string) : string :=
  match s with
  | String c r => if is_trim_space c then trim_left r else s
  | "" => ""
  end.

Fixpoint trim_right (s : string) : string :=
  match s with
  | String c r =>
      match trim_right r with
      | "" => if is_trim_space c then "" else String c ""
      | r' => String c r'
      end
  | "" => ""
  end.

Definition TrimSpace (s : string) : string := trim_right (trim_left s).

(** The bytes of an HTTP token. *)
Definition is_token_char (c : ascii) : bool :=
  is_letter c || is_digit c
  || bool_decide (c ∈ list_ascii_of_string "!#$%&'*+-.^`|~").

Definition all_chars (p : ascii → bool) (s : string) : bool :=
  forallb p (list_ascii_of_string s).

Definition is_host_char (c : ascii) : bool :=
  is_letter c || is_digit c || bool_decide (c ∈ list_ascii_of_string "-._~/").

(** [http.NewRequest], for the methods GET and POST and for URLs made
    of [http://] or [https://], a letter or digit, and letters, digits
    and [-._~/]; such a request is always built. *)
Definition NewRequest (method url : string) : res unit :=
  let rest :=
    if String.prefix "http://" url
    then Some (String.substring 7 (String.length url) url)
    else if String.prefix "https://" url
    then Some (String.substring 8 (String.length url) url)
    else None in
  if negb (String.eqb method "GET" || String.eqb method "POST")
  then Err (outside "method")
  else
    match rest with
    | Some (String c r) =>
        if (is_letter c || is_digit c) && all_chars is_host_char r
        then Ok ()
        else Err (outside "URL")
    | _ => Err (outside "URL")
    end.

Definition upper (c : ascii) : ascii :=
  let n := nat_of_ascii c in
  if (97 <=? n)%nat && (n <=? 122)%nat then ascii_of_nat (n - 32) else c.

Definition lower (c : ascii) : ascii :=
  let n := nat_of_ascii c in
  if (65 <=? n)%nat && (n <=? 90)%nat then ascii_of_nat (n + 32) else c.

Fixpoint canonical (up : bool) (s : string) : string :=
  match s with
  | String c r =>
      String (if up then upper c else lower c) (canonical (Ascii.eqb c "-") r)
  | "" => ""
  end.

(** [textproto.CanonicalMIMEHeaderKey]: a key that is not a token is
    left as it is. *)
Definition CanonicalHeaderKey (s : string) : string :=
  if all_chars is_token_char s then canonical true s else s.

#[export] Instance lib : GoLib := {|
  json_Unmarshal := Unmarshal;
  json_Decode := Decode;
  parser_ParseExpr := ParseExpr;
  strconv_ParseInt := ParseInt;
  strconv_ParseFloat := ParseFloat;
  math_Pow := Pow;
  math_Round := Round;
  math_Mod := Mod;
  int_of_float64 := float_to_int;
  float64_of_int := float_of_Z;
  fmt_2f := Sprintf_2f;
  json_Unmarshal_value := Unmarshal_value;
  json_Marshal_error := Marshal_error;
  bytes_TrimSpace := TrimSpace;
  http_NewRequest := NewRequest;
  http_CanonicalHeaderKey := CanonicalHeaderKey
|}.

End RefLib.

(** * Vocabulary of the statements *)

(** The failure envelope with only an [error] field. *)
Definition error_doc (msg : string) : value :=
  VMap {[ "error" := VString msg ]}.

(** What a standard [main] encodes for a handler's result pair. *)
Definition envelope (r : gmap string value * error) : value :=
  match r with
  | (_, Some err) => error_doc err
  | (result, None) => VMap result
  end.

(** How a run without mode argument ends: the minimal error document,
    exit code 1. *)
Definition usage_error : Z * Trace :=
  (1, {| stdout := [error_doc "action required"]; stdin_read := false;
         calls := [] |}).

(** The process was started as [prog action ...] with an action name
    that is not one of the two discovery modes. *)
Definition execute_mode (e : Env) (action : string) : Prop :=
  (∃ prog rest, Args e = prog :: action :: rest)
  ∧ action ≠ "metadata" ∧ action ≠ "actions".

(** The process was started as [prog metadata ...] or
    [prog actions ...]. *)
Definition discovery_mode (e : Env) (mode : string) : Prop :=
  (∃ prog rest, Args e = prog :: mode :: rest)
  ∧ (mode = "metadata" ∨ mode = "actions").

(** Standard input is empty, or holds bytes that [json.Unmarshal]
    decodes to [params]. *)
Definition decodes `{GoLib} (e : Env) (params : gmap string value) : Prop :=
  (Stdin e = Ok "" ∧ params = ∅)
  ∨ (∃ data, Stdin e = Ok data ∧ data ≠ "" ∧ json_Unmarshal data = Ok params).

(** What the exit-code contract says of one [main]: a run without mode
    argument ends in [usage_error]; any other run exits with code 0. *)
Definition exit_contract (main : Env → Proc unit) (e : Env) : Prop :=
  ((length (Args e) < 2)%nat → run main e = usage_error)
  ∧ ((2 ≤ length (Args e))%nat → (run main e).1 = 0)
  ∧ ((run main e).1 ≠ 0 ↔ (length (Args e) < 2)%nat).

(** What idempotent discovery says of one [main] at two runs: the same
    exit code and output, standard input unread, exit code 0. *)
Definition discovery_contract (main : Env → Proc unit) (e1 e2 : Env) : Prop :=
  run main e1 = run main e2
  ∧ stdin_read (run main e1).2 = false
  ∧ (run main e1).1 = 0.


Section ZeroDivision.
Context `{GoLib}.

(** The calculator's evaluation of [node] reaches a division or a
    modulo whose right operand has evaluated to zero; [msg] is the
    message of that operator.  Operands are evaluated left to right, and
    an operand is reached only when those before it have a value. *)
Inductive zero_division : Node → string → Prop :=
  | zd_quo X Y l r :
      Calculator.evalNode X = Ok l →
      Calculator.evalNode Y = Ok r →
      (r =? 0)%float = true →
      zero_division (BinaryExpr X QUO Y) "division by zero"
  | zd_rem X Y l r :
      Calculator.evalNode X = Ok l →
      Calculator.evalNode Y = Ok r →
      (r =? 0)%float = true →
      zero_division (BinaryExpr X REM Y) "modulo by zero"
  | zd_left X Op Y msg :
      zero_division X msg →
      zero_division (BinaryExpr X Op Y) msg
  | zd_right X Op Y l msg :
      Calculator.evalNode X = Ok l →
      zero_division Y msg →
      zero_division (BinaryExpr X Op Y) msg
  | zd_unary Op X msg :
      zero_division X msg →
      zero_division (UnaryExpr Op X) msg
  | zd_paren X msg :
      zero_division X msg →
      zero_division (ParenExpr X) msg.
End ZeroDivision.

(** * Scenarios

    Concrete runs, on the reference library, with no network and no
    environment variable set. *)

Module Scenario.
Import RefLib.

Definition offline : Z → Request → res Response :=
  λ _ _, Err "dial tcp: lookup failed: no such host".

Definition env (args : list string) (stdin : string) : Env :=
  {| Args := args; Stdin := Ok stdin; Getenv := λ _, ""; HttpDo := offline |}.

(** [{"expression": "2 + 2 * 3"}] *)
Definition request_A : string :=
  "{" +:+ dquote +:+ "expression" +:+ dquote +:+ ": "
      +:+ dquote +:+ "2 + 2 * 3" +:+ dquote +:+ "}".

(** [{"expression": "1 / (2 - 2)"}] *)
Definition request_zero : string :=
  "{" +:+ dquote +:+ "expression" +:+ dquote +:+ ": "
      +:+ dquote +:+ "1 / (2 - 2)" +:+ dquote +:+ "}".

(** [{"input_param": "x", "optional_param": "abc"}] *)
Definition request_lenient : string :=
  "{" +:+ dquote +:+ "input_param" +:+ dquote +:+ ": "
      +:+ dquote +:+ "x" +:+ dquote +:+ ", "
      +:+ dquote +:+ "optional_param" +:+ dquote +:+ ": "
      +:+ dquote +:+ "abc" +:+ dquote +:+ "}".

Definition garbage : string := "not json".

(** As [env], with a bot token configured for the slack plugin. *)
Definition env_token (args : list string) (stdin : string) : Env :=
  {| Args := args; Stdin := Ok stdin;
     Getenv := λ k, if String.eqb k "SLACK_BOT_TOKEN" then "xoxb-test" else "";
     HttpDo := offline |}.

(** Handlers of the llm plugin that answer nothing. *)
Definition silent : Env → gmap string value → gmap string value := λ _ _, ∅.
End Scenario.


(** * The reporting plugin (stdio), as far as [create_chart] goes

    [createReport] and [createTable] fill templates, read the clock and
    write files; they stand here as parameters.  [createChart] and what it
    calls are embedded in full. *)

(** What the reporting plugin calls of [fmt] beyond [GoLib]:
    [fmt.Sprintf("%15s", s)], which pads [s] on the left with spaces to a
    width of 15 runes. *)
Class ReportLib : Type := {
  fmt_15s : string → string
}.

(** [fmt.Sprintf("%T", v)] for a value held in an [interface{}]. *)
Definition fmt_T (v : value) : string :=
  match v with
  | VNil => "<nil>"
  | VBool _ => "bool"
  | VFloat _ => "float64"
  | VInt _ => "int"
  | VString _ => "string"
  | VSlice _ => "[]interface {}"
  | VMap _ => "map[string]interface {}"
  end.

Fixpoint repeat_string (n : nat) (s : string) : string :=
  match n with
  | O => ""
  | S n => s +:+ repeat_string n s
  end.

(** [strings.Repeat(s, count)]: it panics on a negative count, and when
    the length of the output does not fit an [int]; memory is not
    bounded here. *)
Definition strings_Repeat (s : string) (count : Z) : Answer string :=
  if count <? 0 then Panics "strings: negative Repeat count"
  else if 2 ^ 63 <=? Z.of_nat (String.length s) * count then
    Panics "strings: Repeat output length overflow"
  else Returns (repeat_string (Z.to_nat count) s).

(** [sort.Strings]: insertion into a list sorted by bytes. *)
Fixpoint insert_sorted (k : string) (l : list string) : list string :=
  match l with
  | [] => [k]
  | x :: r => if String.leb k x then k :: l else x :: insert_sorted k r
  end.

Definition sort_Strings (l : list string) : list string :=
  foldr insert_sorted [] l.

(** The bytes of U+2588, the full block. *)
Definition full_block : string := String "226" (String "150" (String "136" "")).

Definition newline : string := String "010" "".

Module Reporting.
Section Plugin.
Context `{GoLib} `{ReportLib}.
Variable createReport createTable :
  gmap string value → Answer (gmap string value * error).

Definition GetMetadata : Metadata :=
  {| Name := "reporting";
     Version := "1.0.0";
     Description := "Generate formatted reports with tables, charts, and multiple output formats";
     Author := "Corynth Team";
     Tags := ["reporting"; "pdf"; "markdown"; "tables"; "documentation"; "output"] |}.

Definition input (ty : string) (required : bool) (default : option value)
    (descr : string) : IOSpec :=
  {| Type_ := ty; Required := required; Default := default;
     IODescription := descr |}.

Definition output (ty : string) (descr : string) : IOSpec :=
  {| Type_ := ty; Required := false; Default := None; IODescription := descr |}.

Definition GetActions : gmap string ActionSpec :=
  {[ "create_report" :=
       {| ActDescription := "Create formatted report";
          Inputs :=
            {[ "title" := input "string" true None "Report title";
               "content" := input "string" true None "Report content";
               "format" := input "string" false (Some (VString "markdown"))
                             "Output format: markdown, html, text";
               "output_path" := input "string" false None "Output file path";
               "metadata" := input "object" false None "Report metadata" ]};
          Outputs :=
            {[ "report" := output "string" "Generated report";
               "file_path" := output "string" "Output file path" ]} |};
     "create_table" :=
       {| ActDescription := "Create formatted table";
          Inputs :=
            {[ "data" := input "array" true None "Table data";
               "headers" := input "array" false None "Column headers";
               "format" := input "string" false (Some (VString "markdown"))
                             "Table format";
               "title" := input "string" false None "Table title" ]};
          Outputs := {[ "table" := output "string" "Formatted table" ]} |};
     "create_chart" :=
       {| ActDescription := "Create ASCII chart";
          Inputs :=
            {[ "data" := input "object" true None "Chart data";
               "type" := input "string" false (Some (VString "bar"))
                           "Chart type: bar, line";
               "title" := input "string" false None "Chart title";
               "width" := input "number" false (Some (VInt 60)) "Chart width" ]};
          Outputs := {[ "chart" := output "string" "ASCII chart" ]} |} ]}.

Definition getStringParam (params : gmap string value) (key defaultValue : string)
    : string :=
  match as_string (params !! key) with
  | Some val => val
  | None => defaultValue
  end.

Definition getFloatParam (params : gmap string value) (key : string)
    (defaultValue : float) : float :=
  match as_float64 (params !! key) with
  | Some val => val
  | None => defaultValue
  end.

Definition convertToFloat (value : value) : res float :=
  match value with
  | VFloat v => Ok v
  | VInt v => Ok (float64_of_int v)
  | VString v => strconv_ParseFloat v
  | _ => Err ("cannot convert " +:+ fmt_T value +:+ " to float64")
  end.

(** The first loop of [generateBarChart].  A value replaces [maxVal]
    only when it is greater, so that the order in which Go ranges over
    the map does not matter. *)
Definition chart_maxVal (data : gmap string value) : float :=
  map_fold (λ _ v maxVal,
              match convertToFloat v with
              | Ok val => if (maxVal <? val)%float then val else maxVal
              | Err _ => maxVal
              end) 0%float data.

(** The last loop of [generateBarChart], over the sorted keys. *)
Fixpoint chart_bars (data : gmap string value) (maxVal : float) (width : Z)
    (keys lines : list string) : Answer (list string) :=
  match keys with
  | [] => Returns lines
  | label :: keys =>
      match convertToFloat (default VNil (data !! label)) with
      | Err _ => chart_bars data maxVal width keys lines
      | Ok val =>
          let barLength :=
            int_of_float64 ((val / maxVal) * float64_of_int width)%float in
          match strings_Repeat full_block barLength with
          | Panics msg => Panics msg
          | Returns bar =>
              chart_bars data maxVal width keys
                (lines ++ [fmt_15s label +:+ " | " +:+ bar +:+ " "
                             +:+ fmt_2f val])%list
          end
      end
  end.

Definition generateBarChart (data : gmap string value) (title : string)
    (width : Z) : Answer string :=
  match
    (if String.eqb title "" then Returns []
     else
       match strings_Repeat "=" (Z.of_nat (String.length title)) with
       | Panics msg => Panics msg
       | Returns rule => Returns [title; rule; ""]
       end)
  with
  | Panics msg => Panics msg
  | Returns lines =>
      if (size data =? 0)%nat then Returns "No data provided"
      else
        let maxVal := chart_maxVal data in
        let maxVal := if (maxVal =? 0)%float then 1%float else maxVal in
        let keys := sort_Strings (map_to_list data).*1 in
        match chart_bars data maxVal width keys lines with
        | Panics msg => Panics msg
        | Returns lines => Returns (String.concat newline lines)
        end
  end.

Definition createChart (params : gmap string value)
    : Answer (gmap string value * error) :=
  match params !! "data" with
  | None => Returns ({[ "error" := VString "data is required" ]}, None)
  | Some dataRaw =>
      match as_map (Some dataRaw) with
      | None => Returns ({[ "error" := VString "data must be an object" ]}, None)
      | Some data =>
          if (size data =? 0)%nat then
            Returns ({[ "chart" := VString "No data provided" ]}, None)
          else
            let chartType := getStringParam params "type" "bar" in
            let title := getStringParam params "title" "" in
            let width := int_of_float64 (getFloatParam params "width" 60) in
            match
              (if String.eqb chartType "bar" || String.eqb chartType "line"
               then generateBarChart data title width
               else generateBarChart data title width)
            with
            | Panics msg => Panics msg
            | Returns chart => Returns ({[ "chart" := VString chart ]}, None)
            end
      end
  end.

Definition Execute (action : string) (params : gmap string value)
    : Answer (gmap string value * error) :=
  if String.eqb action "create_report" then createReport params
  else if String.eqb action "create_table" then createTable params
  else if String.eqb action "create_chart" then createChart params
  else Returns (∅, Some ("unknown action: " +:+ action)).

Definition main : Env → Proc unit :=
  std_main GetMetadata GetActions (λ _, Execute).

End Plugin.
End Reporting.

(** * A reference library for the reporting plugin *)

Module RefReport.

(** The runes of a string of valid UTF-8, which is what the JSON decoder
    hands out: the bytes that do not continue a sequence. *)
Definition rune_count (s : string) : nat :=
  length (List.filter (λ c, negb ((128 <=? nat_of_ascii c)%nat
                                  && (nat_of_ascii c <? 192)%nat))
            (list_ascii_of_string s)).

(** [fmt.Sprintf("%15s", s)] on valid UTF-8. *)
Definition Sprintf_15s (s : string) : string :=
  repeat_string (15 - rune_count s) " " +:+ s.

#[export] Instance lib : ReportLib := {| fmt_15s := Sprintf_15s |}.

End RefReport.

(** * Scenarios beyond the protocol's contract *)

Module Exceptions.
Import RefLib.

(** [{"data": {"a": -1}}] *)
Definition request_negative : string :=
  "{" +:+ dquote +:+ "data" +:+ dquote +:+ ": {"
      +:+ dquote +:+ "a" +:+ dquote +:+ ": -1}}".





End Exceptions.
(** * Vocabulary of the further properties *)

(** The expressions the calculator gives a value to: sums, differences,
    products, quotients and remainders, signed and parenthesised
    expressions, integer and floating-point literals, [pi] and [e]. *)
Inductive arithmetic : Node → Prop :=
  | ar_binary X Op Y :
      Op ∈ [ADD; SUB; MUL; QUO; REM] →
      arithmetic X → arithmetic Y →
      arithmetic (BinaryExpr X Op Y)
  | ar_unary Op X :
      Op ∈ [ADD; SUB] →
      arithmetic X →
      arithmetic (UnaryExpr Op X)
  | ar_paren X :
      arithmetic X →
      arithmetic (ParenExpr X)
  | ar_literal Kind Value :
      Kind ∈ [INT; FLOAT] →
      arithmetic (BasicLit Kind Value)
  | ar_constant name :
      name ∈ ["pi"; "e"] →
      arithmetic (Ident name).

(** The [main] functions of the stdio protocol that are modelled. *)
Definition stdio_mains `{GoLib} M A X g c o : list (Env → Proc unit) :=
  [Calculator.main; HTTP.main; std_main M A X; Template.main; Slack.main;
   LLM.main g c o].

(** * official/slack/plugin.go, lines 391-870: the email plugin *)

(** What the email plugin calls of [strconv], [encoding/base64], [mime]
    and [path/filepath]. *)
Class MailLib : Type := {
  (** [strconv.Atoi] and [strconv.ParseBool]. *)
  strconv_Atoi : string → res Z;
  strconv_ParseBool : string → res bool;
  (** [base64.StdEncoding.EncodeToString]. *)
  base64_EncodeToString : string → string;
  (** [mime.TypeByExtension]. *)
  mime_TypeByExtension : string → string;
  (** [filepath.Base] and [filepath.Ext]. *)
  filepath_Base : string → string;
  filepath_Ext : string → string
}.

(** [fmt.Sprintf("%d", n)]. *)
Definition fmt_d (n : Z) : string := NilZero.string_of_int (Z.to_int n).

(** The line ending of mail, and the double quote. *)
Definition CRLF : string := String "013" (String "010" "").
Definition DQUOTE : string := String "034" "".

(** What the plugin asks of the SMTP client, in the order of
    [net/smtp]'s calls. *)
Inductive SmtpCommand : Type :=
  | TLSDial (addr server : string)
  | NewClient (server : string)
  | Dial (addr : string)
  | Extension (name : string)
  | StartTLS (server : string)
  | Auth (username password server : string)
  | Mail (from : string)
  | Rcpt (addr : string)
  | Data
  | Write (message : string)
  | CloseWriter
  | Close.

(** What the email plugin finds outside the process: the clock
    ([Clock n] is the n-th reading of [time.Now().UnixNano()]), the file
    system ([NotExist p] is [os.IsNotExist] of the error of [os.Stat(p)]),
    and the mail server with the network before it: the error of a
    command and the answer to [Extension], given the commands issued so
    far, oldest first. *)
Record MailWorld : Type := {
  Clock : nat → Z;
  NotExist : string → bool;
  ReadFile : string → res string;
  Smtp : list SmtpCommand → SmtpCommand → error;
  Supports : list SmtpCommand → string → bool
}.

(** A computation that issues commands and may stop with an error: it
    takes the commands issued so far and returns them extended. *)
Definition Session (A : Type) : Type :=
  list SmtpCommand → res A * list SmtpCommand.

#[global] Instance Session_ret : MRet Session := λ A a h, (Ok a, h).

#[global] Instance Session_bind : MBind Session := λ A B f m h,
  match m h with
  | (Ok a, h') => f a h'
  | (Err err, h') => (Err err, h')
  end.

(** Issue [cmd]; its error, if any, is returned behind [context]. *)
Definition issue (w : MailWorld) (cmd : SmtpCommand) (context : string)
    : Session unit :=
  λ h, (match Smtp w h cmd with
        | Some err => Err (context +:+ err)
        | None => Ok ()
        end, (h ++ [cmd])%list).

(** Issue [cmd] and drop its error. *)
Definition issue_ (w : MailWorld) (cmd : SmtpCommand) : Session unit :=
  λ h, (Ok (), (h ++ [cmd])%list).

(** [client.Extension(name)], whose error is dropped. *)
Definition ask (w : MailWorld) (name : string) : Session bool :=
  λ h, (Ok (Supports w h name), (h ++ [Extension name])%list).

Fixpoint string_take (n : nat) (s : string) : string :=
  match n, s with
  | S n, String c r => String c (string_take n r)
  | _, _ => ""
  end.

Fixpoint string_drop (n : nat) (s : string) : string :=
  match n, s with
  | S n, String _ r => string_drop n r
  | _, _ => s
  end.

Module Email.
Section Plugin.
Context `{GoLib} `{MailLib}.

Definition GetMetadata : Metadata :=
  {| Name := "email";
     Version := "1.0.0";
     Description := "Email notifications and communication";
     Author := "Corynth Team";
     Tags := ["email"; "smtp"; "notifications"] |}.

Definition input (ty : string) (required : bool) (default : option value)
    (descr : string) : IOSpec :=
  {| Type_ := ty; Required := required; Default := default;
     IODescription := descr |}.

Definition GetActions : gmap string ActionSpec :=
  {[ "send" :=
       {| ActDescription := "Send email";
          Inputs :=
            {[ "to" := input "array" true None "Recipient emails";
               "subject" := input "string" true None "Email subject";
               "body" := input "string" true None "Email body";
               "from_email" := input "string" false None "Sender email";
               "attachments" := input "array" false None "File paths to attach";
               "html" := input "boolean" false (Some (VBool false)) "HTML email" ]};
          Outputs :=
            {[ "success" := input "boolean" false None "Email sent successfully";
               "message_id" := input "string" false None "Message ID" ]} |} ]}.

(** The loop of [parseToEmails] from index [i] on. *)
Fixpoint parseToEmails_loop (i : Z) (v : list value) : res (list string) :=
  match v with
  | [] => Ok []
  | email :: rest =>
      match email with
      | VString (String c s) =>
          emails ← parseToEmails_loop (i + 1) rest ;
          Ok (String c s :: emails)
      | _ => Err ("to[" +:+ fmt_d i +:+ "] must be a non-empty string")
      end
  end.

Definition parseToEmails (to : option value) : res (list string) :=
  match to with
  | None | Some VNil => Err "to is required"
  | Some (VSlice v) =>
      emails ← parseToEmails_loop 0 v ;
      match emails with
      | [] => Err "at least one recipient email is required"
      | _ => Ok emails
      end
  | Some (VString v) =>
      if String.eqb v "" then Err "to email cannot be empty" else Ok [v]
  | Some _ => Err "to must be a string or array of strings"
  end.

(** A nil slice and an empty one are not told apart by the callers. *)
Definition parseAttachments (attachments : option value) : list string :=
  match attachments with
  | Some (VSlice arr) =>
      foldl (λ result item,
               match item with
               | VString (String c s) => (result ++ [String c s])%list
               | _ => result
               end) [] arr
  | _ => []
  end.

Definition getBoolParam (params : gmap string value) (key : string)
    (defaultValue : bool) : bool :=
  match as_bool (params !! key) with
  | Some val => val
  | None => defaultValue
  end.

Definition getBoolFromEnv (e : Env) (key : string) (defaultValue : bool) : bool :=
  let val := Getenv e key in
  if String.eqb val "" then defaultValue
  else
    match strconv_ParseBool val with
    | Ok b => b
    | Err _ => defaultValue
    end.

(** The loop of [addAttachment] over the encoded content: lines of 76
    characters, the last one shorter, each followed by CRLF.  [fuel]
    bounds the number of lines. *)
Fixpoint base64_lines (fuel : nat) (encoded : string) : string :=
  match fuel with
  | O => ""
  | S fuel =>
      match encoded with
      | "" => ""
      | _ =>
          string_take 76 encoded +:+ CRLF
            +:+ base64_lines fuel (string_drop 76 encoded)
      end
  end.

(** [addAttachment]: what it appends to the message. *)
Definition addAttachment (w : MailWorld) (boundary filePath : string)
    : res string :=
  if NotExist w filePath then Err ("file does not exist: " +:+ filePath)
  else
    match ReadFile w filePath with
    | Err err => Err ("failed to read file: " +:+ err)
    | Ok fileContent =>
        let filename := filepath_Base filePath in
        let contentType :=
          let contentType := mime_TypeByExtension (filepath_Ext filePath) in
          if String.eqb contentType "" then "application/octet-stream"
          else contentType in
        let encoded := base64_EncodeToString fileContent in
        Ok ("--" +:+ boundary +:+ CRLF
            +:+ "Content-Type: " +:+ contentType +:+ CRLF
            +:+ "Content-Transfer-Encoding: base64" +:+ CRLF
            +:+ "Content-Disposition: attachment; filename=" +:+ DQUOTE
            +:+ filename +:+ DQUOTE +:+ CRLF
            +:+ CRLF
            +:+ base64_lines (String.length encoded) encoded)
    end.

(** The loop of [buildMessage] over the attachments. *)
Fixpoint addAttachments (w : MailWorld) (boundary : string)
    (attachments : list string) : res string :=
  match attachments with
  | [] => Ok ""
  | filePath :: rest =>
      match addAttachment w boundary filePath with
      | Err err =>
          Err ("failed to add attachment " +:+ filePath +:+ ": " +:+ err)
      | Ok part =>
          parts ← addAttachments w boundary rest ;
          Ok (part +:+ parts)
      end
  end.

(** [buildMessage]: the message and its identifier. *)
Definition buildMessage (w : MailWorld) (fromEmail : string)
    (toEmails : list string) (subject body : string) (isHTML : bool)
    (attachments : list string) : res (string * string) :=
  let messageID := "<" +:+ fmt_d (Clock w 0) +:+ "@corynth-email-plugin>" in
  let headers :=
    "From: " +:+ fromEmail +:+ CRLF
    +:+ "To: " +:+ String.concat ", " toEmails +:+ CRLF
    +:+ "Subject: " +:+ subject +:+ CRLF
    +:+ "Message-ID: " +:+ messageID +:+ CRLF
    +:+ "MIME-Version: 1.0" +:+ CRLF in
  let boundary := "boundary_" +:+ fmt_d (Clock w 1) in
  let text :=
    (if isHTML then "Content-Type: text/html; charset=UTF-8"
     else "Content-Type: text/plain; charset=UTF-8") +:+ CRLF
    +:+ "Content-Transfer-Encoding: 8bit" +:+ CRLF
    +:+ CRLF
    +:+ body +:+ CRLF in
  if (0 <? length attachments)%nat then
    parts ← addAttachments w boundary attachments ;
    Ok (headers
        +:+ "Content-Type: multipart/mixed; boundary=" +:+ boundary +:+ CRLF
        +:+ CRLF
        +:+ "--" +:+ boundary +:+ CRLF
        +:+ text
        +:+ parts
        +:+ "--" +:+ boundary +:+ "--" +:+ CRLF,
        messageID)
  else Ok (headers +:+ text, messageID).

(** The loop of [sendSMTP] over the recipients. *)
Fixpoint rcpt_all (w : MailWorld) (to : list string) : Session unit :=
  match to with
  | [] => mret ()
  | addr :: rest =>
      issue w (Rcpt addr) ("failed to set recipient " +:+ addr +:+ ": ") ;;
      rcpt_all w rest
  end.

(** [sendSMTP]: the commands it issues, and its error.  The deferred
    [client.Close()] comes last on every path that has a client. *)
Definition sendSMTP (w : MailWorld) (server : string) (port : Z)
    (username password : string) (useTLS : bool) (from : string)
    (to : list string) (message : string) : list SmtpCommand * error :=
  let addr := server +:+ ":" +:+ fmt_d port in
  let connect : Session unit :=
    if useTLS && (port =? 465) then
      issue w (TLSDial addr server) "failed to connect to SMTP server: " ;;
      issue w (NewClient server) "failed to create SMTP client: "
    else
      issue w (Dial addr) "failed to connect to SMTP server: " in
  let session : Session unit :=
    (if useTLS && negb (port =? 465) then
       ok ← ask w "STARTTLS" ;
       if ok : bool then issue w (StartTLS server) "failed to start TLS: "
       else mret ()
     else mret ()) ;;
    (if negb (String.eqb username "") && negb (String.eqb password "") then
       issue w (Auth username password server) "SMTP authentication failed: "
     else mret ()) ;;
    issue w (Mail from) "failed to set sender: " ;;
    rcpt_all w to ;;
    issue w Data "failed to get data writer: " ;;
    (λ h, match issue w (Write message) "failed to write message: " h with
          | (Err err, h) => (Err err, (h ++ [CloseWriter])%list)
          | r => r
          end) ;;
    issue w CloseWriter "failed to close data writer: " in
  match connect [] with
  | (Err err, h) => (h, Some err)
  | (Ok _, h) =>
      match session h with
      | (Err err, h) => ((h ++ [Close])%list, Some err)
      | (Ok _, h) => ((h ++ [Close])%list, None)
      end
  end.

(** [sendEmail]: its result pair, and the commands it had issued. *)
Definition sendEmail (e : Env) (w : MailWorld) (params : gmap string value)
    : (gmap string value * error) * list SmtpCommand :=
  let fail (msg : string) : (gmap string value * error) * list SmtpCommand :=
    (({[ "error" := VString msg ]}, None), []) in
  match parseToEmails (params !! "to") with
  | Err err => fail err
  | Ok toEmails =>
  match as_string (params !! "subject") with
  | None | Some "" => fail "subject is required"
  | Some subject =>
  match as_string (params !! "body") with
  | None | Some "" => fail "body is required"
  | Some body =>
  let fromEmail :=
    match as_string (params !! "from_email") with
    | Some (String c s) => String c s
    | _ => Getenv e "SMTP_FROM_EMAIL"
    end in
  if String.eqb fromEmail "" then
    fail "from_email is required (parameter or SMTP_FROM_EMAIL env var)"
  else
  let attachments := parseAttachments (params !! "attachments") in
  let isHTML := getBoolParam params "html" false in
  let smtpServer :=
    if String.eqb (Getenv e "SMTP_SERVER") "" then "localhost"
    else Getenv e "SMTP_SERVER" in
  let smtpPortStr :=
    if String.eqb (Getenv e "SMTP_PORT") "" then "587"
    else Getenv e "SMTP_PORT" in
  match strconv_Atoi smtpPortStr with
  | Err err => fail ("invalid SMTP_PORT: " +:+ err)
  | Ok smtpPort =>
  let smtpUser := Getenv e "SMTP_USER" in
  let smtpPass := Getenv e "SMTP_PASSWORD" in
  let smtpTLS := getBoolFromEnv e "SMTP_TLS" true in
  match buildMessage w fromEmail toEmails subject body isHTML attachments with
  | Err err => fail ("failed to build message: " +:+ err)
  | Ok (message, messageID) =>
  match sendSMTP w smtpServer smtpPort smtpUser smtpPass smtpTLS fromEmail
          toEmails message with
  | (h, Some err) =>
      (({[ "error" := VString ("failed to send email: " +:+ err) ]}, None), h)
  | (h, None) =>
      (({[ "success" := VBool true; "message_id" := VString messageID ]}, None), h)
  end end end end end end.

Definition Execute (w : MailWorld) (e : Env) (action : string)
    (params : gmap string value) : gmap string value * error :=
  if String.eqb action "send" then (sendEmail e w params).1
  else (∅, Some ("unknown action: " +:+ action)).

Definition main (w : MailWorld) : Env → Proc unit :=
  std_main GetMetadata GetActions (total (Execute w)).

End Plugin.
End Email.


(** * Vocabulary of the email plugin's properties *)

(** A recipient as [parseToEmails] takes it from an array, and an
    attachment as [parseAttachments] keeps it: a non-empty string. *)
Definition is_address (v : value) : bool :=
  match v with
  | VString (String _ _) => true
  | _ => false
  end.

(** The error of a command as [sendSMTP] sees it: that of [Extension] is
    dropped. *)
Definition refusal (w : MailWorld) (h : list SmtpCommand) (cmd : SmtpCommand)
    : error :=
  match cmd with
  | Extension _ => None
  | _ => Smtp w h cmd
  end.

(** The first command of [cmds] that is refused when they are issued in
    order after [h]: the commands issued up to it, the command, and its
    error. *)
Fixpoint first_refusal (w : MailWorld) (h cmds : list SmtpCommand)
    : option (list SmtpCommand * SmtpCommand * string) :=
  match cmds with
  | [] => None
  | cmd :: rest =>
      match refusal w h cmd with
      | Some err => Some ((h ++ [cmd])%list, cmd, err)
      | None => first_refusal w (h ++ [cmd])%list rest
      end
  end.

(** The commands that give [sendSMTP] its client. *)
Definition smtp_connection (server : string) (port : Z) (useTLS : bool)
    : list SmtpCommand :=
  let addr := server +:+ ":" +:+ fmt_d port in
  if useTLS && (port =? 465) then [TLSDial addr server; NewClient server]
  else [Dial addr].

(** The commands of a session that meets no refusal, once [sendSMTP] has
    its client. *)
Definition smtp_session (w : MailWorld) (server : string) (port : Z)
    (username password : string) (useTLS : bool) (from : string)
    (to : list string) (message : string) : list SmtpCommand :=
  ((if useTLS && negb (port =? 465) then
      Extension "STARTTLS"
        :: (if Supports w (smtp_connection server port useTLS) "STARTTLS"
            then [StartTLS server] else [])
    else [])
   ++ (if negb (String.eqb username "") && negb (String.eqb password "")
       then [Auth username password server] else [])
   ++ [Mail from]
   ++ (Rcpt <$> to)
   ++ [Data] ++ [Write message] ++ [CloseWriter])%list.

(** The commands of a delivery that meets no refusal, the closing of the
    client apart. *)
Definition smtp_script (w : MailWorld) (server : string) (port : Z)
    (username password : string) (useTLS : bool) (from : string)
    (to : list string) (message : string) : list SmtpCommand :=
  (smtp_connection server port useTLS
   ++ smtp_session w server port username password useTLS from to
        message)%list.

(** What [sendSMTP] puts before the error of a command. *)
Definition smtp_context (cmd : SmtpCommand) : string :=
  match cmd with
  | TLSDial _ _ | Dial _ => "failed to connect to SMTP server: "
  | NewClient _ => "failed to create SMTP client: "
  | StartTLS _ => "failed to start TLS: "
  | Auth _ _ _ => "SMTP authentication failed: "
  | Mail _ => "failed to set sender: "
  | Rcpt addr => "failed to set recipient " +:+ addr +:+ ": "
  | Data => "failed to get data writer: "
  | Write _ => "failed to write message: "
  | CloseWriter => "failed to close data writer: "
  | Extension _ | Close => ""
  end.

(** What [sendSMTP] still issues after a command was refused. *)
Definition smtp_closing (cmd : SmtpCommand) : list SmtpCommand :=
  match cmd with
  | TLSDial _ _ | NewClient _ | Dial _ => []
  | Write _ => [CloseWriter; Close]
  | _ => [Close]
  end.

(** A file that [addAttachment] can attach. *)
Definition readable (w : MailWorld) (filePath : string) : bool :=
  negb (NotExist w filePath)
  && match ReadFile w filePath with Ok _ => true | Err _ => false end.

(** What a refused command leaves to do before the client is closed: a
    writer that is open is closed. *)
Definition smtp_pending (cmd : SmtpCommand) : list SmtpCommand :=
  match cmd with
  | Write _ => [CloseWriter]
  | _ => []
  end.

(** The session [m], started after the commands [h], issues [cmds] in
    order and stops at the first one refused, with its error. *)
Definition plays (w : MailWorld) (m : Session unit) (h cmds : list SmtpCommand)
    : Prop :=
  m h = match first_refusal w h cmds with
        | None => (Ok (), (h ++ cmds)%list)
        | Some (issued, cmd, err) =>
            (Err (smtp_context cmd +:+ err), (issued ++ smtp_pending cmd)%list)
        end.

(** * A reference library for the email plugin

    As [RefLib]: each function follows the documented behaviour of its Go
    counterpart, the paths being those of a Unix system and the MIME table
    the one built into Go, without the system's own tables. *)

Module RefMail.
Import RefLib.

(** [strconv.Atoi]: an optional sign and decimal digits, in the range of
    a 64-bit [int]. *)
Definition Atoi (s : string) : res Z :=
  let '(neg, ds) :=
    match s with
    | String "-" r => (true, r)
    | String "+" r => (false, r)
    | _ => (false, s)
    end in
  if (String.length ds =? 0)%nat || negb (all_digits ds)
  then Err (NumError "Atoi" s "invalid syntax")
  else
    let z := if neg then - digits_val 0 ds else digits_val 0 ds in
    if (- 2 ^ 63 <=? z) && (z <? 2 ^ 63) then Ok z
    else Err (NumError "Atoi" s "value out of range").

(** [strconv.ParseBool]. *)
Definition ParseBool (s : string) : res bool :=
  if bool_decide (s ∈ ["1"; "t"; "T"; "TRUE"; "true"; "True"]) then Ok true
  else if bool_decide (s ∈ ["0"; "f"; "F"; "FALSE"; "false"; "False"]) then Ok false
  else Err (NumError "ParseBool" s "invalid syntax").

Definition base64_alphabet : string :=
  "ABCDEFGHIJKLMNOPQRSTUVWXYZabcdefghijklmnopqrstuvwxyz0123456789+/".

Definition base64_char (i : Z) : ascii :=
  default "="%char (String.get (Z.to_nat i) base64_alphabet).

Definition byte_val (c : ascii) : Z := Z.of_nat (nat_of_ascii c).

(** [base64.StdEncoding.EncodeToString]: three bytes to four characters,
    the last group padded with [=]. *)
Fixpoint base64_encode (s : string) : string :=
  match s with
  | "" => ""
  | String a "" =>
      let a := byte_val a in
      String (base64_char (a / 4))
        (String (base64_char (a mod 4 * 16)) "==")
  | String a (String b "") =>
      let a := byte_val a in
      let b := byte_val b in
      String (base64_char (a / 4))
        (String (base64_char (a mod 4 * 16 + b / 16))
           (String (base64_char (b mod 16 * 4)) "="))
  | String a (String b (String c r)) =>
      let a := byte_val a in
      let b := byte_val b in
      let c := byte_val c in
      String (base64_char (a / 4))
        (String (base64_char (a mod 4 * 16 + b / 16))
           (String (base64_char (b mod 16 * 4 + c / 64))
              (String (base64_char (c mod 64)) (base64_encode r))))
  end.

Definition is_slash (c : ascii) : bool := Ascii.eqb c "/".

Fixpoint drop_while (p : ascii → bool) (l : list ascii) : list ascii :=
  match l with
  | c :: r => if p c then drop_while p r else l
  | [] => []
  end.

Fixpoint take_until (p : ascii → bool) (l : list ascii) : list ascii :=
  match l with
  | c :: r => if p c then [] else c :: take_until p r
  | [] => []
  end.

(** [filepath.Base]: the last element of the path, trailing slashes
    removed; "." for the empty path, "/" for a path of slashes. *)
Definition Base (path : string) : string :=
  match path with
  | "" => "."
  | _ =>
      let stripped := drop_while is_slash (rev (list_ascii_of_string path)) in
      match rev (take_until is_slash stripped) with
      | [] => "/"
      | name => string_of_list_ascii name
      end
  end.

(** [filepath.Ext]: the suffix of the last element from its last dot
    on. *)
Fixpoint Ext_scan (l acc : list ascii) : string :=
  match l with
  | c :: r =>
      if is_slash c then ""
      else if Ascii.eqb c "." then string_of_list_ascii (c :: acc)
      else Ext_scan r (c :: acc)
  | [] => ""
  end.

Definition Ext (path : string) : string :=
  Ext_scan (rev (list_ascii_of_string path)) [].

Definition builtin_types : list (string * string) :=
  [(".avif", "image/avif"); (".css", "text/css; charset=utf-8");
   (".gif", "image/gif"); (".htm", "text/html; charset=utf-8");
   (".html", "text/html; charset=utf-8"); (".jpeg", "image/jpeg");
   (".jpg", "image/jpeg"); (".js", "text/javascript; charset=utf-8");
   (".json", "application/json"); (".mjs", "text/javascript; charset=utf-8");
   (".pdf", "application/pdf"); (".png", "image/png");
   (".svg", "image/svg+xml"); (".wasm", "application/wasm");
   (".webp", "image/webp"); (".xml", "text/xml; charset=utf-8")].

(** [mime.TypeByExtension] on the built-in table; the extension is looked
    up as it is and then in lower case. *)
Definition TypeByExtension (ext : string) : string :=
  let find (x : string) :=
    snd <$> list_find (λ p, p.1 = x) builtin_types in
  match find ext with
  | Some (_, ty) => ty
  | None =>
      match find (string_of_list_ascii (lower <$> list_ascii_of_string ext)) with
      | Some (_, ty) => ty
      | None => ""
      end
  end.

#[export] Instance lib : MailLib := {|
  strconv_Atoi := Atoi;
  strconv_ParseBool := ParseBool;
  base64_EncodeToString := base64_encode;
  mime_TypeByExtension := TypeByExtension;
  filepath_Base := Base;
  filepath_Ext := Ext
|}.

End RefMail.

(** * Mail scenarios *)

Module MailScenario.

(** A clock that advances by one between readings. *)
Definition clock : nat → Z := λ n, 1700000000000000000 + Z.of_nat n.

(** A file system with the one file [/tmp/report.txt]. *)
Definition report : string := "/tmp/report.txt".

Definition world (smtp : list SmtpCommand → SmtpCommand → error)
    (starttls : bool) : MailWorld :=
  {| Clock := clock;
     NotExist := λ p, negb (String.eqb p report);
     ReadFile := λ p, if String.eqb p report then Ok "Sales: $10,000"
                      else Err ("open " +:+ p +:+ ": permission denied");
     Smtp := smtp;
     Supports := λ _ _, starttls |}.

(** A server that accepts everything. *)
Definition accepting : list SmtpCommand → SmtpCommand → error := λ _ _, None.

(** A server that refuses the recipient [addr]. *)
Definition refusing (addr : string) : list SmtpCommand → SmtpCommand → error :=
  λ _ cmd,
    match cmd with
    | Rcpt a => if String.eqb a addr then Some "550 no such user" else None
    | _ => None
    end.

(** A process environment with the sender [sender] and credentials
    configured. *)
Definition env_sender (sender : string) (args : list string) (stdin : string)
    : Env :=
  {| Args := args; Stdin := Ok stdin;
     Getenv := λ k,
       if String.eqb k "SMTP_FROM_EMAIL" then sender
       else if String.eqb k "SMTP_USER" then "bot"
       else if String.eqb k "SMTP_PASSWORD" then "secret"
       else "";
     HttpDo := Scenario.offline |}.

Definition env : list string → string → Env := env_sender "bot@example.com".

(** A request to two recipients. *)
Definition request : gmap string value :=
  {[ "to" := VSlice [VString "a@example.com"; VString "b@example.com"];
     "subject" := VString "Hello";
     "body" := VString "Hi there" ]}.

(** The commands of the session of [request] up to the second
    recipient. *)
Definition up_to_second_recipient : list SmtpCommand :=
  [Dial "localhost:587"; Extension "STARTTLS"; StartTLS "localhost";
   Auth "bot" "secret" "localhost"; Mail "bot@example.com";
   Rcpt "a@example.com"].

End MailScenario.

(** * Further scenarios *)

Module Faults.
Import RefLib.

(** A process whose standard input cannot be read. *)
Definition env_unreadable (args : list string) : Env :=
  {| Args := args; Stdin := Err "read /dev/stdin: input/output error";
     Getenv := λ _, ""; HttpDo := Scenario.offline |}.

(** [{"expression": "1e308 * 10"}] *)
Definition request_overflow : string :=
  "{" +:+ dquote +:+ "expression" +:+ dquote +:+ ": "
      +:+ dquote +:+ "1e308 * 10" +:+ dquote +:+ "}".

(** A POST request with a JSON document. *)
Definition post_json : gmap string value :=
  {[ "url" := VString "http://example.com/api";
     "json" := VMap {[ "name" := VString "corynth" ]} ]}.

End Faults.

(** * Properties *)

Section Runtime.
Context `{GoLib}.

Lemma eqb_false (a b : string) : a ≠ b → String.eqb a b = false.
Proof. intros Hne. by apply String.eqb_neq. Qed.

Lemma length_pos (data : string) :
  data ≠ "" → (0 <? String.length data)%nat = true.
Proof. destruct data; [done | reflexivity]. Qed.

Lemma encodable_error_doc (msg : string) : encodable (error_doc msg) = true.
Proof. reflexivity. Qed.

Lemma written_error_doc (msg : string) : written (error_doc msg) = [error_doc msg].
Proof. reflexivity. Qed.

(** A standard [main] in execute mode: one read of standard input, one
    document, exit code 0. *)
Lemma std_main_execute M A X (e : Env) (action : string) :
  execute_mode e action →
  run (std_main M A (total X)) e =
    (0, {| stdout :=
             written
               match Stdin e with
               | Err err => error_doc ("failed to read input: " +:+ err)
               | Ok data =>
                   if (0 <? String.length data)%nat then
                     match json_Unmarshal data with
                     | Err err => error_doc ("failed to parse JSON: " +:+ err)
                     | Ok params => envelope (X e action params)
                     end
                   else envelope (X e action ∅)
               end;
           stdin_read := true;
           calls :=
             match Stdin e with
             | Err _ => []
             | Ok data =>
                 if (0 <? String.length data)%nat then
                   match json_Unmarshal data with
                   | Err _ => []
                   | Ok params => [(action, params)]
                   end
                 else [(action, ∅)]
             end |}).
Proof.
  intros [(prog & rest & HArgs) [Hm Ha]].
  unfold run, std_main, total. rewrite HArgs.
  rewrite (eqb_false _ _ Hm), (eqb_false _ _ Ha).
  unfold mbind, Proc_bind, ReadAll_Stdin, Call, answer, mret, Proc_ret; simpl.
  destruct (Stdin e) as [data | err]; simpl. 2: reflexivity.
  destruct (0 <? String.length data)%nat.
  - destruct (json_Unmarshal data) as [params | err]; simpl; [| reflexivity].
    destruct (X e action params) as [result [err |]]; reflexivity.
  - destruct (X e action ∅) as [result [err |]]; reflexivity.
Qed.

Lemma std_main_decodes M A X (e : Env) (action : string) params :
  execute_mode e action → decodes e params →
  run (std_main M A (total X)) e =
    (0, {| stdout := written (envelope (X e action params));
           stdin_read := true; calls := [(action, params)] |}).
Proof.
  intros Hmode Hdec. rewrite (std_main_execute _ _ _ _ _ Hmode).
  destruct Hdec as [[-> ->] | (data & -> & Hne & HU)]; [reflexivity |].
  by rewrite (length_pos _ Hne), HU.
Qed.

(** A handler that panics on the decoded parameters ends the process
    with status 2, after the call and before anything is written. *)
Lemma std_main_panics M A H' (e : Env) (action : string) params msg :
  execute_mode e action → decodes e params →
  H' e action params = Panics msg →
  run (std_main M A H') e =
    (2, {| stdout := []; stdin_read := true; calls := [(action, params)] |}).
Proof.
  intros [(prog & rest & HArgs) [Hm Ha]] Hdec Hpanic.
  unfold run, std_main. rewrite HArgs.
  rewrite (eqb_false _ _ Hm), (eqb_false _ _ Ha).
  unfold mbind, Proc_bind, ReadAll_Stdin, Call, answer, panic, os_Exit,
    mret, Proc_ret; simpl.
  destruct Hdec as [[-> ->] | (data & -> & Hne & HU)]; simpl.
  - by rewrite Hpanic.
  - by rewrite (length_pos _ Hne), HU, Hpanic.
Qed.

(** The template's [main] differs from the standard one in the text of
    the parse error only. *)
Lemma Template_main_execute (e : Env) (action : string) :
  execute_mode e action →
  run Template.main e =
    (0, {| stdout :=
             written
               match Stdin e with
               | Err err => error_doc ("failed to read input: " +:+ err)
               | Ok data =>
                   if (0 <? String.length data)%nat then
                     match json_Unmarshal data with
                     | Err err => error_doc ("failed to parse JSON input: " +:+ err)
                     | Ok params => envelope (Template.Execute action params)
                     end
                   else envelope (Template.Execute action ∅)
               end;
           stdin_read := true;
           calls :=
             match Stdin e with
             | Err _ => []
             | Ok data =>
                 if (0 <? String.length data)%nat then
                   match json_Unmarshal data with
                   | Err _ => []
                   | Ok params => [(action, params)]
                   end
                 else [(action, ∅)]
             end |}).
Proof.
  intros [(prog & rest & HArgs) [Hm Ha]].
  unfold run, Template.main. rewrite HArgs.
  rewrite (eqb_false _ _ Hm), (eqb_false _ _ Ha).
  unfold mbind, Proc_bind, ReadAll_Stdin, Call, mret, Proc_ret; simpl.
  destruct (Stdin e) as [data | err]; simpl; [| reflexivity].
  destruct (0 <? String.length data)%nat.
  - destruct (json_Unmarshal data) as [params | err]; simpl; [| reflexivity].
    destruct (Template.Execute action params) as [result [err |]]; reflexivity.
  - destruct (Template.Execute action ∅) as [result [err |]]; reflexivity.
Qed.

Lemma Template_main_decodes (e : Env) (action : string) params :
  execute_mode e action → decodes e params →
  run Template.main e =
    (0, {| stdout := written (envelope (Template.Execute action params));
           stdin_read := true; calls := [(action, params)] |}).
Proof.
  intros Hmode Hdec. rewrite (Template_main_execute _ _ Hmode).
  destruct Hdec as [[-> ->] | (data & -> & Hne & HU)]; [reflexivity |].
  by rewrite (length_pos _ Hne), HU.
Qed.

(** The slack plugin's [main] in execute mode: a failed decode is
    replaced by the empty parameter map. *)
Lemma Slack_main_execute (e : Env) (action : string) :
  execute_mode e action →
  run Slack.main e =
    (0, {| stdout :=
             written
               (VMap (Slack.Execute e action
                        match Stdin e with
                        | Ok data =>
                            match json_Decode data with
                            | Ok params => params
                            | Err _ => ∅
                            end
                        | Err _ => ∅
                        end));
           stdin_read := true;
           calls :=
             [(action,
               match Stdin e with
               | Ok data =>
                   match json_Decode data with
                   | Ok params => params
                   | Err _ => ∅
                   end
               | Err _ => ∅
               end)] |}).
Proof.
  intros [(prog & rest & HArgs) [Hm Ha]].
  unfold run, Slack.main. rewrite HArgs.
  rewrite (eqb_false _ _ Hm), (eqb_false _ _ Ha).
  unfold Slack.Decode_Stdin, mbind, Proc_bind, ReadAll_Stdin, Call, mret,
    Proc_ret; simpl.
  destruct (Stdin e) as [data | err]; simpl; [| reflexivity].
  destruct (json_Decode data); reflexivity.
Qed.

(** An action is registered exactly when [Execute] has a case for it. *)
Lemma Calculator_unregistered (action : string) params :
  Calculator.GetActions !! action = None →
  Calculator.Execute action params = (∅, Some ("unknown action: " +:+ action)).
Proof.
  intros Hnone. unfold Calculator.Execute.
  destruct (String.eqb_spec action "calculate") as [-> | _]; [done | reflexivity].
Qed.

Lemma HTTP_unregistered (e : Env) (action : string) params :
  HTTP.GetActions !! action = None →
  HTTP.Execute e action params = (∅, Some ("unknown action: " +:+ action)).
Proof.
  intros Hnone. unfold HTTP.Execute.
  destruct (String.eqb_spec action "get") as [-> | _]; [done |].
  destruct (String.eqb_spec action "post") as [-> | _]; [done | reflexivity].
Qed.

Lemma Template_unregistered (action : string) params :
  Template.GetActions !! action = None →
  Template.Execute action params = (∅, Some ("unknown action: " +:+ action)).
Proof.
  intros Hnone. unfold Template.Execute.
  destruct (String.eqb_spec action "example_action") as [-> | _]; [done | reflexivity].
Qed.

Lemma Slack_unregistered (e : Env) (action : string) params :
  Slack.GetActions !! action = None →
  Slack.Execute e action params =
    {[ "error" := VString ("Unknown action: " +:+ action) ]}.
Proof.
  intros Hnone. unfold Slack.Execute.
  destruct (String.eqb_spec action "message") as [-> | _]; [done |].
  destruct (String.eqb_spec action "webhook") as [-> | _]; [done | reflexivity].
Qed.

(** C1, as amended: in execute mode, with standard input empty or
    decoded by [json.Unmarshal], an action name that the plugin's action
    table does not hold makes the calculator, the http plugin and the
    template write the one document [{"error": "unknown action: <name>"}]
    and exit with code 0.  The slack plugin writes
    [{"error": "Unknown action: <name>"}], also with exit code 0, and it
    does so whatever standard input holds: no hypothesis is made on it.
    In each case [Execute] was called once, with the requested name. *)
Theorem unknown_action_safety (e : Env) (action : string)
    (params : gmap string value) :
  execute_mode e action →
  (decodes e params →
   (Calculator.GetActions !! action = None →
    run Calculator.main e =
      (0, {| stdout := [error_doc ("unknown action: " +:+ action)];
             stdin_read := true; calls := [(action, params)] |}))
   ∧ (HTTP.GetActions !! action = None →
      run HTTP.main e =
        (0, {| stdout := [error_doc ("unknown action: " +:+ action)];
               stdin_read := true; calls := [(action, params)] |}))
   ∧ (Template.GetActions !! action = None →
      run Template.main e =
        (0, {| stdout := [error_doc ("unknown action: " +:+ action)];
               stdin_read := true; calls := [(action, params)] |})))
  ∧ (Slack.GetActions !! action = None →
     ∃ decoded,
       run Slack.main e =
         (0, {| stdout := [error_doc ("Unknown action: " +:+ action)];
                stdin_read := true; calls := [(action, decoded)] |})).
Proof.
  intros Hmode. split.
  - intros Hdec. repeat split; intros Hnone.
    + unfold Calculator.main. rewrite (std_main_decodes _ _ _ _ _ _ Hmode Hdec).
      by rewrite Calculator_unregistered.
    + unfold HTTP.main. rewrite (std_main_decodes _ _ _ _ _ _ Hmode Hdec).
      by rewrite HTTP_unregistered.
    + rewrite (Template_main_decodes _ _ _ Hmode Hdec).
      by rewrite Template_unregistered.
  - intros Hnone. eexists. rewrite (Slack_main_execute _ _ Hmode).
    by rewrite Slack_unregistered.
Qed.

(** C2: a request to the http plugin's [get] action that carries no
    [url] (the object [{}] is one) is answered with the failure envelope
    [{"error": "url is required"}] and a nil Go error, before any request
    is built or sent; [main] writes that one document and exits with
    code 0.  The action table declares [url] as a required string and
    [timeout] as a number with default 30. *)
Theorem http_get_missing_url (e : Env) (params : gmap string value) :
  execute_mode e "get" →
  decodes e params →
  params !! "url" = None →
  (∃ get url timeout,
      HTTP.GetActions !! "get" = Some get
      ∧ Inputs get !! "url" = Some url
      ∧ Type_ url = "string" ∧ Required url = true
      ∧ Inputs get !! "timeout" = Some timeout
      ∧ Type_ timeout = "number" ∧ Required timeout = false
      ∧ Default timeout = Some (VInt 30))
  ∧ HTTP.Execute e "get" params = ({[ "error" := VString "url is required" ]}, None)
  ∧ run HTTP.main e =
      (0, {| stdout := [error_doc "url is required"]; stdin_read := true;
             calls := [("get", params)] |}).
Proof.
  intros Hmode Hdec Hurl.
  assert (HX : HTTP.Execute e "get" params
               = ({[ "error" := VString "url is required" ]}, None)).
  { unfold HTTP.Execute, HTTP.makeGetRequest. simpl. by rewrite Hurl. }
  split; [| split; [exact HX |]].
  - by eexists _, _, _.
  - unfold HTTP.main. rewrite (std_main_decodes _ _ _ _ _ _ Hmode Hdec).
    by rewrite HX.
Qed.

(** C3, as amended: the template's [example_action] declares
    [input_param] as a required string and [optional_param] as a number.
    When [input_param] is present with a value that is not a string, the
    handler answers [{"error": "input_param must be a string"}] with a nil
    Go error: the text names the parameter and the expected type, not the
    type that was observed.  When [optional_param] is present with a
    value that is not a number, nothing fails: the handler works with the
    default 10, as [getFloatParam] returns its default on any value that
    is not a number. *)
Theorem template_type_checking (params : gmap string value) :
  (∃ act input optional,
      Template.GetActions !! "example_action" = Some act
      ∧ Inputs act !! "input_param" = Some input
      ∧ Type_ input = "string" ∧ Required input = true
      ∧ Inputs act !! "optional_param" = Some optional
      ∧ Type_ optional = "number" ∧ Required optional = false)
  ∧ (∀ v, params !! "input_param" = Some v →
          as_string (Some v) = None →
          Template.exampleAction params
          = ({[ "error" := VString "input_param must be a string" ]}, None))
  ∧ (∀ s v, params !! "input_param" = Some (VString s) →
            params !! "optional_param" = Some v →
            as_float64 (Some v) = None →
            Template.exampleAction params
            = ({[ "result" := VString ("Processed " +:+ s +:+ " with value "
                                       +:+ fmt_2f 10);
                  "success" := VBool true ]}, None))
  ∧ (∀ key v defaultValue,
       params !! key = Some v →
       as_float64 (Some v) = None →
       Template.getFloatParam params key defaultValue = defaultValue).
Proof.
  split; [by eexists _, _, _ |]. split; [| split].
  - intros v Hv Hbad. unfold Template.exampleAction. by rewrite Hv, Hbad.
  - intros s v Hs Hv Hbad.
    unfold Template.exampleAction, Template.exampleAction_optionalParam.
    rewrite Hs, Hv. by destruct v.
  - intros key v d Hv Hbad. unfold Template.getFloatParam. by rewrite Hv, Hbad.
Qed.








(** C5, as amended: in execute mode, when standard input holds bytes
    that [json.Unmarshal] rejects with error text [err], a plugin with
    the standard [main] writes the one document
    [{"error": "failed to parse JSON: <err>"}] (the template:
    ["failed to parse JSON input: <err>"]) and exits with code 0, and its
    handler is not invoked: the run has made no call of [Execute], and
    the handler [X] of the standard [main] is any handler, one that
    panics included.  The slack plugin decodes with a [json.Decoder];
    when that fails it calls [Execute] with the empty parameter map. *)
Theorem invalid_input_envelope M A X (e : Env) (action data : string) :
  execute_mode e action →
  Stdin e = Ok data →
  data ≠ "" →
  (∀ err, json_Unmarshal data = Err err →
          run (std_main M A X) e =
            (0, {| stdout := [error_doc ("failed to parse JSON: " +:+ err)];
                   stdin_read := true; calls := [] |})
          ∧ run Template.main e =
              (0, {| stdout := [error_doc ("failed to parse JSON input: " +:+ err)];
                     stdin_read := true; calls := [] |}))
  ∧ (∀ err, json_Decode data = Err err →
            run Slack.main e =
              (0, {| stdout := written (VMap (Slack.Execute e action ∅));
                     stdin_read := true; calls := [(action, ∅)] |})).
Proof.
  intros Hmode HStdin Hne. split; intros err Herr.
  - rewrite (Template_main_execute _ _ Hmode).
    rewrite HStdin, (length_pos _ Hne), Herr. split; [|done].
    destruct Hmode as [(prog & rest & HArgs) [Hm Ha]].
    unfold run, std_main. rewrite HArgs.
    rewrite (eqb_false _ _ Hm), (eqb_false _ _ Ha).
    unfold mbind, Proc_bind, ReadAll_Stdin, mret, Proc_ret; simpl.
    by rewrite HStdin, (length_pos _ Hne), Herr.
  - rewrite (Slack_main_execute _ _ Hmode). by rewrite HStdin, Herr.
Qed.

(** C6: in execute mode with empty standard input, the standard [main]
    and the template's [main] call [Execute] with the empty parameter
    map and write what it returns, with exit code 0: no error about the
    input is produced.  For the registered actions [calculate] and
    [example_action] the document is the handler's own answer to the
    empty map. *)
Theorem empty_stdin_is_empty_object M A X (e : Env) (action : string) :
  execute_mode e action →
  Stdin e = Ok "" →
  run (std_main M A (total X)) e =
    (0, {| stdout := written (envelope (X e action ∅)); stdin_read := true;
           calls := [(action, ∅)] |})
  ∧ run Template.main e =
      (0, {| stdout := written (envelope (Template.Execute action ∅));
             stdin_read := true; calls := [(action, ∅)] |})
  ∧ (action = "calculate" →
     run Calculator.main e =
       (0, {| stdout := [VMap (Calculator.calculate ∅).1]; stdin_read := true;
              calls := [("calculate", ∅)] |})
     ∧ (Calculator.calculate ∅).2 = None)
  ∧ (action = "example_action" →
     run Template.main e =
       (0, {| stdout := [VMap (Template.exampleAction ∅).1]; stdin_read := true;
              calls := [("example_action", ∅)] |})
     ∧ (Template.exampleAction ∅).2 = None).
Proof.
  intros Hmode HStdin.
  assert (Hdec : decodes e ∅) by (by left).
  split; [by apply std_main_decodes |].
  split; [by apply Template_main_decodes |].
  split; intros ->.
  - unfold Calculator.main. by rewrite (std_main_decodes _ _ _ _ _ _ Hmode Hdec).
  - by rewrite (Template_main_decodes _ _ _ Hmode Hdec).
Qed.

(** Every [main] with a mode argument returns: exit code 0, at most one
    document. *)
Lemma std_main_discovery M A X (e : Env) (mode : string) :
  discovery_mode e mode →
  run (std_main M A X) e =
    (0, {| stdout :=
             written (if String.eqb mode "metadata" then Metadata_json M
                      else Actions_json A);
           stdin_read := false; calls := [] |}).
Proof.
  intros [(prog & rest & HArgs) [-> | ->]];
    unfold run, std_main; by rewrite HArgs.
Qed.

Lemma Template_main_discovery (e : Env) (mode : string) :
  discovery_mode e mode →
  run Template.main e =
    (0, {| stdout :=
             written (if String.eqb mode "metadata"
                      then Metadata_json Template.GetMetadata
                      else Actions_json Template.GetActions);
           stdin_read := false; calls := [] |}).
Proof.
  intros [(prog & rest & HArgs) [-> | ->]];
    unfold run, Template.main; by rewrite HArgs.
Qed.

Lemma Slack_main_discovery (e : Env) (mode : string) :
  discovery_mode e mode →
  run Slack.main e =
    (0, {| stdout :=
             written (if String.eqb mode "metadata"
                      then Metadata_json Slack.GetMetadata
                      else VMap (Slack.ActionSpec_json <$> Slack.GetActions));
           stdin_read := false; calls := [] |}).
Proof.
  intros [(prog & rest & HArgs) [-> | ->]];
    unfold run, Slack.main; by rewrite HArgs.
Qed.

Lemma mode_cases (e : Env) :
  (2 ≤ length (Args e))%nat →
  ∃ mode, discovery_mode e mode ∨ execute_mode e mode.
Proof.
  destruct (Args e) as [| prog [| mode rest]] eqn:HArgs; simpl; [lia | lia |].
  intros _. exists mode.
  destruct (decide (mode = "metadata")) as [-> | Hm];
    [left; split; [by eexists _, _ | by left] |].
  destruct (decide (mode = "actions")) as [-> | Ha];
    [left; split; [by eexists _, _ | by right] |].
  right. split; [by eexists _, _ | done].
Qed.

Lemma LLM_main_runs g c o (e : Env) :
  (2 ≤ length (Args e))%nat →
  ∃ doc made, run (LLM.main g c o) e =
              (0, {| stdout := written doc; stdin_read := true; calls := made |}).
Proof.
  destruct (Args e) as [| prog [| mode rest]] eqn:HArgs; simpl; [lia | lia |].
  intros _. unfold run, LLM.main. rewrite HArgs.
  unfold mbind, Proc_bind, ReadAll_Stdin, Call, mret, Proc_ret; simpl.
  match goal with
  | |- context [match ?p with Ok _ => _ | Err _ => _ end] => destruct p
  end; [| by eexists _, _].
  destruct (String.eqb mode "metadata"); [by eexists _, _ |].
  destruct (String.eqb mode "actions"); by eexists _, _.
Qed.

Lemma no_mode_argument (main : Env → Proc unit) (e : Env) :
  (∀ e', match Args e' with
         | [] | [_] => main e' = (Encode (error_doc "action required") ;; os_Exit 1)
         | _ => True
         end) →
  (length (Args e) < 2)%nat → run main e = usage_error.
Proof.
  intros Hmain Hlen. specialize (Hmain e). unfold run.
  destruct (Args e) as [| prog [| mode rest]]; simpl in Hlen; try lia;
    by rewrite Hmain.
Qed.

Lemma std_main_runs M A X (e : Env) :
  (2 ≤ length (Args e))%nat → (run (std_main M A (total X)) e).1 = 0.
Proof.
  intros Hlen. destruct (mode_cases e Hlen) as [mode [Hd | Hx]].
  - by rewrite (std_main_discovery _ _ _ _ _ Hd).
  - by rewrite (std_main_execute _ _ _ _ _ Hx).
Qed.

Lemma Template_main_runs (e : Env) :
  (2 ≤ length (Args e))%nat → (run Template.main e).1 = 0.
Proof.
  intros Hlen. destruct (mode_cases e Hlen) as [mode [Hd | Hx]].
  - by rewrite (Template_main_discovery _ _ Hd).
  - by rewrite (Template_main_execute _ _ Hx).
Qed.

Lemma Slack_main_runs (e : Env) :
  (2 ≤ length (Args e))%nat → (run Slack.main e).1 = 0.
Proof.
  intros Hlen. destruct (mode_cases e Hlen) as [mode [Hd | Hx]].
  - by rewrite (Slack_main_discovery _ _ Hd).
  - by rewrite (Slack_main_execute _ _ Hx).
Qed.

Lemma exit_contract_intro (main : Env → Proc unit) (e : Env) :
  ((length (Args e) < 2)%nat → run main e = usage_error) →
  ((2 ≤ length (Args e))%nat → (run main e).1 = 0) →
  exit_contract main e.
Proof.
  intros Hshort Hlong. split; [done |]. split; [done |]. split.
  - intros Hne. destruct (decide (length (Args e) < 2)%nat); [done |].
    destruct Hne. apply Hlong. lia.
  - intros Hlen. by rewrite (Hshort Hlen).
Qed.

(** A standard [main] in execute mode over any handler: the call is made
    when standard input is empty or decoded, and a panic of the handler
    ends the process with status 2 before anything is written. *)
Lemma std_main_any M A H' (e : Env) (action : string) :
  execute_mode e action →
  run (std_main M A H') e =
    match Stdin e with
    | Err err =>
        (0, {| stdout := [error_doc ("failed to read input: " +:+ err)];
               stdin_read := true; calls := [] |})
    | Ok data =>
        match (if (0 <? String.length data)%nat then json_Unmarshal data
               else Ok ∅) with
        | Err err =>
            (0, {| stdout := [error_doc ("failed to parse JSON: " +:+ err)];
                   stdin_read := true; calls := [] |})
        | Ok params =>
            match H' e action params with
            | Returns r =>
                (0, {| stdout := written (envelope r); stdin_read := true;
                       calls := [(action, params)] |})
            | Panics _ =>
                (2, {| stdout := []; stdin_read := true;
                       calls := [(action, params)] |})
            end
        end
    end.
Proof.
  intros [(prog & rest & HArgs) [Hm Ha]].
  unfold run, std_main. rewrite HArgs.
  rewrite (eqb_false _ _ Hm), (eqb_false _ _ Ha).
  unfold mbind, Proc_bind, ReadAll_Stdin, Call, answer, panic, os_Exit,
    mret, Proc_ret; simpl.
  destruct (Stdin e) as [data | err]; simpl; [| reflexivity].
  destruct (0 <? String.length data)%nat.
  - destruct (json_Unmarshal data) as [params | err]; simpl; [| reflexivity].
    destruct (H' e action params) as [[result [err |]] | msg]; reflexivity.
  - destruct (H' e action ∅) as [[result [err |]] | msg]; reflexivity.
Qed.

(** X29: every [main] of the stdio protocol whose handler
    returns (the standard one, which the calculator and the http plugin
    share, the template's, the slack plugin's and the llm plugin's)
    exits with code 0 whenever it was given a mode argument, whatever the
    handler answered; it exits with a code other than 0 exactly when the
    mode argument is missing, and then it has written the one document
    [{"error": "action required"}] and exits with code 1.  A standard
    [main] over a handler that may panic exits with a code other than 0
    in one more case: when the handler, called on the decoded
    parameters, panics; the process then ends with status 2 and has
    written nothing. *)
Theorem exit_codes M A X H' g c o (e : Env) :
  Forall (λ main, exit_contract main e)
    [Calculator.main; HTTP.main; std_main M A (total X); Template.main;
     Slack.main; LLM.main g c o]
  ∧ ((length (Args e) < 2)%nat → run (std_main M A H') e = usage_error)
  ∧ (∀ action params msg,
       execute_mode e action → decodes e params →
       H' e action params = Panics msg →
       run (std_main M A H') e =
         (2, {| stdout := []; stdin_read := true;
                calls := [(action, params)] |}))
  ∧ ((run (std_main M A H') e).1 ≠ 0
     ↔ (length (Args e) < 2)%nat
       ∨ ∃ action params msg,
           execute_mode e action ∧ decodes e params
           ∧ H' e action params = Panics msg).
Proof.
  assert (Hshort : ∀ H'', (length (Args e) < 2)%nat →
                          run (std_main M A H'') e = usage_error).
  { intros H''. apply no_mode_argument. intros e'. unfold std_main.
    by destruct (Args e') as [| ? [| ? ?]]. }
  split; [| split; [apply Hshort | split]].
  - repeat apply Forall_cons_2; [.. | apply Forall_nil_2];
      apply exit_contract_intro;
      try (apply no_mode_argument; intros e';
           unfold Calculator.main, HTTP.main, std_main, Template.main, Slack.main,
             LLM.main;
           by destruct (Args e') as [| ? [| ? ?]]).
    + apply std_main_runs.
    + apply std_main_runs.
    + apply std_main_runs.
    + apply Template_main_runs.
    + apply Slack_main_runs.
    + intros Hlen. by destruct (LLM_main_runs g c o e Hlen) as (doc & made & ->).
  - intros action params msg. apply std_main_panics.
  - split.
    + intros Hne. destruct (decide (length (Args e) < 2)%nat) as [| Hlen];
        [by left | right].
      destruct (mode_cases e) as [mode [Hd | Hx]]; [lia | |].
      { by rewrite (std_main_discovery _ _ _ _ _ Hd) in Hne. }
      rewrite (std_main_any _ _ _ _ _ Hx) in Hne.
      destruct (Stdin e) as [data | err] eqn:HStdin; [| done].
      destruct (0 <? String.length data)%nat eqn:Hlen'.
      * destruct (json_Unmarshal data) as [params | err] eqn:HU; [| done].
        destruct (H' e mode params) as [r | msg] eqn:HH; [done |].
        exists mode, params, msg. split; [done |]. split; [| done].
        right. exists data. split; [done |]. split; [| done].
        intros ->. done.
      * destruct (H' e mode ∅) as [r | msg] eqn:HH; [done |].
        exists mode, ∅, msg. split; [done |]. split; [| done].
        left. split; [| done]. by destruct data.
    + intros [Hlen | (action & params & msg & Hx & Hdec & HH)].
      * by rewrite (Hshort H' Hlen).
      * by rewrite (std_main_panics _ _ _ _ _ _ _ Hx Hdec HH).
Qed.

(** C9, as amended: two runs in the same discovery mode ([metadata] or
    [actions]), whatever their standard inputs, environments and
    networks, of a plugin with the standard [main] (the calculator and
    the http plugin among them), of the template or of the slack plugin
    never read standard input, exit with code 0 and write the same
    output; for the calculator it is the one document of its static
    metadata or action table.  The llm plugin reads standard input in
    every mode. *)
Theorem idempotent_discovery M A X g c o (e1 e2 : Env) (mode : string) :
  discovery_mode e1 mode →
  discovery_mode e2 mode →
  Forall (λ main, discovery_contract main e1 e2)
    [Calculator.main; HTTP.main; std_main M A X; Template.main; Slack.main]
  ∧ run Calculator.main e1 =
      (0, {| stdout := [if String.eqb mode "metadata"
                        then Metadata_json Calculator.GetMetadata
                        else Actions_json Calculator.GetActions];
             stdin_read := false; calls := [] |})
  ∧ stdin_read (run (LLM.main g c o) e1).2 = true.
Proof.
  intros Hd1 Hd2. split; [| split].
  - repeat apply Forall_cons_2; [.. | apply Forall_nil_2];
      unfold discovery_contract, Calculator.main, HTTP.main;
      rewrite ?(std_main_discovery _ _ _ _ _ Hd1), ?(std_main_discovery _ _ _ _ _ Hd2),
        ?(Template_main_discovery _ _ Hd1), ?(Template_main_discovery _ _ Hd2),
        ?(Slack_main_discovery _ _ Hd1), ?(Slack_main_discovery _ _ Hd2);
      done.
  - unfold Calculator.main. rewrite (std_main_discovery _ _ _ _ _ Hd1).
    by destruct Hd1 as [_ [-> | ->]].
  - destruct Hd1 as [(prog & rest & HArgs) _].
    destruct (LLM_main_runs g c o e1) as (doc & made & ->); [| done].
    rewrite HArgs. simpl. lia.
Qed.

(** In any mode, bytes that [json.Unmarshal] rejects make the llm
    plugin answer with an error document. *)
Lemma LLM_main_invalid_json g c o (e : Env) (prog mode : string) rest data err :
  Args e = prog :: mode :: rest →
  Stdin e = Ok data →
  (0 <? String.length data)%nat = true →
  (0 <? String.length (bytes_TrimSpace data))%nat = true →
  json_Unmarshal (bytes_TrimSpace data) = Err err →
  run (LLM.main g c o) e =
    (0, {| stdout := [error_doc ("Invalid JSON input: " +:+ err)];
           stdin_read := true; calls := [] |}).
Proof.
  intros HArgs HStdin Hlen Htrim Herr. unfold run, LLM.main. rewrite HArgs.
  unfold mbind, Proc_bind, ReadAll_Stdin; simpl.
  by rewrite HStdin, Hlen, Htrim, Herr.
Qed.

(** A division or modulo by zero that the evaluation reaches is what the
    evaluation returns. *)
Lemma zero_division_evalNode (node : Node) (msg : string) :
  zero_division node msg →
  Calculator.evalNode node = Err msg
  ∧ (msg = "division by zero" ∨ msg = "modulo by zero").
Proof.
  induction 1 as [X Y l r HX HY Hz | X Y l r HX HY Hz
                  | X Op Y msg _ [IH Hmsg] | X Op Y l msg HX _ [IH Hmsg]
                  | Op X msg _ [IH Hmsg] | X msg _ [IH Hmsg]];
    simpl; unfold Calculator.evalBinaryExpr, Calculator.evalUnaryExpr.
  - rewrite HX, HY, Hz. auto.
  - rewrite HX, HY, Hz. auto.
  - rewrite IH. auto.
  - rewrite HX, IH. auto.
  - rewrite IH. auto.
  - auto.
Qed.

(** C10: when the expression of a [calculate] request parses and its
    evaluation reaches a division or a modulo whose right operand is
    zero, the handler returns, with a nil Go error, the failure envelope
    whose [error] is "Invalid expression: division by zero" (or
    "... modulo by zero") and whose [expression] is the original
    expression. *)
Theorem division_by_zero_guarded (params : gmap string value)
    (expression : string) (node : Node) (msg : string) :
  params !! "expression" = Some (VString expression) →
  expression ≠ "" →
  parser_ParseExpr expression = Ok node →
  zero_division node msg →
  (msg = "division by zero" ∨ msg = "modulo by zero")
  ∧ Calculator.evalNode node = Err msg
  ∧ Calculator.calculate params =
      ({[ "error" := VString ("Invalid expression: " +:+ msg);
          "expression" := VString expression ]}, None).
Proof.
  intros Hexpr Hne Hparse Hzero.
  destruct (zero_division_evalNode node msg Hzero) as [Heval Hmsg].
  split; [done |]. split; [done |].
  unfold Calculator.calculate, Calculator.evaluateExpression.
  rewrite Hexpr. simpl. rewrite (eqb_false _ _ Hne), Hparse. by rewrite Heval.
Qed.


(** Scenario A over any library: what [calculate] needs of [go/parser],
    [strconv] and [math] to answer 8. *)
Lemma calculate_scenario_A (params : gmap string value) :
  params !! "expression" = Some (VString "2 + 2 * 3") →
  params !! "precision" = None →
  parser_ParseExpr "2 + 2 * 3"
  = Ok (BinaryExpr (BasicLit INT "2") ADD
          (BinaryExpr (BasicLit INT "2") MUL (BasicLit INT "3"))) →
  strconv_ParseInt "2" = Ok 2 →
  strconv_ParseInt "3" = Ok 3 →
  float64_of_int 2 = 2%float →
  float64_of_int 3 = 3%float →
  math_Pow 10 2 = 100%float →
  math_Round 800 = 800%float →
  Calculator.calculate params
  = ({[ "result" := VFloat 8; "expression" := VString "2 + 2 * 3" ]}, None).
Proof.
  intros Hexpr Hprec Hparse H2 H3 Hf2 Hf3 Hpow Hround.
  unfold Calculator.calculate, Calculator.calculate_precision,
    Calculator.evaluateExpression.
  rewrite Hexpr, Hprec. simpl. rewrite Hparse. simpl.
  assert (He2 : Calculator.evalNode (BasicLit INT "2") = Ok 2%float)
    by (simpl; unfold Calculator.evalBasicLit; by rewrite H2, Hf2).
  assert (He3 : Calculator.evalNode (BasicLit INT "3") = Ok 3%float)
    by (simpl; unfold Calculator.evalBasicLit; by rewrite H3, Hf3).
  assert (Hmul : Calculator.evalNode
                   (BinaryExpr (BasicLit INT "2") MUL (BasicLit INT "3"))
                 = Ok 6%float).
  { change (Calculator.evalBinaryExpr Calculator.evalNode
              (BasicLit INT "2") MUL (BasicLit INT "3") = Ok 6%float).
    unfold Calculator.evalBinaryExpr. by rewrite He2, He3. }
  unfold Calculator.evalBinaryExpr. rewrite He2, Hmul, Hf2, Hpow.
  replace (2 + 6)%float with 8%float by reflexivity.
  replace (8 * 100)%float with 800%float by reflexivity.
  rewrite Hround. reflexivity.
Qed.

End Runtime.

(** * The reference library at work *)

Module RefLibExamples.
Import RefLib.
Local Open Scope float_scope.

Example float_of_Z_exact :
  float_of_Z 8 = 8 ∧ float_of_Z (-3) = -3
  ∧ float_of_Z 9007199254740993 = 9007199254740992.
Proof. vm_compute. repeat split; reflexivity. Qed.

Example Round_halves_away_from_zero :
  Round 800 = 800 ∧ Round 2.5 = 3 ∧ Round (-2.5) = -3 ∧ Round 0.25 = 0
  ∧ Round 1.5 = 2 ∧ Round 0x1.fffffffffffffp-2 = 0 ∧ Round infinity = infinity.
Proof. vm_compute. repeat split; reflexivity. Qed.

Example Pow_of_ten :
  Pow 10 1 = 10 ∧ Pow 10 2 = 100 ∧ Pow 10 3 = 1000 ∧ Pow 10 0 = 1
  ∧ Pow 2 (-1) = 0.5 ∧ Pow 10 22 = float_of_Z (10 ^ 22).
Proof. vm_compute. repeat split; reflexivity. Qed.

Example Mod_has_the_sign_of_x :
  Mod 7 3 = 1 ∧ Mod (-7) 3 = -1 ∧ Mod 5.5 2 = 1.5 ∧ Mod 7 (-3) = 1
  ∧ is_nan (Mod 1 0) = true ∧ Mod 3 infinity = 3.
Proof. vm_compute. repeat split; reflexivity. Qed.

Example ParseInt_decimal :
  ParseInt "42" = Ok 42%Z ∧ ParseInt "010" = Ok 10%Z
  ∧ ParseInt "9223372036854775807" = Ok (2 ^ 63 - 1)%Z
  ∧ ParseInt "9223372036854775808"
    = Err (NumError "ParseInt" "9223372036854775808" "value out of range")
  ∧ ParseInt "1_000" = Err (NumError "ParseInt" "1_000" "invalid syntax").
Proof. vm_compute. repeat split; reflexivity. Qed.

Example ParseFloat_rounds_to_nearest :
  ParseFloat "0.5" = Ok 0.5 ∧ ParseFloat "2.5e3" = Ok 2500
  ∧ ParseFloat "0.1" = Ok 0x1.999999999999ap-4
  ∧ ParseFloat "9007199254740993" = Ok 9007199254740992
  ∧ ParseFloat "1e-400" = Ok 0
  ∧ ParseFloat "1e999" = Err (NumError "ParseFloat" "1e999" "value out of range").
Proof. vm_compute. repeat split; reflexivity. Qed.

Example Sprintf_2f_rounds_half_to_even :
  Sprintf_2f 10 = "10.00" ∧ Sprintf_2f 0.125 = "0.12" ∧ Sprintf_2f 0.375 = "0.38"
  ∧ Sprintf_2f (-2.5) = "-2.50" ∧ Sprintf_2f 0x1.999999999999ap-4 = "0.10".
Proof. vm_compute. repeat split; reflexivity. Qed.

Example ParseExpr_precedence :
  ParseExpr "1 - 2 - 3"
  = Ok (BinaryExpr (BinaryExpr (BasicLit INT "1") SUB (BasicLit INT "2")) SUB
          (BasicLit INT "3"))
  ∧ ParseExpr "(1+2)*-3 // product"
    = Ok (BinaryExpr
            (ParenExpr (BinaryExpr (BasicLit INT "1") ADD (BasicLit INT "2")))
            MUL (UnaryExpr SUB (BasicLit INT "3")))
  ∧ ParseExpr "pi * 2.5e1 % 3"
    = Ok (BinaryExpr (BinaryExpr (Ident "pi") MUL (BasicLit FLOAT "2.5e1")) REM
            (BasicLit INT "3"))
  ∧ ParseExpr "1 +" = Err "expected operand, found 'EOF'"
  ∧ ParseExpr "1 2" = Err "expected 'EOF', found 2".
Proof. vm_compute. repeat split; reflexivity. Qed.

Example Unmarshal_cases :
  Unmarshal "{}" = Ok ∅ ∧ Unmarshal "null" = Ok ∅
  ∧ Unmarshal "" = Err "unexpected end of JSON input"
  ∧ Unmarshal "[1,2]"
    = Err "json: cannot unmarshal array into Go value of type map[string]interface {}"
  ∧ Unmarshal "{} x" = Err "invalid character 'x' after top-level value"
  ∧ Decode "" = Err "EOF" ∧ Decode "{} x" = Ok ∅.
Proof. vm_compute. repeat split; reflexivity. Qed.

(** The calculator, end to end, on [1 / (2 - 2)]. *)
Example calculator_division_by_zero :
  run Calculator.main (Scenario.env ["calculator"; "calculate"] Scenario.request_zero)
  = (0%Z, {| stdout := [VMap {[ "error" := VString "Invalid expression: division by zero";
                                "expression" := VString "1 / (2 - 2)" ]}];
             stdin_read := true;
             calls := [("calculate", {[ "expression" := VString "1 / (2 - 2)" ]})] |}).
Proof. vm_compute. reflexivity. Qed.

End RefLibExamples.

(** * The scenarios, run *)

Module Runs.
Import RefLib RefReport Scenario Exceptions.

Local Ltac in_execute_mode :=
  split; [by eexists _, _ | split; discriminate].

Local Ltac in_discovery_mode :=
  split; [by eexists _, _ | first [by left | by right]].

(** C1, counterexample: started as [slack badaction] with empty standard
    input, the slack plugin, which has no action [badaction], writes
    [{"error": "Unknown action: badaction"}], which is not the document
    [{"error": "unknown action: badaction"}]. *)
Lemma slack_unknown_action_capitalised :
  execute_mode (env ["slack"; "badaction"] "") "badaction"
  ∧ Slack.GetActions !! "badaction" = None
  ∧ run Slack.main (env ["slack"; "badaction"] "")
    = (0, {| stdout := [error_doc "Unknown action: badaction"];
             stdin_read := true; calls := [("badaction", ∅)] |})
  ∧ error_doc "Unknown action: badaction" ≠ error_doc "unknown action: badaction".
Proof.
  split; [in_execute_mode |]. split; [reflexivity |].
  split; [vm_compute; reflexivity |].
  intros Heq. by vm_compute in Heq.
Qed.

(** Scenario D: [calculator badaction] with empty standard input. *)
Lemma unknown_action_safety_witness :
  run Calculator.main (env ["calculator"; "badaction"] "")
  = (0, {| stdout := [error_doc "unknown action: badaction"];
           stdin_read := true; calls := [("badaction", ∅)] |}).
Proof.
  refine (proj1 (proj1 (unknown_action_safety
                          (env ["calculator"; "badaction"] "") "badaction" ∅ _)
                   _) _).
  - in_execute_mode.
  - by left.
  - reflexivity.
Defined.

(** Scenario B: [http get] with [{}] on standard input. *)
Lemma http_get_missing_url_witness :
  run HTTP.main (env ["http"; "get"] "{}")
  = (0, {| stdout := [error_doc "url is required"]; stdin_read := true;
           calls := [("get", ∅)] |}).
Proof.
  refine (proj2 (proj2 (http_get_missing_url (env ["http"; "get"] "{}") ∅ _ _ _))).
  - in_execute_mode.
  - right. exists "{}". split; [reflexivity |]. split; [discriminate |].
    vm_compute. reflexivity.
  - reflexivity.
Defined.

(** C3, counterexample: the request
    [{"input_param": "x", "optional_param": "abc"}] gives the declared
    number [optional_param] a string, and the template's handler
    succeeds. *)
Lemma template_optional_type_unchecked :
  json_Unmarshal request_lenient
  = Ok {[ "input_param" := VString "x"; "optional_param" := VString "abc" ]}
  ∧ run Template.main (env ["yourplugin"; "example_action"] request_lenient)
    = (0, {| stdout := [VMap {[ "result" := VString "Processed x with value 10.00";
                                "success" := VBool true ]}];
             stdin_read := true;
             calls := [("example_action",
                        {[ "input_param" := VString "x";
                           "optional_param" := VString "abc" ]})] |}).
Proof. split; vm_compute; reflexivity. Qed.

(** Scenario C on the template: [{"input_param": 42}]. *)
Lemma template_type_checking_witness :
  Template.exampleAction {[ "input_param" := VFloat 42 ]}
  = ({[ "error" := VString "input_param must be a string" ]}, None).
Proof.
  apply (proj1 (proj2 (template_type_checking {[ "input_param" := VFloat 42 ]}))
           (VFloat 42)); reflexivity.
Defined.



(** C5, counterexample: started as [slack message] with the bytes
    [not json] on standard input, which the decoder rejects, the slack
    plugin runs the handler on the empty parameter map: the document it
    writes is the handler's report of the request it tried to send. *)
Lemma slack_invalid_json_runs_handler :
  execute_mode (env_token ["slack"; "message"] garbage) "message"
  ∧ json_Decode garbage
    = Err "invalid character 'o' in literal null (expecting 'u')"
  ∧ run Slack.main (env_token ["slack"; "message"] garbage)
    = (0, {| stdout := [error_doc "Failed to send request: dial tcp: lookup failed: no such host"];
             stdin_read := true; calls := [("message", ∅)] |})
  ∧ Slack.sendMessage (env_token ["slack"; "message"] garbage) ∅
    = {[ "error" := VString "Failed to send request: dial tcp: lookup failed: no such host" ]}.
Proof.
  split; [in_execute_mode |]. repeat split; vm_compute; reflexivity.
Qed.

(** The calculator on the same bytes. *)
Lemma invalid_input_envelope_witness :
  run Calculator.main (env ["calculator"; "calculate"] garbage)
  = (0, {| stdout := [error_doc "failed to parse JSON: invalid character 'o' in literal null (expecting 'u')"];
           stdin_read := true; calls := [] |}).
Proof.
  refine (proj1 (proj1 (invalid_input_envelope Calculator.GetMetadata
                          Calculator.GetActions
                          (total (λ _, Calculator.Execute))
                          (env ["calculator"; "calculate"] garbage)
                          "calculate" garbage _ _ _) _ _)).
  - in_execute_mode.
  - reflexivity.
  - discriminate.
  - vm_compute. reflexivity.
Defined.

(** [calculator calculate] with empty standard input. *)
Lemma empty_stdin_is_empty_object_witness :
  run Calculator.main (env ["calculator"; "calculate"] "")
  = (0, {| stdout := [error_doc "expression parameter is required"];
           stdin_read := true; calls := [("calculate", ∅)] |}).
Proof.
  refine (proj1 (proj1 (proj2 (proj2 (empty_stdin_is_empty_object
            Calculator.GetMetadata Calculator.GetActions (λ _, Calculator.Execute)
            (env ["calculator"; "calculate"] "") "calculate" _ _))) _)).
  - in_execute_mode.
  - reflexivity.
  - reflexivity.
Defined.

(** [calculator] alone. *)
Lemma exit_codes_witness :
  run Calculator.main (env ["calculator"] "") = usage_error.
Proof.
  refine (proj1 (Forall_inv (proj1 (exit_codes Calculator.GetMetadata
                               Calculator.GetActions (λ _, Calculator.Execute)
                               (total (λ _, Calculator.Execute))
                               silent silent silent
                               (env ["calculator"] "")))) _).
  simpl. lia.
Defined.

(** C7, where the code fails it: started as [reporting create_chart]
    with [{"data": {"a": -1}}] on standard input, the reporting plugin, whose
    [main] is the standard one, computes a bar of length -60;
    [strings.Repeat] panics, nothing recovers, and the process ends with
    status 2 and nothing on standard output, although it was given its
    mode argument. *)
Theorem reporting_chart_panics :
  (2 ≤ length (Args (env ["reporting"; "create_chart"] request_negative)))%nat
  ∧ json_Unmarshal request_negative
    = Ok {[ "data" := VMap {[ "a" := VFloat (-1) ]} ]}
  ∧ Reporting.createChart {[ "data" := VMap {[ "a" := VFloat (-1) ]} ]}
    = Panics "strings: negative Repeat count"
  ∧ (∀ createReport createTable,
       run (Reporting.main createReport createTable)
         (env ["reporting"; "create_chart"] request_negative)
       = (2, {| stdout := []; stdin_read := true;
                calls := [("create_chart",
                           {[ "data" := VMap {[ "a" := VFloat (-1) ]} ]})] |}))
  ∧ (∀ createReport createTable,
       ¬ exit_contract (Reporting.main createReport createTable)
           (env ["reporting"; "create_chart"] request_negative)).
Proof.
  assert (Hrun : ∀ createReport createTable,
            run (Reporting.main createReport createTable)
              (env ["reporting"; "create_chart"] request_negative)
            = (2, {| stdout := []; stdin_read := true;
                     calls := [("create_chart",
                                {[ "data" := VMap {[ "a" := VFloat (-1) ]} ]})] |})).
  { intros createReport createTable.
    apply (std_main_panics _ _ _ _ _ _ "strings: negative Repeat count").
    - in_execute_mode.
    - right. exists request_negative. split; [reflexivity |].
      split; [discriminate |]. vm_compute. reflexivity.
    - vm_compute. reflexivity. }
  split; [simpl; lia |]. split; [vm_compute; reflexivity |].
  split; [vm_compute; reflexivity |]. split; [exact Hrun |].
  intros createReport createTable (_ & Hzero & _).
  rewrite Hrun in Hzero. specialize (Hzero ltac:(simpl; lia)). done.
Qed.

(** C8: Scenario A.  The expression parses with the product below the
    sum, the handler answers [{"result": 8, "expression": "2 + 2 * 3"}]
    with a nil Go error, and [calculator calculate] with the request on
    standard input writes that one document and exits with code 0. *)
Theorem scenario_A :
  parser_ParseExpr "2 + 2 * 3"
  = Ok (BinaryExpr (BasicLit INT "2") ADD
          (BinaryExpr (BasicLit INT "2") MUL (BasicLit INT "3")))
  ∧ json_Unmarshal request_A = Ok {[ "expression" := VString "2 + 2 * 3" ]}
  ∧ Calculator.calculate {[ "expression" := VString "2 + 2 * 3" ]}
    = ({[ "result" := VFloat 8; "expression" := VString "2 + 2 * 3" ]}, None)
  ∧ run Calculator.main (env ["calculator"; "calculate"] request_A)
    = (0, {| stdout := [VMap {[ "result" := VFloat 8;
                                "expression" := VString "2 + 2 * 3" ]}];
             stdin_read := true;
             calls := [("calculate", {[ "expression" := VString "2 + 2 * 3" ]})] |}).
Proof.
  split; [vm_compute; reflexivity |]. split; [vm_compute; reflexivity |].
  split.
  - apply calculate_scenario_A; vm_compute; reflexivity.
  - vm_compute. reflexivity.
Qed.

(** C9, counterexample: started as [llm metadata], the llm plugin reads
    standard input; on the bytes [not json] it writes an error document,
    on empty standard input its metadata. *)
Lemma llm_metadata_depends_on_stdin :
  discovery_mode (env ["llm"; "metadata"] garbage) "metadata"
  ∧ (∀ g c o,
       run (LLM.main g c o) (env ["llm"; "metadata"] garbage)
       = (0, {| stdout := [error_doc "Invalid JSON input: invalid character 'o' in literal null (expecting 'u')"];
                stdin_read := true; calls := [] |}))
  ∧ (∀ g c o,
       run (LLM.main g c o) (env ["llm"; "metadata"] "")
       = (0, {| stdout := [Metadata_json LLM.GetMetadata]; stdin_read := true;
                calls := [] |})).
Proof.
  split; [in_discovery_mode |]. split; intros g c o.
  - by apply (LLM_main_invalid_json g c o _ "llm" "metadata" [] garbage).
  - reflexivity.
Qed.

(** Scenario E: [calculator metadata] with empty standard input and
    with the bytes [not json]. *)
Lemma idempotent_discovery_witness :
  discovery_contract Calculator.main
    (env ["calculator"; "metadata"] "") (env ["calculator"; "metadata"] garbage)
  ∧ run Calculator.main (env ["calculator"; "metadata"] garbage)
    = (0, {| stdout := [Metadata_json Calculator.GetMetadata];
             stdin_read := false; calls := [] |}).
Proof.
  split.
  - refine (Forall_inv (proj1 (idempotent_discovery Calculator.GetMetadata
              Calculator.GetActions (total (λ _, Calculator.Execute))
              silent silent silent
              _ _ "metadata" _ _))); in_discovery_mode.
  - refine (proj1 (proj2 (idempotent_discovery Calculator.GetMetadata
              Calculator.GetActions (total (λ _, Calculator.Execute))
              silent silent silent
              _ (env ["calculator"; "metadata"] "") "metadata" _ _)));
      in_discovery_mode.
Defined.

(** [1 / (2 - 2)]. *)
Lemma division_by_zero_guarded_witness :
  Calculator.calculate {[ "expression" := VString "1 / (2 - 2)" ]}
  = ({[ "error" := VString "Invalid expression: division by zero";
        "expression" := VString "1 / (2 - 2)" ]}, None).
Proof.
  refine (proj2 (proj2 (division_by_zero_guarded
            {[ "expression" := VString "1 / (2 - 2)" ]} "1 / (2 - 2)"
            (BinaryExpr (BasicLit INT "1") QUO
               (ParenExpr (BinaryExpr (BasicLit INT "2") SUB (BasicLit INT "2"))))
            "division by zero" _ _ _ _))).
  - reflexivity.
  - discriminate.
  - vm_compute. reflexivity.
  - apply (zd_quo _ _ 1%float 0%float); vm_compute; reflexivity.
Defined.

End Runs.

(** * Further properties *)

Section Further.
Context `{GoLib}.

(** ** The runtime *)

Lemma written_length (v : value) : (length (written v) ≤ 1)%nat.
Proof. unfold written. destruct (encodable v); simpl; lia. Qed.

(** A map encodes exactly when all its values do. *)
Lemma encodable_map (m : gmap string value) :
  encodable (VMap m) = true ↔ ∀ k v, m !! k = Some v → encodable v = true.
Proof.
  change (encodable (VMap m))
    with (map_fold (λ (_ : string) x acc, encodable x && acc) true m).
  apply (map_fold_weak_ind
           (λ (r : bool) (m : gmap string value),
              r = true ↔ ∀ k v, m !! k = Some v → encodable v = true)).
  - split; [intros _ k v Hk; by rewrite lookup_empty in Hk | done].
  - intros i x m' r Hi IH. rewrite andb_true_iff, IH. split.
    + intros [Hx Hall] k v Hk.
      apply lookup_insert_Some in Hk as [[<- <-] | [_ Hk]]; eauto.
    + intros Hall. split.
      * apply (Hall i). by rewrite lookup_insert_eq.
      * intros k v Hk. apply (Hall k). rewrite lookup_insert_ne; [done |].
        intros <-. by rewrite Hi in Hk.
Qed.

(** X1: whatever the arguments, standard input, environment and handler
    answers (a panic of the standard [main]'s handler included), every
    [main] writes at most one document to standard output. *)
Theorem single_envelope M A X g c o (e : Env) :
  Forall (λ main, (length (stdout (run main e).2) ≤ 1)%nat)
    (stdio_mains M A X g c o).
Proof.
  assert (Hstd : ∀ M A X, (length (stdout (run (std_main M A X) e).2) ≤ 1)%nat).
  { intros M' A' X'. destruct (decide (length (Args e) < 2)%nat) as [Hlt | Hge].
    - rewrite (no_mode_argument (std_main M' A' X') e); [simpl; lia | | done].
      intros e'. unfold std_main. by destruct (Args e') as [| ? [| ? ?]].
    - destruct (mode_cases e) as [mode [Hd | Hx]]; [lia | |].
      + rewrite (std_main_discovery _ _ _ _ _ Hd). apply written_length.
      + rewrite (std_main_any _ _ _ _ _ Hx).
        destruct (Stdin e) as [data | err]; [| simpl; lia].
        destruct (if (0 <? String.length data)%nat then _ else _)
          as [params | err]; [| simpl; lia].
        destruct (X' e mode params); [apply written_length | simpl; lia]. }
  unfold stdio_mains. repeat apply Forall_cons_2; [.. | apply Forall_nil_2];
    try apply Hstd.
  - destruct (decide (length (Args e) < 2)%nat) as [Hlt | Hge].
    + rewrite (no_mode_argument Template.main e); [simpl; lia | | done].
      intros e'. unfold Template.main. by destruct (Args e') as [| ? [| ? ?]].
    + destruct (mode_cases e) as [mode [Hd | Hx]]; [lia | |].
      * rewrite (Template_main_discovery _ _ Hd). apply written_length.
      * rewrite (Template_main_execute _ _ Hx). apply written_length.
  - destruct (decide (length (Args e) < 2)%nat) as [Hlt | Hge].
    + rewrite (no_mode_argument Slack.main e); [simpl; lia | | done].
      intros e'. unfold Slack.main. by destruct (Args e') as [| ? [| ? ?]].
    + destruct (mode_cases e) as [mode [Hd | Hx]]; [lia | |].
      * rewrite (Slack_main_discovery _ _ Hd). apply written_length.
      * rewrite (Slack_main_execute _ _ Hx). apply written_length.
  - destruct (decide (length (Args e) < 2)%nat) as [Hlt | Hge].
    + rewrite (no_mode_argument (LLM.main g c o) e); [simpl; lia | | done].
      intros e'. unfold LLM.main. by destruct (Args e') as [| ? [| ? ?]].
    + destruct (LLM_main_runs g c o e) as (doc & made & ->); [lia |].
      apply written_length.
Qed.

(** X2: in execute mode, a handler answer that holds a NaN or an infinity
    anywhere at its top level cannot be marshalled: a standard [main]
    then writes nothing at all and still exits with code 0.  For the
    calculator this happens whenever the rounded result is not finite. *)
Theorem unencodable_result_writes_nothing M A X (e : Env) (action : string)
    (params result : gmap string value) (k : string) (f : float) :
  execute_mode e action →
  decodes e params →
  X e action params = (result, None) →
  result !! k = Some (VFloat f) →
  is_finite f = false →
  run (std_main M A (total X)) e
  = (0, {| stdout := []; stdin_read := true; calls := [(action, params)] |}).
Proof.
  intros Hmode Hdec HX Hk Hf.
  rewrite (std_main_decodes _ _ _ _ _ _ Hmode Hdec), HX. simpl.
  unfold written. destruct (encodable (VMap result)) eqn:Henc; [| done].
  apply encodable_map with (k := k) (v := VFloat f) in Henc; [| done].
  simpl in Henc. congruence.
Qed.

(** X3: a failed read of standard input is reported by the standard
    [main], whatever its handler, and by the template as the one document
    [{"error": "failed to read input: <err>"}], exit code 0, without the
    handler being invoked: the run has made no call of [Execute].  The
    slack and llm plugins drop the failure and call [Execute] with the
    empty parameter map. *)
Theorem read_failure M A X g c o (e : Env) (action err : string) :
  execute_mode e action →
  Stdin e = Err err →
  run (std_main M A X) e
  = (0, {| stdout := [error_doc ("failed to read input: " +:+ err)];
           stdin_read := true; calls := [] |})
  ∧ run Template.main e
    = (0, {| stdout := [error_doc ("failed to read input: " +:+ err)];
             stdin_read := true; calls := [] |})
  ∧ run Slack.main e
    = (0, {| stdout := written (VMap (Slack.Execute e action ∅));
             stdin_read := true; calls := [(action, ∅)] |})
  ∧ run (LLM.main g c o) e
    = (0, {| stdout := written (VMap (LLM.Execute g c o e action ∅));
             stdin_read := true; calls := [(action, ∅)] |}).
Proof.
  intros Hmode HStdin.
  rewrite (std_main_any _ _ _ _ _ Hmode), (Template_main_execute _ _ Hmode),
    (Slack_main_execute _ _ Hmode), HStdin.
  repeat split.
  destruct Hmode as [(prog & rest & HArgs) [Hm Ha]].
  unfold run, LLM.main. rewrite HArgs.
  unfold mbind, Proc_bind, ReadAll_Stdin, Call, mret, Proc_ret; simpl.
  by rewrite HStdin, (eqb_false _ _ Hm), (eqb_false _ _ Ha).
Qed.

(** X4: the llm plugin trims standard input before it parses it: input
    made of white space only is treated as no input, and the handler is
    invoked with the empty parameter map. *)
Theorem llm_blank_stdin g c o (e : Env) (action data : string) :
  execute_mode e action →
  Stdin e = Ok data →
  bytes_TrimSpace data = "" →
  run (LLM.main g c o) e
  = (0, {| stdout := written (VMap (LLM.Execute g c o e action ∅));
           stdin_read := true; calls := [(action, ∅)] |}).
Proof.
  intros [(prog & rest & HArgs) [Hm Ha]] HStdin Htrim.
  unfold run, LLM.main. rewrite HArgs.
  unfold mbind, Proc_bind, ReadAll_Stdin, Call, mret, Proc_ret; simpl.
  rewrite HStdin, Htrim, (eqb_false _ _ Hm), (eqb_false _ _ Ha).
  by destruct (0 <? String.length data)%nat.
Qed.

(** ** The calculator *)

(** X5: the evaluator is closed: an expression has a value only if it is
    built from the five arithmetic operators, the two signs, parentheses,
    integer and floating-point literals and the constants [pi] and [e].
    Calls, other identifiers, other operators and other literals never
    evaluate. *)
Theorem evalNode_arithmetic_only (node : Node) (v : float) :
  Calculator.evalNode node = Ok v → arithmetic node.
Proof.
  revert v. induction node as [X IHX Op Y IHY | Op X IHX | X IHX | Kind Value | name | T];
    intros v; simpl.
  - unfold Calculator.evalBinaryExpr.
    destruct (Calculator.evalNode X) as [l |]; [| done].
    destruct (Calculator.evalNode Y) as [r |]; [| done].
    intros Hv. apply ar_binary; [| by eapply IHX | by eapply IHY].
    destruct Op; try done; set_solver.
  - unfold Calculator.evalUnaryExpr.
    destruct (Calculator.evalNode X) as [x |]; [| done].
    intros Hv. apply ar_unary; [| by eapply IHX].
    destruct Op; try done; set_solver.
  - intros Hv. apply ar_paren. by eapply IHX.
  - unfold Calculator.evalBasicLit. intros Hv. apply ar_literal.
    destruct Kind; try done; set_solver.
  - intros Hv. apply ar_constant.
    destruct (String.eqb_spec name "pi") as [-> | _]; [set_solver |].
    destruct (String.eqb_spec name "e") as [-> | _]; [set_solver | done].
  - done.
Qed.

(** X6: [calculate] never returns a Go error.  Its envelope holds either
    an [error] string and no [result], or a [result] number and no
    [error]; whenever the request carries a non-empty expression string,
    the envelope echoes it unchanged under [expression], and otherwise the
    envelope is exactly [{"error": "expression parameter is required"}]. *)
Theorem calculate_envelope (params : gmap string value) :
  (Calculator.calculate params).2 = None
  ∧ ((∃ msg, (Calculator.calculate params).1 !! "error" = Some (VString msg)
             ∧ (Calculator.calculate params).1 !! "result" = None)
     ∨ (∃ r, (Calculator.calculate params).1 !! "result" = Some (VFloat r)
             ∧ (Calculator.calculate params).1 !! "error" = None))
  ∧ match as_string (params !! "expression") with
    | Some (String c s) =>
        (Calculator.calculate params).1 !! "expression" = Some (VString (String c s))
    | _ =>
        (Calculator.calculate params).1
        = {[ "error" := VString "expression parameter is required" ]}
    end.
Proof.
  unfold Calculator.calculate.
  destruct (as_string (params !! "expression")) as [[| c s] |]; simpl;
    [split; [done |]; split; [left; by eexists | done] |
    | split; [done |]; split; [left; by eexists | done]].
  destruct (Calculator.evaluateExpression (String c s)); simpl;
    (split; [done |]); (split; [| done]); [right | left]; by eexists.
Qed.

(** X7: a precision that converts to a negative integer is clamped to 0:
    the value of the expression is rounded to the nearest integer. *)
Theorem negative_precision_rounds_to_integer (params : gmap string value)
    (prec : float) (expression : string) (v : float) :
  params !! "precision" = Some (VFloat prec) →
  int_of_float64 prec ≤ 0 →
  params !! "expression" = Some (VString expression) →
  expression ≠ "" →
  Calculator.evaluateExpression expression = Ok v →
  Calculator.calculate params
  = ({[ "result" := VFloat (math_Round v); "expression" := VString expression ]},
     None).
Proof.
  intros Hprec Hneg Hexpr Hne Hv.
  unfold Calculator.calculate, Calculator.calculate_precision.
  rewrite Hexpr, Hprec. simpl. rewrite (eqb_false _ _ Hne), Hv.
  destruct (int_of_float64 prec <? 0) eqn:Hlt; [done |].
  apply Z.ltb_ge in Hlt.
  by replace (int_of_float64 prec) with 0 by lia.
Qed.

(** ** The http plugin *)



(** Once a request is sent, the answer is about the response. *)
Lemma HTTP_send_not_url_required (e : Env) (params : gmap string value) req :
  HTTP.send e params req ≠ ({[ "error" := VString "url is required" ]}, None).
Proof.
  intros Heq. apply (f_equal (λ r, r.1 !! "error")) in Heq. revert Heq.
  unfold HTTP.send.
  destruct (HttpDo e (HTTP.client_Timeout params) req) as [resp | err]; [| done].
  destruct (RespBody resp) as [body | err]; [| done].
  destruct (_ && _); [destruct (json_Unmarshal_value body) |]; done.
Qed.

(** X9: the envelope [{"error": "url is required"}] is the answer of the
    two http handlers exactly when the request's [url] is missing, is not
    a string, or is the empty string. *)
Theorem http_url_required (e : Env) (params : gmap string value) :
  Forall (λ handler : Env → gmap string value → gmap string value * error,
            handler e params = ({[ "error" := VString "url is required" ]}, None)
            ↔ (∀ url, params !! "url" = Some (VString url) → url = ""))
    [HTTP.makeGetRequest; HTTP.makePostRequest].
Proof.
  repeat apply Forall_cons_2; [.. | apply Forall_nil_2].
  - unfold HTTP.makeGetRequest.
    destruct (params !! "url") as [[| | | | url | |] |] eqn:Hurl; simpl;
      try (split; [by intros _ url' [=] | done]).
    destruct (String.eqb_spec url "") as [-> | Hne].
    + split; [by intros _ url' [= <-] | done].
    + split; [| intros Hall; destruct Hne; by apply Hall].
      destruct (http_NewRequest "GET" url);
        [intros Heq; by apply HTTP_send_not_url_required in Heq |].
      intros Heq. by apply (f_equal (λ r, r.1 !! "error")) in Heq.
  - unfold HTTP.makePostRequest.
    destruct (params !! "url") as [[| | | | url | |] |] eqn:Hurl; simpl;
      try (split; [by intros _ url' [=] | done]).
    destruct (String.eqb_spec url "") as [-> | Hne].
    + split; [by intros _ url' [= <-] | done].
    + split; [| intros Hall; destruct Hne; by apply Hall].
      destruct (params !! "json") as [jsonData |];
        [destruct (json_Marshal jsonData);
           [| intros Heq; by apply (f_equal (λ r, r.1 !! "error")) in Heq] |];
        (destruct (http_NewRequest "POST" url);
           [intros Heq; by apply HTTP_send_not_url_required in Heq |
            intros Heq; by apply (f_equal (λ r, r.1 !! "error")) in Heq]).
Qed.




(** X13: in a POST request that carries [json], the [body] parameter has
    no effect at all: the handler answers as if [body] had any other
    value. *)
Theorem http_json_overrides_body (e : Env) (params : gmap string value)
    (body : value) :
  is_Some (params !! "json") →
  HTTP.makePostRequest e (<[ "body" := body ]> params)
  = HTTP.makePostRequest e params.
Proof.
  intros [jsonData Hjson].
  unfold HTTP.makePostRequest, HTTP.send, HTTP.client_Timeout, HTTP.set_headers,
    HTTP.set_auth, HTTP.getStringParam.
  rewrite !(lookup_insert_ne _ "body" "url"), !(lookup_insert_ne _ "body" "json"),
    !(lookup_insert_ne _ "body" "content_type"),
    !(lookup_insert_ne _ "body" "timeout"), !(lookup_insert_ne _ "body" "headers"),
    !(lookup_insert_ne _ "body" "auth") by done.
  by rewrite Hjson.
Qed.

(** ** The template *)

(** X14: [example_action] never returns a Go error, and it succeeds
    exactly when [input_param] holds a string; the empty string is
    accepted, although the parameter is declared as required. *)
Theorem template_example_action (params : gmap string value) :
  (Template.exampleAction params).2 = None
  ∧ ((Template.exampleAction params).1 !! "success" = Some (VBool true)
     ↔ ∃ s, params !! "input_param" = Some (VString s))
  ∧ ((Template.exampleAction params).1
     = {[ "error" := VString "input_param must be a string" ]}
     ↔ ¬ ∃ s, params !! "input_param" = Some (VString s)).
Proof.
  unfold Template.exampleAction.
  destruct (params !! "input_param") as [[| | | | s | |] |]; simpl;
    (split; [done |]); split; split;
    try done; try (by intros [s' [=]]); try (by intros _ [s' [=]]);
    try (by intros; eexists); try (by intros Hno; destruct Hno; eexists).
Qed.

(** ** The slack plugin *)

(** X15: whatever the action, the parameters, the environment and the
    network, the envelope of the slack plugin holds an [error] string or a
    [success] boolean, and never both. *)
Theorem slack_envelope (e : Env) (action : string) (params : gmap string value) :
  (∃ msg, Slack.Execute e action params !! "error" = Some (VString msg)
          ∧ Slack.Execute e action params !! "success" = None)
  ∨ (∃ b, Slack.Execute e action params !! "success" = Some (VBool b)
          ∧ Slack.Execute e action params !! "error" = None).
Proof.
  unfold Slack.Execute, Slack.sendMessage, Slack.sendWebhook.
  repeat match goal with
         | |- context [if ?b then _ else _] => destruct b
         | |- context [match ?x with _ => _ end] => destruct x
         end;
    first [left; by eexists | right; by eexists].
Qed.

End Further.

(** * Properties of the email plugin *)

Section Mail.
Context `{GoLib} `{MailLib}.

Lemma fmap_VString_inj (l1 : list string) : ∀ l2 : list string,
  VString <$> l1 = VString <$> l2 → l1 = l2.
Proof.
  induction l1 as [|s l1 IH]; intros [|s' l2]; try done.
  intros [= -> Heq]. f_equal. by apply IH.
Qed.

Lemma parseToEmails_loop_Ok (v : list value) : ∀ (i : Z) (emails : list string),
  Email.parseToEmails_loop i v = Ok emails
  ↔ v = VString <$> emails ∧ Forall (λ s, s ≠ "") emails.
Proof.
  induction v as [|x v IH]; intros i emails; simpl.
  - split.
    + intros [= <-]. by split.
    + intros [Hv _]. by destruct emails.
  - destruct x as [| | | |s| |]; try (split; [done | by intros [Hv _]; destruct emails]).
    destruct s as [|c s]; simpl.
    + split; [done|]. intros [Hv Hne]. destruct emails as [|s' emails]; [done|].
      injection Hv as <- _. by apply Forall_inv in Hne.
    + unfold mbind, res_bind.
      destruct (Email.parseToEmails_loop (i + 1) v) as [rest|err] eqn:Hrest.
      * apply IH in Hrest as [-> Hne]. split.
        -- intros [= <-]. split; [done|]. by apply Forall_cons_2.
        -- intros [Hv Hne']. destruct emails as [|s' emails]; [done|].
           injection Hv as <- Hv. apply fmap_VString_inj in Hv. by subst.
      * split; [done|]. intros [Hv Hne]. destruct emails as [|s' emails]; [done|].
        injection Hv as <- Hv. apply Forall_inv_tail in Hne.
        assert (Email.parseToEmails_loop (i + 1) v = Ok emails) as Hok
          by by apply IH.
        congruence.
Qed.

(** X16: [parseToEmails] returns a list of recipients exactly when [to]
    is an array of non-empty strings that is not empty, and then returns
    these strings in their order, or when it is a non-empty string, and
    then returns this string alone. *)
Theorem email_recipients (to : option value) (emails : list string) :
  Email.parseToEmails to = Ok emails
  ↔ emails ≠ [] ∧ Forall (λ s, s ≠ "") emails
    ∧ (to = Some (VSlice (VString <$> emails))
       ∨ ∃ v, to = Some (VString v) ∧ emails = [v]).
Proof.
  unfold Email.parseToEmails. split.
  - destruct to as [[| | | |v|v|]|]; try done.
    + destruct (String.eqb_spec v ""); [done|]. intros [= <-].
      split; [done|]. split; [by apply Forall_cons_2|]. right. by exists v.
    + unfold mbind, res_bind.
      destruct (Email.parseToEmails_loop 0 v) as [l|err] eqn:Hloop; [|done].
      apply parseToEmails_loop_Ok in Hloop as [-> Hne].
      destruct l; [done|]. intros [= <-]. split; [done|]. split; [done|]. by left.
  - intros (Hnil & Hne & [-> | (v & -> & ->)]).
    + unfold mbind, res_bind.
      assert (Email.parseToEmails_loop 0 (VString <$> emails) = Ok emails) as ->
        by by apply parseToEmails_loop_Ok.
      by destruct emails.
    + apply Forall_inv in Hne. by destruct (String.eqb_spec v "").
Qed.

Lemma parseToEmails_loop_Err (v : list value) : ∀ (k : Z) (i : nat) (x : value),
  v !! i = Some x → is_address x = false →
  Forall (λ y, is_address y = true) (take i v) →
  Email.parseToEmails_loop k v
  = Err ("to[" +:+ fmt_d (k + Z.of_nat i) +:+ "] must be a non-empty string").
Proof.
  induction v as [|y v IH]; intros k i x Hi Hx Hbefore; [done|].
  destruct i as [|i]; simpl in *.
  - injection Hi as ->. rewrite Z.add_0_r.
    by destruct x as [| | | |[|c s]| |].
  - apply Forall_cons in Hbefore as [Hy Hbefore].
    destruct y as [| | | |[|c s]| |]; try done.
    rewrite (IH (k + 1) i x Hi Hx Hbefore).
    by replace (k + 1 + Z.of_nat i) with (k + Z.pos (Pos.of_succ_nat i)) by lia.
Qed.

(** X17: an array of recipients is refused at its first element that is
    not a non-empty string, and the error names the index of that
    element. *)
Theorem email_first_offending_recipient (v : list value) (i : nat) (x : value) :
  v !! i = Some x → is_address x = false →
  Forall (λ y, is_address y = true) (take i v) →
  Email.parseToEmails (Some (VSlice v))
  = Err ("to[" +:+ fmt_d (Z.of_nat i) +:+ "] must be a non-empty string").
Proof.
  intros Hi Hx Hbefore. unfold Email.parseToEmails.
  by rewrite (parseToEmails_loop_Err v 0 i x Hi Hx Hbefore).
Qed.

Lemma parseAttachments_foldl (arr : list value) : ∀ acc : list string,
  VString <$> foldl (λ result item,
                       match item with
                       | VString (String c s) => (result ++ [String c s])%list
                       | _ => result
                       end) acc arr
  = ((VString <$> acc) ++ List.filter is_address arr)%list.
Proof.
  induction arr as [|x arr IH]; intros acc; simpl.
  - by rewrite app_nil_r.
  - destruct x as [| | | |[|c s]| |]; simpl; rewrite IH; try done.
    by rewrite fmap_app, <- app_assoc.
Qed.

(** X18: [parseAttachments] never fails: of an array it keeps the
    non-empty strings, in their order, and drops every other element
    (where [parseToEmails] refuses the array); of anything else it keeps
    nothing. *)
Theorem email_attachments_filtered (attachments : option value) :
  VString <$> Email.parseAttachments attachments
  = match attachments with
    | Some (VSlice arr) => List.filter is_address arr
    | _ => []
    end.
Proof.
  destruct attachments as [[| | | | |arr|]|]; try done.
  unfold Email.parseAttachments. by rewrite parseAttachments_foldl.
Qed.








Section Delivery.
Variable w : MailWorld.

Lemma first_refusal_app (c1 : list SmtpCommand) : ∀ h c2 : list SmtpCommand,
  first_refusal w h (c1 ++ c2)
  = match first_refusal w h c1 with
    | Some r => Some r
    | None => first_refusal w (h ++ c1) c2
    end.
Proof.
  induction c1 as [|cmd c1 IH]; intros h c2; simpl.
  - by rewrite app_nil_r.
  - destruct (refusal w h cmd); [done|]. by rewrite IH, <- app_assoc.
Qed.

Lemma first_refusal_Some (cmds : list SmtpCommand) :
  ∀ (h issued : list SmtpCommand) (cmd : SmtpCommand) (err : string),
  first_refusal w h cmds = Some (issued, cmd, err) →
  cmd ∈ cmds ∧ refusal w (removelast issued) cmd = Some err
  ∧ ∃ pre, issued = (h ++ pre)%list ∧ ∀ x, x ∈ pre → x ∈ cmds.
Proof.
  induction cmds as [|c cmds IH]; intros h issued cmd err; simpl; [done|].
  destruct (refusal w h c) as [err'|] eqn:Hc.
  - intros [= <- <- <-]. split; [by left|]. split.
    + by rewrite removelast_last.
    + exists [c]. split; [done|]. intros x Hx.
      apply list_elem_of_singleton in Hx as ->. by left.
  - intros Hrest. apply IH in Hrest as (Hin & Herr & pre & -> & Hpre).
    split; [by right|]. split; [done|].
    exists (c :: pre). rewrite <- app_assoc. split; [done|]. intros x Hx.
    apply elem_of_cons in Hx as [->|Hx]; [by left|right; by apply Hpre].
Qed.

Lemma first_refusal_None (cmds : list SmtpCommand) : ∀ h : list SmtpCommand,
  first_refusal w h cmds = None →
  ∀ cmd, cmd ∈ cmds → ∃ h', refusal w h' cmd = None.
Proof.
  induction cmds as [|c cmds IH]; intros h Hnone cmd Hin; simpl in *.
  - by apply elem_of_nil in Hin.
  - destruct (refusal w h c) eqn:Hc; [done|].
    apply elem_of_cons in Hin as [->|Hin]; [by exists h|]. by eapply IH.
Qed.

Lemma plays_ret (h : list SmtpCommand) : plays w (mret ()) h [].
Proof. unfold plays. simpl. by rewrite app_nil_r. Qed.

Lemma plays_issue (cmd : SmtpCommand) (h : list SmtpCommand) :
  refusal w h cmd = Smtp w h cmd → smtp_pending cmd = [] →
  plays w (issue w cmd (smtp_context cmd)) h [cmd].
Proof.
  intros Hcmd Hpending. unfold plays, issue. simpl. rewrite Hcmd.
  destruct (Smtp w h cmd); [|done]. by rewrite Hpending, app_nil_r.
Qed.

Lemma plays_bind (m1 m2 : Session unit) (h c1 c2 : list SmtpCommand) :
  plays w m1 h c1 → plays w m2 (h ++ c1) c2 →
  plays w (m1 ;; m2) h (c1 ++ c2).
Proof.
  unfold plays. intros H1 H2. unfold mbind, Session_bind.
  rewrite H1, first_refusal_app.
  destruct (first_refusal w h c1) as [[[issued cmd] err]|]; [done|].
  rewrite H2.
  destruct (first_refusal w (h ++ c1) c2) as [[[issued cmd] err]|]; [done|].
  by rewrite app_assoc.
Qed.

Lemma plays_rcpt_all (to : list string) : ∀ h : list SmtpCommand,
  plays w (Email.rcpt_all w to) h (Rcpt <$> to).
Proof.
  induction to as [|addr to IH]; intros h.
  - apply plays_ret.
  - change (plays w (issue w (Rcpt addr) (smtp_context (Rcpt addr)) ;;
                     Email.rcpt_all w to) h ([Rcpt addr] ++ (Rcpt <$> to))).
    apply plays_bind; [|apply IH]. by apply plays_issue.
Qed.

Variables (server : string) (port : Z) (username password : string).
Variables (useTLS : bool) (from : string) (to : list string) (message : string).

Lemma plays_starttls (h : list SmtpCommand) :
  plays w (ok ← ask w "STARTTLS" ;
           if ok : bool then issue w (StartTLS server) "failed to start TLS: "
           else mret ())
    h (Extension "STARTTLS"
         :: (if Supports w h "STARTTLS" then [StartTLS server] else [])).
Proof.
  unfold plays, mbind, Session_bind, ask. simpl.
  destruct (Supports w h "STARTTLS"); simpl.
  - unfold issue.
    destruct (Smtp w (h ++ [Extension "STARTTLS"]) (StartTLS server)); simpl.
    + by rewrite app_nil_r.
    + by rewrite <- app_assoc.
  - done.
Qed.

Lemma plays_write (h : list SmtpCommand) :
  plays w (λ h, match issue w (Write message) "failed to write message: " h with
                | (Err err, h) => (Err err, (h ++ [CloseWriter])%list)
                | r => r
                end) h [Write message].
Proof.
  unfold plays, issue. simpl. by destruct (Smtp w h (Write message)).
Qed.

Ltac member H :=
  repeat match type of H with
    | _ ∈ (if ?c then _ else _) => destruct c
    | _ ∈ (_ ++ _)%list => apply elem_of_app in H as [H|H]
    | _ ∈ _ :: _ => apply elem_of_cons in H as [->|H]
    | _ ∈ [] => by apply elem_of_nil in H
    | _ ∈ _ <$> _ => apply list_elem_of_fmap in H as (? & -> & _)
    end.

Lemma smtp_connection_member (cmd : SmtpCommand) :
  cmd ∈ smtp_connection server port useTLS →
  smtp_pending cmd = [] ∧ smtp_closing cmd = [] ∧ cmd ≠ Close.
Proof. unfold smtp_connection. intros Hin. by member Hin. Qed.

Lemma smtp_session_member (cmd : SmtpCommand) :
  cmd ∈ smtp_session w server port username password useTLS from to message →
  smtp_closing cmd = (smtp_pending cmd ++ [Close])%list
  ∧ cmd ≠ Close ∧ Close ∉ smtp_pending cmd.
Proof.
  unfold smtp_session. intros Hin.
  member Hin; (split; [done|split; [done|]]); simpl;
    try apply not_elem_of_nil.
  by intros ?%list_elem_of_singleton.
Qed.

Lemma sendSMTP_plays :
  Email.sendSMTP w server port username password useTLS from to message
  = match first_refusal w []
            (smtp_script w server port username password useTLS from to message)
    with
    | None =>
        ((smtp_script w server port username password useTLS from to message
          ++ [Close])%list, None)
    | Some (issued, cmd, err) =>
        ((issued ++ smtp_closing cmd)%list, Some (smtp_context cmd +:+ err))
    end.
Proof.
  unfold Email.sendSMTP. cbv zeta.
  set (connect := if useTLS && (port =? 465) then _ else _).
  set (session := mbind _ _).
  assert (plays w connect [] (smtp_connection server port useTLS)) as Hc.
  { subst connect. unfold smtp_connection.
    destruct (useTLS && (port =? 465)).
    - apply (plays_bind _ _ [] [TLSDial _ _] [NewClient _]); by apply plays_issue.
    - by apply plays_issue. }
  assert (plays w session (smtp_connection server port useTLS)
            (smtp_session w server port username password useTLS from to message))
    as Hs.
  { subst session. unfold smtp_session.
    apply plays_bind.
    { destruct (useTLS && negb (port =? 465));
        [apply plays_starttls | apply plays_ret]. }
    apply plays_bind.
    { destruct (negb (username =? "")%string && negb (password =? "")%string);
        [by apply plays_issue | apply plays_ret]. }
    apply plays_bind; [by apply plays_issue|].
    apply plays_bind; [apply plays_rcpt_all|].
    apply plays_bind; [by apply plays_issue|].
    apply plays_bind; [apply plays_write | by apply plays_issue]. }
  unfold plays in Hc, Hs. rewrite Hc. unfold smtp_script.
  rewrite first_refusal_app.
  destruct (first_refusal w [] (smtp_connection server port useTLS))
    as [[[issued cmd] err]|] eqn:Hfc.
  - apply first_refusal_Some in Hfc as (Hin & _).
    apply smtp_connection_member in Hin as (-> & -> & _). done.
  - change ([] ++ smtp_connection server port useTLS)%list
      with (smtp_connection server port useTLS).
    rewrite Hs.
    destruct (first_refusal w (smtp_connection server port useTLS) _)
      as [[[issued cmd] err]|] eqn:Hfs; [|done].
    apply first_refusal_Some in Hfs as (Hin & _).
    apply smtp_session_member in Hin as (-> & _).
    by rewrite app_assoc.
Qed.

(** X20: when [sendSMTP] returns no error, it has issued exactly the
    commands of the script, in order, and then closed the client; and the
    server had accepted every one of them. *)
Theorem smtp_delivery :
  (Email.sendSMTP w server port username password useTLS from to message).2 = None →
  (Email.sendSMTP w server port username password useTLS from to message).1
  = (smtp_script w server port username password useTLS from to message
     ++ [Close])%list
  ∧ first_refusal w []
      (smtp_script w server port username password useTLS from to message) = None.
Proof.
  rewrite sendSMTP_plays.
  by destruct (first_refusal w [] _) as [[[issued cmd] err]|].
Qed.

(** X21: [sendSMTP] stops at the first command refused: when the
    commands [pre] of the script are accepted and the next one, [cmd], is
    refused, it issues [pre] and [cmd], closes what is open, issues none of
    the commands after [cmd], and returns the error of [cmd] behind the
    text that belongs to it. *)
Theorem smtp_stops_at_first_refusal (pre post : list SmtpCommand)
    (cmd : SmtpCommand) (err : string) :
  smtp_script w server port username password useTLS from to message
  = (pre ++ cmd :: post)%list →
  first_refusal w [] pre = None →
  refusal w pre cmd = Some err →
  Email.sendSMTP w server port username password useTLS from to message
  = ((pre ++ [cmd] ++ smtp_closing cmd)%list, Some (smtp_context cmd +:+ err)).
Proof.
  intros Hscript Hpre Hcmd.
  rewrite sendSMTP_plays, Hscript, first_refusal_app, Hpre. simpl.
  rewrite Hcmd. by rewrite <- app_assoc.
Qed.

(** X22: a message is never handed to a server that refuses one of its
    recipients: [sendSMTP] then returns an error, and has issued neither
    [Data] nor a [Write]. *)
Theorem smtp_refused_recipient (addr : string) :
  addr ∈ to →
  (∀ h, Smtp w h (Rcpt addr) ≠ None) →
  (Email.sendSMTP w server port username password useTLS from to message).2 ≠ None
  ∧ (Data ∉ fst (Email.sendSMTP w server port username password useTLS from to
                   message))
  ∧ ∀ m, Write m ∉ fst (Email.sendSMTP w server port username password useTLS
                          from to message).
Proof.
  intros Hto Hrefused. rewrite sendSMTP_plays.
  set (front := (smtp_connection server port useTLS
    ++ (if useTLS && negb (port =? 465) then
          Extension "STARTTLS"
            :: (if Supports w (smtp_connection server port useTLS) "STARTTLS"
                then [StartTLS server] else [])
        else [])
    ++ (if negb (String.eqb username "") && negb (String.eqb password "")
        then [Auth username password server] else [])
    ++ [Mail from] ++ (Rcpt <$> to))%list).
  assert (smtp_script w server port username password useTLS from to message
          = (front ++ [Data] ++ [Write message] ++ [CloseWriter])%list) as ->.
  { unfold smtp_script, smtp_session, front. by rewrite <- !app_assoc. }
  assert (Rcpt addr ∈ front) as Hin.
  { unfold front. rewrite !elem_of_app. do 4 right.
    by apply list_elem_of_fmap_2. }
  assert (∀ cmd, cmd ∈ front →
            cmd ≠ Data ∧ (∀ m, cmd ≠ Write m)
            ∧ (Data ∉ smtp_closing cmd) ∧ ∀ m, Write m ∉ smtp_closing cmd)
    as Hfront.
  { unfold front, smtp_connection. intros cmd Hcmd.
    member Hcmd; (split; [done|split; [done|]]); simpl;
      (split; [|intros m]);
      (apply not_elem_of_nil || by intros ?%list_elem_of_singleton). }
  rewrite first_refusal_app.
  destruct (first_refusal w [] front) as [[[issued cmd] err]|] eqn:Hf.
  - apply first_refusal_Some in Hf as (Hcmd & _ & pre & -> & Hpre). simpl.
    destruct (Hfront cmd Hcmd) as (_ & _ & HD & HW).
    split; [done|]. split; [|intros m]; apply not_elem_of_app; split; try done.
    + intros Hx. by apply Hpre, Hfront in Hx as (? & _).
    + intros Hx. apply Hpre, Hfront in Hx as (_ & Hx & _). by apply (Hx m).
  - destruct (first_refusal_None front [] Hf (Rcpt addr) Hin) as (h & Hh).
    by apply Hrefused in Hh.
Qed.

(** X23: [sendSMTP] closes its client once, as its last command,
    whenever it has one; when the connection is refused, or is made over
    TLS and the client is then refused, it closes nothing. *)
Theorem smtp_client_closed :
  match first_refusal w [] (smtp_connection server port useTLS) with
  | None =>
      ∃ pre,
        (Email.sendSMTP w server port username password useTLS from to message).1
        = (pre ++ [Close])%list
        ∧ Close ∉ pre
  | Some _ =>
      (Close ∉ fst (Email.sendSMTP w server port username password useTLS from
                      to message))
      ∧ (Email.sendSMTP w server port username password useTLS from to message).2
        ≠ None
  end.
Proof.
  rewrite sendSMTP_plays. unfold smtp_script. rewrite first_refusal_app.
  destruct (first_refusal w [] (smtp_connection server port useTLS))
    as [[[issued cmd] err]|] eqn:Hfc.
  - apply first_refusal_Some in Hfc as (Hcmd & _ & pre & -> & Hpre). simpl.
    apply smtp_connection_member in Hcmd as (_ & -> & _).
    split; [|done]. rewrite app_nil_r. intros Hx.
    by apply Hpre, smtp_connection_member in Hx as (_ & _ & Hx).
  - change ([] ++ smtp_connection server port useTLS)%list
      with (smtp_connection server port useTLS).
    assert (Close ∉ smtp_connection server port useTLS) as Hconn.
    { intros Hx. by apply smtp_connection_member in Hx as (_ & _ & Hx). }
    assert (Close ∉ smtp_session w server port username password useTLS from
                      to message) as Hsess.
    { intros Hx. by apply smtp_session_member in Hx as (_ & Hx & _). }
    destruct (first_refusal w (smtp_connection server port useTLS) _)
      as [[[issued cmd] err]|] eqn:Hfs; simpl.
    + apply first_refusal_Some in Hfs as (Hcmd & _ & pre & -> & Hpre).
      apply smtp_session_member in Hcmd as (-> & _ & Hpending).
      exists ((smtp_connection server port useTLS ++ pre) ++ smtp_pending cmd)%list.
      split; [by rewrite !app_assoc|].
      rewrite !not_elem_of_app. split; [split|]; try done.
      intros Hx. by apply Hpre, smtp_session_member in Hx as (_ & Hx & _).
    + eexists. split; [done|]. by apply not_elem_of_app.
Qed.

End Delivery.

Lemma as_string_Some (o : option value) (s : string) :
  as_string o = Some s → o = Some (VString s).
Proof. destruct o as [[| | | |s'| |]|]; try done. by intros [= ->]. Qed.

Lemma addAttachment_readable (w : MailWorld) (boundary filePath : string) :
  (∃ part, Email.addAttachment w boundary filePath = Ok part)
  ↔ readable w filePath = true.
Proof.
  unfold Email.addAttachment, readable.
  destruct (NotExist w filePath); simpl.
  - split; [by intros [part ?] | done].
  - destruct (ReadFile w filePath).
    + split; [done | by eexists].
    + split; [by intros [part ?] | done].
Qed.

Lemma addAttachments_readable (w : MailWorld) (boundary : string)
    (attachments : list string) :
  (∃ parts, Email.addAttachments w boundary attachments = Ok parts)
  ↔ Forall (λ p, readable w p = true) attachments.
Proof.
  induction attachments as [|p attachments IH]; simpl.
  - split; [done | by eexists].
  - destruct (Email.addAttachment w boundary p) as [part|err] eqn:Hp.
    + assert (readable w p = true) as Hr
        by (apply (addAttachment_readable w boundary); by eexists).
      unfold mbind, res_bind.
      destruct (Email.addAttachments w boundary attachments) as [parts|err].
      * split; [|by eexists]. intros _. apply Forall_cons_2; [done|].
        apply IH. by eexists.
      * split; [by intros [parts ?]|]. intros [_ Hall]%Forall_cons.
        apply IH in Hall as [parts ?]. done.
    + split; [by intros [parts ?]|]. intros [Hr _]%Forall_cons.
      apply (addAttachment_readable w boundary) in Hr as [part ?]. congruence.
Qed.

Lemma buildMessage_readable (w : MailWorld) (fromEmail : string)
    (toEmails : list string) (subject body : string) (isHTML : bool)
    (attachments : list string) :
  (∃ message,
     Email.buildMessage w fromEmail toEmails subject body isHTML attachments
     = Ok (message, "<" +:+ fmt_d (Clock w 0) +:+ "@corynth-email-plugin>"))
  ↔ Forall (λ p, readable w p = true) attachments.
Proof.
  unfold Email.buildMessage. cbv zeta.
  rewrite <- (addAttachments_readable w ("boundary_" +:+ fmt_d (Clock w 1))).
  destruct attachments as [|p attachments].
  - split; by eexists.
  - change (0 <? length (p :: attachments))%nat with true. cbv iota.
    unfold mbind, res_bind.
    destruct (Email.addAttachments w _ (p :: attachments)) as [parts|err].
    + split; by eexists.
    + split; by intros [? ?].
Qed.

(** X24: a message is built exactly when every attachment exists and
    can be read, whatever else the message holds; its identifier is the
    first reading of the clock. *)
Theorem email_message_needs_attachments (w : MailWorld) (fromEmail : string)
    (toEmails : list string) (subject body : string) (isHTML : bool)
    (attachments : list string) :
  (∃ message,
     Email.buildMessage w fromEmail toEmails subject body isHTML attachments
     = Ok (message, "<" +:+ fmt_d (Clock w 0) +:+ "@corynth-email-plugin>"))
  ↔ Forall (λ p, readable w p = true) attachments.
Proof. apply buildMessage_readable. Qed.

(** X25: [sendEmail] issues no command to the mail server unless the
    request is valid: recipients, a non-empty subject and a non-empty
    body are given, and every attachment exists and can be read. *)
Theorem email_commands_need_valid_request (e : Env) (w : MailWorld)
    (params : gmap string value) :
  (Email.sendEmail e w params).2 ≠ [] →
  ∃ toEmails subject body,
    Email.parseToEmails (params !! "to") = Ok toEmails
    ∧ params !! "subject" = Some (VString subject) ∧ subject ≠ ""
    ∧ params !! "body" = Some (VString body) ∧ body ≠ ""
    ∧ Forall (λ p, readable w p = true)
        (Email.parseAttachments (params !! "attachments")).
Proof.
  unfold Email.sendEmail. cbv zeta.
  destruct (Email.parseToEmails (params !! "to")) as [toEmails|err]; [|done].
  destruct (as_string (params !! "subject")) as [[|c subject]|] eqn:Hsubject;
    [done| |done].
  destruct (as_string (params !! "body")) as [[|c' body]|] eqn:Hbody;
    [done| |done].
  apply as_string_Some in Hsubject, Hbody.
  destruct (String.eqb _ ""); [done|].
  destruct (strconv_Atoi _) as [smtpPort|err]; [|done].
  destruct (Email.buildMessage _ _ _ _ _ _ _) as [[message messageID]|err]
    eqn:Hbuild; [|done].
  intros _. exists toEmails, (String c subject), (String c' body).
  repeat (split; [done|]).
  eapply buildMessage_readable.
  exists message. rewrite Hbuild. f_equal. f_equal.
  revert Hbuild. unfold Email.buildMessage. cbv zeta.
  destruct (0 <? _)%nat; [|by intros [= _ <-]].
  unfold mbind, res_bind. destruct (Email.addAttachments _ _ _); [|done].
  by intros [= _ <-].
Qed.

(** X26: [sendEmail] never returns a Go error.  Its result holds either
    the one key [error], or [success] and [message_id]; and it reports
    success only when the mail server has accepted every command of a
    session that ends with the client closed. *)
Theorem email_send_envelope (e : Env) (w : MailWorld)
    (params : gmap string value) :
  (Email.sendEmail e w params).1.2 = None
  ∧ ((∃ msg, (Email.sendEmail e w params).1.1 = {[ "error" := VString msg ]})
     ∨ ((Email.sendEmail e w params).1.1
        = {[ "success" := VBool true;
             "message_id" :=
               VString ("<" +:+ fmt_d (Clock w 0) +:+ "@corynth-email-plugin>") ]}
        ∧ ∃ script,
            (Email.sendEmail e w params).2 = (script ++ [Close])%list
            ∧ first_refusal w [] script = None)).
Proof.
  unfold Email.sendEmail. cbv zeta.
  destruct (Email.parseToEmails (params !! "to")) as [toEmails|err];
    [|split; [done|left; by eexists]].
  destruct (as_string (params !! "subject")) as [[|c subject]|];
    [split; [done|left; by eexists]| |split; [done|left; by eexists]].
  destruct (as_string (params !! "body")) as [[|c' body]|];
    [split; [done|left; by eexists]| |split; [done|left; by eexists]].
  destruct (String.eqb _ ""); [split; [done|left; by eexists]|].
  destruct (strconv_Atoi _) as [smtpPort|err];
    [|split; [done|left; by eexists]].
  destruct (Email.buildMessage _ _ _ _ _ _ _) as [[message messageID]|err]
    eqn:Hbuild; [|split; [done|left; by eexists]].
  assert (messageID = "<" +:+ fmt_d (Clock w 0) +:+ "@corynth-email-plugin>")
    as ->.
  { revert Hbuild. unfold Email.buildMessage. cbv zeta.
    destruct (0 <? _)%nat; [|by intros [= _ <-]].
    unfold mbind, res_bind. destruct (Email.addAttachments _ _ _); [|done].
    by intros [= _ <-]. }
  rewrite sendSMTP_plays.
  destruct (first_refusal w [] _) as [[[issued cmd] err]|] eqn:Hscript.
  - split; [done|left; by eexists].
  - split; [done|right]. split; [done|]. by eexists.
Qed.

(** X27: a sender given in the request comes before the one of the
    environment: with a non-empty [from_email], [sendEmail] does not
    depend on [SMTP_FROM_EMAIL]. *)
Theorem email_sender_parameter_first (e1 e2 : Env) (w : MailWorld)
    (params : gmap string value) (fe : string) :
  params !! "from_email" = Some (VString fe) → fe ≠ "" →
  (∀ k, k ≠ "SMTP_FROM_EMAIL" → Getenv e1 k = Getenv e2 k) →
  Email.sendEmail e1 w params = Email.sendEmail e2 w params.
Proof.
  intros Hfrom Hfe Hagree. unfold Email.sendEmail, Email.getBoolFromEnv.
  rewrite Hfrom. destruct fe as [|c fe]; [done|]. cbn [as_string].
  by rewrite (Hagree "SMTP_SERVER"), (Hagree "SMTP_PORT"), (Hagree "SMTP_USER"),
    (Hagree "SMTP_PASSWORD"), (Hagree "SMTP_TLS").
Qed.

Lemma sendEmail_document (e : Env) (w : MailWorld) (params : gmap string value) :
  ∃ result, (Email.sendEmail e w params).1 = (result, None)
            ∧ encodable (VMap result) = true.
Proof.
  unfold Email.sendEmail. cbv zeta.
  destruct (Email.parseToEmails (params !! "to")); [|by eexists].
  destruct (as_string (params !! "subject")) as [[|? ?]|]; try by eexists.
  destruct (as_string (params !! "body")) as [[|? ?]|]; try by eexists.
  destruct (String.eqb _ ""); [by eexists|].
  destruct (strconv_Atoi _); [|by eexists].
  destruct (Email.buildMessage _ _ _ _ _ _ _) as [[message messageID]|];
    [|by eexists].
  destruct (Email.sendSMTP _ _ _ _ _ _ _ _ _) as [h [err|]]; by eexists.
Qed.

(** X28: in execute mode, with standard input empty or decoded by
    [json.Unmarshal], the email plugin writes exactly one document and
    exits with code 0: the result of [sendEmail] for the action [send],
    and [{"error": "unknown action: <name>"}] for any other name. *)
Theorem email_one_document (w : MailWorld) (e : Env) (action : string)
    (params : gmap string value) :
  execute_mode e action →
  decodes e params →
  run (Email.main w) e
  = (0, {| stdout := [if String.eqb action "send"
                      then VMap (Email.sendEmail e w params).1.1
                      else error_doc ("unknown action: " +:+ action)];
           stdin_read := true; calls := [(action, params)] |}).
Proof.
  intros Hmode Hdec. unfold Email.main.
  rewrite (std_main_decodes _ _ _ _ _ _ Hmode Hdec). unfold Email.Execute.
  destruct (String.eqb action "send"); [|done].
  destruct (sendEmail_document e w params) as (result & -> & Henc).
  unfold envelope, written. by rewrite Henc.
Qed.

End Mail.

(** * The email plugin's reference library at work *)

Module RefMailExamples.
Import RefMail.

Example base64_rfc4648 :
  base64_encode "" = "" ∧ base64_encode "f" = "Zg==" ∧ base64_encode "fo" = "Zm8="
  ∧ base64_encode "foo" = "Zm9v" ∧ base64_encode "foob" = "Zm9vYg=="
  ∧ base64_encode "fooba" = "Zm9vYmE=" ∧ base64_encode "foobar" = "Zm9vYmFy".
Proof. vm_compute. repeat split; reflexivity. Qed.

Example Base_and_Ext :
  Base "/tmp/report.txt" = "report.txt" ∧ Base "/tmp/dir/" = "dir" ∧ Base "" = "."
  ∧ Base "///" = "/" ∧ Base "name" = "name"
  ∧ Ext "/tmp/report.txt" = ".txt" ∧ Ext "/tmp.d/report" = ""
  ∧ Ext "archive.tar.gz" = ".gz" ∧ Ext "/tmp/.profile" = ".profile".
Proof. vm_compute. repeat split; reflexivity. Qed.

Example TypeByExtension_builtin :
  TypeByExtension ".pdf" = "application/pdf" ∧ TypeByExtension ".PNG" = "image/png"
  ∧ TypeByExtension ".txt" = "" ∧ TypeByExtension "" = "".
Proof. vm_compute. repeat split; reflexivity. Qed.

Example Atoi_and_ParseBool :
  Atoi "587" = Ok 587 ∧ Atoi "-1" = Ok (-1)
  ∧ Atoi "smtp" = Err (RefLib.NumError "Atoi" "smtp" "invalid syntax")
  ∧ ParseBool "true" = Ok true ∧ ParseBool "0" = Ok false
  ∧ ParseBool "yes" = Err (RefLib.NumError "ParseBool" "yes" "invalid syntax").
Proof. vm_compute. repeat split; reflexivity. Qed.

Import MailScenario.

(** A plain message to two recipients, through a server that offers
    STARTTLS. *)
Example sendEmail_accepted :
  Email.sendEmail (env [] "") (world accepting true) request
  = (({[ "success" := VBool true;
         "message_id" := VString "<1700000000000000000@corynth-email-plugin>" ]},
      None),
     [Dial "localhost:587"; Extension "STARTTLS"; StartTLS "localhost";
      Auth "bot" "secret" "localhost"; Mail "bot@example.com";
      Rcpt "a@example.com"; Rcpt "b@example.com"; Data;
      Write ("From: bot@example.com" +:+ CRLF
             +:+ "To: a@example.com, b@example.com" +:+ CRLF
             +:+ "Subject: Hello" +:+ CRLF
             +:+ "Message-ID: <1700000000000000000@corynth-email-plugin>" +:+ CRLF
             +:+ "MIME-Version: 1.0" +:+ CRLF
             +:+ "Content-Type: text/plain; charset=UTF-8" +:+ CRLF
             +:+ "Content-Transfer-Encoding: 8bit" +:+ CRLF
             +:+ CRLF
             +:+ "Hi there" +:+ CRLF);
      CloseWriter; Close]).
Proof. vm_compute. reflexivity. Qed.

End RefMailExamples.

(** * The further properties at work *)

Module FurtherRuns.
Import RefLib RefMail Scenario Faults.

Local Ltac execute_mode_here :=
  split; [by eexists _, _ | split; discriminate].

(** [calculator calculate] on [{"expression": "1e308 * 10"}]: the product
    is infinite, and nothing is written. *)
Lemma unencodable_result_writes_nothing_witness :
  run Calculator.main (env ["calculator"; "calculate"] request_overflow)
  = (0, {| stdout := []; stdin_read := true;
           calls := [("calculate", {[ "expression" := VString "1e308 * 10" ]})] |}).
Proof.
  refine (unencodable_result_writes_nothing Calculator.GetMetadata
            Calculator.GetActions (λ _, Calculator.Execute)
            (env ["calculator"; "calculate"] request_overflow) "calculate"
            {[ "expression" := VString "1e308 * 10" ]}
            {[ "result" := VFloat PrimFloat.infinity;
               "expression" := VString "1e308 * 10" ]}
            "result" PrimFloat.infinity _ _ _ _ _).
  - execute_mode_here.
  - right. exists request_overflow. split; [reflexivity |].
    split; [discriminate |]. vm_compute. reflexivity.
  - vm_compute. reflexivity.
  - reflexivity.
  - reflexivity.
Defined.

(** [calculator calculate] when standard input cannot be read. *)
Lemma read_failure_witness :
  run Calculator.main (env_unreadable ["calculator"; "calculate"])
  = (0, {| stdout := [error_doc "failed to read input: read /dev/stdin: input/output error"];
           stdin_read := true; calls := [] |}).
Proof.
  refine (proj1 (read_failure Calculator.GetMetadata Calculator.GetActions
                   (total (λ _, Calculator.Execute)) silent silent silent
                   (env_unreadable ["calculator"; "calculate"]) "calculate"
                   "read /dev/stdin: input/output error" _ _)).
  - execute_mode_here.
  - reflexivity.
Defined.

(** [llm generate] with two spaces on standard input. *)
Lemma llm_blank_stdin_witness :
  run (LLM.main silent silent silent) (env ["llm"; "generate"] "  ")
  = (0, {| stdout := written (VMap (LLM.Execute silent silent silent
                                      (env ["llm"; "generate"] "  ")
                                      "generate" ∅));
           stdin_read := true; calls := [("generate", ∅)] |}).
Proof.
  refine (llm_blank_stdin silent silent silent (env ["llm"; "generate"] "  ")
            "generate" "  " _ _ _).
  - execute_mode_here.
  - reflexivity.
  - vm_compute. reflexivity.
Defined.

(** The expression of Scenario A. *)
Lemma evalNode_arithmetic_only_witness :
  arithmetic (BinaryExpr (BasicLit INT "2") ADD
                (BinaryExpr (BasicLit INT "2") MUL (BasicLit INT "3"))).
Proof.
  refine (evalNode_arithmetic_only _ 8 _). vm_compute. reflexivity.
Defined.

(** [2.5 * 3] with precision -1. *)
Lemma negative_precision_rounds_to_integer_witness :
  Calculator.calculate
    {[ "expression" := VString "2.5 * 3"; "precision" := VFloat (-1) ]}
  = ({[ "result" := VFloat (math_Round 7.5);
        "expression" := VString "2.5 * 3" ]}, None).
Proof.
  refine (negative_precision_rounds_to_integer _ (-1) "2.5 * 3" 7.5 _ _ _ _ _).
  - reflexivity.
  - vm_compute. discriminate.
  - reflexivity.
  - discriminate.
  - vm_compute. reflexivity.
Defined.

(** A POST request with [json], with and without a [body]. *)
Lemma http_json_overrides_body_witness :
  HTTP.makePostRequest (env [] "") (<[ "body" := VString "ignored" ]> post_json)
  = HTTP.makePostRequest (env [] "") post_json.
Proof.
  refine (http_json_overrides_body (env [] "") post_json (VString "ignored") _).
  eexists. reflexivity.
Defined.

Import MailScenario.

(** The second of three recipients is the empty string. *)
Lemma email_first_offending_recipient_witness :
  Email.parseToEmails
    (Some (VSlice [VString "a@example.com"; VString ""; VFloat 1]))
  = Err "to[1] must be a non-empty string".
Proof.
  refine (email_first_offending_recipient
            [VString "a@example.com"; VString ""; VFloat 1] 1 (VString "") _ _ _).
  - reflexivity.
  - reflexivity.
  - simpl. repeat constructor.
Defined.

(** A delivery to two recipients through a server that accepts
    everything. *)
Lemma smtp_delivery_witness :
  (Email.sendSMTP (world accepting true) "localhost" 587 "bot" "secret" true
     "bot@example.com" ["a@example.com"; "b@example.com"] "Hi").1
  = (up_to_second_recipient
     ++ [Rcpt "b@example.com"; Data; Write "Hi"; CloseWriter; Close])%list.
Proof.
  refine (proj1 (smtp_delivery (world accepting true) "localhost" 587 "bot"
                   "secret" true "bot@example.com"
                   ["a@example.com"; "b@example.com"] "Hi" _)).
  vm_compute. reflexivity.
Defined.

(** The same delivery through a server that refuses the second
    recipient. *)
Lemma smtp_stops_at_first_refusal_witness :
  Email.sendSMTP (world (refusing "b@example.com") true) "localhost" 587 "bot"
    "secret" true "bot@example.com" ["a@example.com"; "b@example.com"] "Hi"
  = ((up_to_second_recipient ++ [Rcpt "b@example.com"; Close])%list,
     Some "failed to set recipient b@example.com: 550 no such user").
Proof.
  refine (smtp_stops_at_first_refusal (world (refusing "b@example.com") true)
            "localhost" 587 "bot" "secret" true "bot@example.com"
            ["a@example.com"; "b@example.com"] "Hi"
            up_to_second_recipient [Data; Write "Hi"; CloseWriter]
            (Rcpt "b@example.com") "550 no such user" _ _ _).
  - vm_compute. reflexivity.
  - vm_compute. reflexivity.
  - vm_compute. reflexivity.
Defined.

Lemma smtp_refused_recipient_witness :
  (Email.sendSMTP (world (refusing "b@example.com") true) "localhost" 587 "bot"
     "secret" true "bot@example.com" ["a@example.com"; "b@example.com"] "Hi").2
  ≠ None.
Proof.
  refine (proj1 (smtp_refused_recipient (world (refusing "b@example.com") true)
                   "localhost" 587 "bot" "secret" true "bot@example.com"
                   ["a@example.com"; "b@example.com"] "Hi" "b@example.com" _ _)).
  - apply elem_of_cons. right. apply elem_of_cons. by left.
  - intros h. simpl. discriminate.
Defined.

(** The request of [MailScenario], accepted. *)
Lemma email_commands_need_valid_request_witness :
  ∃ toEmails subject body,
    Email.parseToEmails (request !! "to") = Ok toEmails
    ∧ request !! "subject" = Some (VString subject) ∧ subject ≠ ""
    ∧ request !! "body" = Some (VString body) ∧ body ≠ ""
    ∧ Forall (λ p, readable (world accepting true) p = true)
        (Email.parseAttachments (request !! "attachments")).
Proof.
  refine (email_commands_need_valid_request (env [] "") (world accepting true)
            request _).
  vm_compute. discriminate.
Defined.

(** With [from_email] in the request, the sender of the environment does
    not matter. *)
Lemma email_sender_parameter_first_witness :
  Email.sendEmail (env_sender "bot@example.com" [] "") (world accepting true)
    (<[ "from_email" := VString "me@example.com" ]> request)
  = Email.sendEmail (env_sender "" [] "") (world accepting true)
      (<[ "from_email" := VString "me@example.com" ]> request).
Proof.
  refine (email_sender_parameter_first (env_sender "bot@example.com" [] "")
            (env_sender "" [] "") (world accepting true)
            (<[ "from_email" := VString "me@example.com" ]> request)
            "me@example.com" _ _ _).
  - reflexivity.
  - discriminate.
  - intros k Hk. simpl. by destruct (String.eqb_spec k "SMTP_FROM_EMAIL").
Defined.

(** [email send] with empty standard input. *)
Lemma email_one_document_witness :
  run (Email.main (world accepting true)) (env ["email"; "send"] "")
  = (0, {| stdout := [error_doc "to is required"]; stdin_read := true;
           calls := [("send", ∅)] |}).
Proof.
  refine (email_one_document (world accepting true) (env ["email"; "send"] "")
            "send" ∅ _ _).
  - execute_mode_here.
  - by left.
Defined.

End FurtherRuns.
